(** * Fundo: membership eligibility, class upgrades and repayment plans

    A shallow embedding of the business logic of the mutual-aid fund backend:

    - [backend/services/repayment_calculator.py]  (module [RepaymentCalculator])
    - [backend/services/class_upgrades.py]        (module [Class_upgradesService])
    - [backend/services/membership.py]            (module [MembershipService])
    - [backend/routers/class_upgrades.py]         (module [Class_upgradesRouter])
    - [backend/models/profiles.py], [backend/models/class_upgrades.py]

    Python values are modelled by small inductive types, [float] is the
    kernel's binary64, dictionaries and ORM objects are finite maps from
    attribute names to values, exceptions are an explicit [result] type, and
    the database session is passed explicitly. *)

From Stdlib Require Import ZArith QArith Qabs Floats Lia Lqa Ascii String Sorted.
From stdpp Require Import base option strings gmap list pretty.

Open Scope Z_scope.

(* ===================================================================== *)
(** ** Python values, exceptions and dictionaries *)
(* ===================================================================== *)

Module Py.

(** The exceptions the modelled code can raise.  [DBAPIError] stands for
    whatever [AsyncSession.commit] raises when persistence fails. *)
Inductive exn :=
| ValueError (msg : string)
| TypeError (msg : string)
| AttributeError (attr : string)
| OverflowError (msg : string)
| KeyError (key : string)
| IndexError
| MultipleResultsFound
| DBAPIError.

Inductive result (A : Type) :=
| Ok (a : A)
| Raise (e : exn).
Arguments Ok {A} a.
Arguments Raise {A} e.

Definition bind {A B} (r : result A) (k : A -> result B) : result B :=
  match r with
  | Ok a => k a
  | Raise e => Raise e
  end.

(** Values that end up in the dictionaries the services return. *)
Inductive value :=
| VNone
| VBool (b : bool)
| VInt (z : Z)
| VFloat (f : float)
| VStr (s : string).

(** A [dict] with string keys. *)
Abbreviation dict := (gmap string value).

(** [d.get(k)]: the value, or [None] when the key is absent. *)
Definition dict_get (d : dict) (k : string) : value :=
  default VNone (d !! k).

(** [int -> float], correctly rounded; Python raises when the integer is
    beyond the largest double. *)
Definition float_of_int (z : Z) : result float :=
  let f := SF2Prim (binary_normalize prec emax z 0 false) in
  if PrimFloat.is_infinity f
  then Raise (OverflowError "int too large to convert to float")
  else Ok f.

Definition int_of_bool (b : bool) : Z := if b then 1 else 0.

(** [a + b] on numbers ([bool] is a subtype of [int]). *)
Definition add (a b : value) : result value :=
  match a, b with
  | VFloat x, VFloat y => Ok (VFloat (x + y))
  | VFloat x, VInt y => bind (float_of_int y) (fun fy => Ok (VFloat (x + fy)))
  | VFloat x, VBool y => bind (float_of_int (int_of_bool y)) (fun fy => Ok (VFloat (x + fy)))
  | VInt x, VFloat y => bind (float_of_int x) (fun fx => Ok (VFloat (fx + y)))
  | VBool x, VFloat y => bind (float_of_int (int_of_bool x)) (fun fx => Ok (VFloat (fx + y)))
  | VInt x, VInt y => Ok (VInt (x + y))
  | VInt x, VBool y => Ok (VInt (x + int_of_bool y))
  | VBool x, VInt y => Ok (VInt (int_of_bool x + y))
  | VBool x, VBool y => Ok (VInt (int_of_bool x + int_of_bool y))
  | _, _ => Raise (TypeError "unsupported operand type(s) for +")
  end.

(** The builtin [sum(xs)]: a left fold of [+] that starts from the integer 0. *)
Fixpoint sum_from (acc : value) (xs : list value) : result value :=
  match xs with
  | [] => Ok acc
  | x :: xs' => bind (add acc x) (fun acc' => sum_from acc' xs')
  end.

Definition sum (xs : list value) : result value := sum_from (VInt 0) xs.

End Py.

Import Py.

(** Exceptions propagate through stdpp's monadic notation [x ← c; k]. *)
#[global] Instance result_ret : MRet result := @Ok.
#[global] Instance result_bind : MBind result := fun A B k r => Py.bind r k.

(* ===================================================================== *)
(** ** binary64 arithmetic and the builtin [round(x, 2)] *)
(* ===================================================================== *)

Module PyFloat.

(** Nearest integer to [num / den] ([den > 0]), ties to even. *)
Definition round_half_even (num den : Z) : Z :=
  let q := num / den in
  match 2 * (num mod den) ?= den with
  | Lt => q
  | Gt => q + 1
  | Eq => if Z.even q then q else q + 1
  end.

(** The double nearest to [n / d] (ties to even), sign [neg]. *)
Definition nearest_double (neg : bool) (n d : positive) : float :=
  SF2Prim (SFdiv prec emax (S754_finite neg n 0) (S754_finite false d 0)).

(** The magnitude of a finite double [m * 2^e] as a fraction of integers. *)
Definition numerator (m : positive) (e : Z) : Z := Z.pos m * 2 ^ Z.max e 0.
Definition denominator (e : Z) : Z := 2 ^ Z.max (- e) 0.

(** The exact value of a double (0 for infinities and NaN). *)
Definition exact (x : float) : Q :=
  match Prim2SF x with
  | S754_finite neg m e =>
      let n := numerator m e in
      Qmake (if neg then - n else n) (Z.to_pos (denominator e))
  | _ => 0%Q
  end.

(** The number of hundredths nearest to the exact value of [x], ties to
    even: the decimal [round(x, 2)] denotes, times 100. *)
Definition cents (x : float) : Z :=
  match Prim2SF x with
  | S754_finite neg m e =>
      let c := round_half_even (100 * numerator m e) (denominator e) in
      if neg then - c else c
  | _ => 0
  end.

(** The double nearest to a number of hundredths; zero keeps the sign. *)
Definition of_cents (neg : bool) (c : Z) : float :=
  match c with
  | Z.pos q => nearest_double neg q 100
  | _ => if neg then (-0)%float else 0%float
  end.

(** [round(x, 2)] on a float.  CPython prints the exact binary value with
    two decimals, correctly rounded (ties to even), and reads the decimal
    back as the nearest double; infinities, NaN and zeros round to
    themselves and the sign is kept. *)
Definition round2 (x : float) : float :=
  match Prim2SF x with
  | S754_finite neg m e =>
      of_cents neg (round_half_even (100 * numerator m e) (denominator e))
  | _ => x
  end.

(** The two-decimal number [round(x, 2)] stands for. *)
Definition decimal (x : float) : Q := (inject_Z (cents x) * (1 # 100))%Q.

(** The literals [1.02] and [0.02] of the source, as the doubles Python
    reads them. *)
Definition lit_1_02 : float := 0x1.051eb851eb852p+0%float.
Definition lit_0_02 : float := 0x1.47ae147ae147bp-6%float.

(** A small [int] operand of float arithmetic. *)
Definition of_small_int (z : Z) : float :=
  SF2Prim (binary_normalize prec emax z 0 false).

End PyFloat.

(* ===================================================================== *)
(** ** Calendar dates: [datetime], [strftime], [strptime], [relativedelta] *)
(* ===================================================================== *)

Module DateTime.

Record date := Date { year : Z; month : Z; day : Z }.

Record datetime := DateTime { date_of : date; hour : Z; minute : Z; second : Z }.

Definition MAXYEAR : Z := 9999.

Definition is_leap (y : Z) : bool :=
  (y mod 4 =? 0) && (negb (y mod 100 =? 0) || (y mod 400 =? 0)).

(** [calendar.monthrange(y, m)[1]] *)
Definition days_in_month (y m : Z) : Z :=
  if m =? 2 then (if is_leap y then 29 else 28)
  else if (m =? 4) || (m =? 6) || (m =? 9) || (m =? 11) then 30
  else 31.

(** What every [date] object satisfies. *)
Definition valid (d : date) : Prop :=
  1 <= year d <= MAXYEAR /\ 1 <= month d <= 12 /\
  1 <= day d <= days_in_month (year d) (month d).

Definition validb (d : date) : bool :=
  (1 <=? year d) && (year d <=? MAXYEAR) && (1 <=? month d) && (month d <=? 12) &&
  (1 <=? day d) && (day d <=? days_in_month (year d) (month d)).

(** [a < b] on dates: by year, then month, then day. *)
Definition ltb (a b : date) : bool :=
  (year a <? year b) ||
  ((year a =? year b) &&
   ((month a <? month b) || ((month a =? month b) && (day a <? day b)))).

(** [date.toordinal()]: days since 0001-01-01, that day being 1. *)
Definition days_before_year (y : Z) : Z :=
  let p := y - 1 in p * 365 + p / 4 - p / 100 + p / 400.

Definition days_before_month (y m : Z) : Z :=
  let cumulative :=
    nth (Z.to_nat m) [0; 0; 31; 59; 90; 120; 151; 181; 212; 243; 273; 304; 334] 0 in
  cumulative + (if (2 <? m) && is_leap y then 1 else 0).

Definition toordinal (d : date) : Z :=
  days_before_year (year d) + days_before_month (year d) (month d) + day d.

(** [(a - b).days] *)
Definition days_between (a b : date) : Z := toordinal a - toordinal b.

(** Decimal digits, zero-padded to [width] (the low [width] digits). *)
Definition digit (d : Z) : ascii := ascii_of_nat (48 + Z.to_nat d).

Fixpoint zfill (width : nat) (n : Z) (acc : string) : string :=
  match width with
  | O => acc
  | S w => zfill w (n / 10) (String (digit (n mod 10)) acc)
  end.

(** [d.strftime("%Y-%m-%d")], for the years from 1000 on that
    [datetime.now()] returns (before, the padding of [%Y] depends on the
    platform). *)
Definition strftime_ymd (d : date) : string :=
  zfill 4 (year d) ("-" +:+ zfill 2 (month d) ("-" +:+ zfill 2 (day d) "")).

(** [dt.strftime("%Y-%m-%d %H:%M:%S")] *)
Definition strftime_ymd_hms (dt : datetime) : string :=
  strftime_ymd (date_of dt) +:+ " " +:+
  zfill 2 (hour dt) (":" +:+ zfill 2 (minute dt) (":" +:+ zfill 2 (second dt) "")).

(** *** [datetime.strptime(s, "%Y-%m-%d").date()]

    A [str] is kept as its UTF-8 text.  The format is matched as the
    regular expression the library builds from it, in which [\d] stands
    for any decimal digit of Unicode and a class such as [[0-2]] for
    ASCII characters only; [int] then reads the digits. *)

Definition code (c : ascii) : Z := Z.of_nat (nat_of_ascii c).

(** The payload of a continuation byte of UTF-8. *)
Definition continuation (c : ascii) : option Z :=
  if (128 <=? code c) && (code c <? 192) then Some (code c - 128) else None.

(** The code points of UTF-8 text; bytes that are no UTF-8 stand for no
    [str]. *)
Fixpoint code_points (cs : list ascii) : option (list Z) :=
  match cs with
  | [] => Some []
  | c :: rest =>
      if code c <? 128 then cons (code c) <$> code_points rest
      else if code c <? 192 then None
      else if code c <? 224 then
        match rest with
        | c1 :: rest =>
            x1 ← continuation c1;
            let p := 64 * (code c - 192) + x1 in
            if 128 <=? p then cons p <$> code_points rest else None
        | _ => None
        end
      else if code c <? 240 then
        match rest with
        | c1 :: c2 :: rest =>
            x1 ← continuation c1; x2 ← continuation c2;
            let p := 4096 * (code c - 224) + 64 * x1 + x2 in
            if (2048 <=? p) && negb ((55296 <=? p) && (p <=? 57343))
            then cons p <$> code_points rest else None
        | _ => None
        end
      else if code c <? 248 then
        match rest with
        | c1 :: c2 :: c3 :: rest =>
            x1 ← continuation c1; x2 ← continuation c2; x3 ← continuation c3;
            let p := 262144 * (code c - 240) + 4096 * x1 + 64 * x2 + x3 in
            if (65536 <=? p) && (p <=? 1114111)
            then cons p <$> code_points rest else None
        | _ => None
        end
      else None
  end.

(** The digit zero of every script that has decimal digits (the
    characters of category Nd, Unicode 14.0, as in Python 3.11); the
    digits 1 to 9 of the script follow their zero. *)
Definition decimal_zeros : list Z :=
  [48; 1632; 1776; 1984; 2406; 2534; 2662; 2790;
   2918; 3046; 3174; 3302; 3430; 3558; 3664; 3792;
   3872; 4160; 4240; 6112; 6160; 6470; 6608; 6784;
   6800; 6992; 7088; 7232; 7248; 42528; 43216; 43264;
   43472; 43504; 43600; 44016; 65296; 66720; 68912; 69734;
   69872; 69942; 70096; 70384; 70736; 70864; 71248; 71360;
   71472; 71904; 72016; 72784; 73040; 73120; 92768; 92864;
   93008; 120782; 120792; 120802; 120812; 120822; 123200; 123632;
   125264; 130032].

(** [\d], with the value [int] gives the digit. *)
Definition decimal_digit (p : Z) : option Z :=
  (fun zero => p - zero) <$>
  head (filter (fun zero => zero <= p < zero + 10) decimal_zeros).

(** [[0-9]] *)
Definition ascii_digit (p : Z) : option Z :=
  if (48 <=? p) && (p <=? 57) then Some (p - 48) else None.

(** [%Y]: [\d\d\d\d] *)
Definition parse_year (cs : list ascii) : option Z :=
  ps ← code_points cs;
  match ps with
  | [a; b; c; d] =>
      a ← decimal_digit a; b ← decimal_digit b; c ← decimal_digit c; d ← decimal_digit d;
      Some (1000 * a + 100 * b + 10 * c + d)
  | _ => None
  end.

(** [%m]: [1[0-2]|0[1-9]|[1-9]] *)
Definition parse_month (cs : list ascii) : option Z :=
  ps ← code_points cs;
  match ps with
  | [a] => a ← ascii_digit a; if 1 <=? a then Some a else None
  | [a; b] =>
      a ← ascii_digit a; b ← ascii_digit b;
      if (a =? 1) && (b <=? 2) then Some (10 + b)
      else if (a =? 0) && (1 <=? b) then Some b
      else None
  | _ => None
  end.

(** [%d]: [3[0-1]|[1-2]\d|0[1-9]|[1-9]| [1-9]] *)
Definition parse_day (cs : list ascii) : option Z :=
  ps ← code_points cs;
  match ps with
  | [a] => a ← ascii_digit a; if 1 <=? a then Some a else None
  | [a; b] =>
      match ascii_digit a with
      | Some a =>
          if a =? 3 then b ← ascii_digit b; if b <=? 1 then Some (30 + b) else None
          else if (1 <=? a) && (a <=? 2) then b ← decimal_digit b; Some (10 * a + b)
          else if a =? 0 then b ← ascii_digit b; if 1 <=? b then Some b else None
          else None
      | None =>
          if a =? 32 then b ← ascii_digit b; if 1 <=? b then Some b else None
          else None
      end
  | _ => None
  end.

(** The text before the first ["-"], and the text after it. *)
Fixpoint split_dash (cs : list ascii) : option (list ascii * list ascii) :=
  match cs with
  | [] => None
  | c :: rest =>
      if Ascii.eqb c "-" then Some ([], rest)
      else '(a, b) ← split_dash rest; Some (c :: a, b)
  end.

Definition parse_ymd (s : string) : option date :=
  '(y, rest) ← split_dash (list_ascii_of_string s);
  '(m, d) ← split_dash rest;
  y ← parse_year y; m ← parse_month m; d ← parse_day d;
  let r := Date y m d in
  if validb r then Some r else None.

Definition strptime_ymd (s : string) : result date :=
  match parse_ymd s with
  | Some d => Ok d
  | None => Raise (ValueError "time data does not match format '%Y-%m-%d'")
  end.

(** *** [dateutil.relativedelta] restricted to [relativedelta(months=n)] *)

Record relativedelta := RelativeDelta { years : Z; months : Z }.

(** The constructor, with its normalisation of twelve months or more
    into years ([_fix]). *)
Definition relativedelta_months (n : Z) : relativedelta :=
  if 11 <? Z.abs n
  then let s := Z.sgn n in
       RelativeDelta (((n * s) / 12) * s) (((n * s) mod 12) * s)
  else RelativeDelta 0 n.

(** [dt + rd]: shift the year and the month, then clip the day to the
    length of the month reached; a year past [MAXYEAR] is refused by
    [datetime.replace]. *)
Definition add (dt : datetime) (rd : relativedelta) : result datetime :=
  let d := date_of dt in
  let y := year d + years rd in
  let m := month d in
  let '(y, m) :=
    if months rd =? 0 then (y, m)
    else let m := m + months rd in
         if 12 <? m then (y + 1, m - 12)
         else if m <? 1 then (y - 1, m + 12)
         else (y, m) in
  let dd := Z.min (days_in_month y m) (day d) in
  if (1 <=? y) && (y <=? MAXYEAR)
  then Ok (DateTime (Date y m dd) (hour dt) (minute dt) (second dt))
  else Raise (ValueError ("year " +:+ pretty y +:+ " is out of range")).

(** Months since year 0, to compare dates by calendar month. *)
Definition month_index (d : date) : Z := 12 * year d + month d.

End DateTime.

(* ===================================================================== *)
(** ** [services/repayment_calculator.py] *)
(* ===================================================================== *)

Module RepaymentCalculator.
Import DateTime.

(** The dictionary [calculate_repayment_plan] returns; its schedule is a
    list of dictionaries with the keys [installment_number], [amount],
    [due_date] and [status]. *)
Record RepaymentPlan := {
  approved_amount : float;
  administrative_fee : float;
  total_to_repay : float;
  installments : Z;
  installment_amount : float;
  schedule : list dict;
  first_due_date : value;
  last_due_date : value
}.

Definition installment (i : Z) (amount : float) (due : datetime) : dict :=
  {[ "installment_number" := VInt i;
     "amount" := VFloat (PyFloat.round2 amount);
     "due_date" := VStr (strftime_ymd (date_of due));
     "status" := VStr "pending" ]}.

(** The body of [for i in range(1, installments + 1)], over the values
    [i] takes; [schedule.append] adds at the end. *)
Fixpoint build_schedule (current_date : datetime) (installment_amount : float)
    (range : list Z) (schedule : list dict) : result (list dict) :=
  match range with
  | [] => Ok schedule
  | i :: range' =>
      due_date ← DateTime.add current_date (relativedelta_months i);
      build_schedule current_date installment_amount range'
        (schedule ++ [installment i installment_amount due_date])
  end.

(** [schedule[0]["due_date"]] and [schedule[-1]["due_date"]] *)
Definition due_date_at (entry : option dict) : result value :=
  match entry with
  | Some inst =>
      match inst !! "due_date" with
      | Some v => Ok v
      | None => Raise (KeyError "due_date")
      end
  | None => Raise IndexError
  end.

(** [calculate_repayment_plan(approved_amount, installments)], run when
    [datetime.now()] is [now]. *)
Definition calculate_repayment_plan (now : datetime)
    (approved_amount : float) (installments : Z) : result RepaymentPlan :=
  if (installments <? 1) || (12 <? installments)
  then Raise (ValueError "Installments must be between 1 and 12")
  else
    let total_to_repay := (approved_amount * PyFloat.lit_1_02)%float in
    let installment_amount :=
      (total_to_repay / PyFloat.of_small_int installments)%float in
    let current_date := now in
    schedule ← build_schedule current_date installment_amount
                 (seqZ 1 installments) [];
    first ← due_date_at (head schedule);
    last ← due_date_at (last schedule);
    Ok {| approved_amount := approved_amount;
          administrative_fee := (approved_amount * PyFloat.lit_0_02)%float;
          total_to_repay := PyFloat.round2 total_to_repay;
          installments := installments;
          installment_amount := PyFloat.round2 installment_amount;
          schedule := schedule;
          first_due_date := first;
          last_due_date := last |}.

(** The dictionary [check_overdue_installments] returns. *)
Record OverdueReport := {
  has_overdue : bool;
  overdue_count : Z;
  overdue_installments : list dict;
  total_overdue_amount : value
}.

(** [inst.get("status") == "pending"] *)
Definition is_pending (inst : dict) : bool :=
  match dict_get inst "status" with
  | VStr s => String.eqb s "pending"
  | _ => false
  end.

(** [datetime.strptime(inst.get("due_date"), "%Y-%m-%d").date()] *)
Definition parse_due_date (inst : dict) : result date :=
  match dict_get inst "due_date" with
  | VStr s => strptime_ymd s
  | _ => Raise (TypeError "strptime() argument 1 must be str")
  end.

Definition overdue_entry (inst : dict) (days_overdue : Z) : dict :=
  {[ "installment_number" := dict_get inst "installment_number";
     "amount" := dict_get inst "amount";
     "due_date" := dict_get inst "due_date";
     "days_overdue" := VInt days_overdue ]}.

(** The [for inst in installments] loop; [overdue] is the list built so far. *)
Fixpoint scan (today : date) (installments : list dict) (overdue : list dict)
    : result (list dict) :=
  match installments with
  | [] => Ok overdue
  | inst :: rest =>
      if is_pending inst then
        due_date ← parse_due_date inst;
        if ltb due_date today
        then scan today rest
               (overdue ++ [overdue_entry inst (days_between today due_date)])
        else scan today rest overdue
      else scan today rest overdue
  end.

(** [check_overdue_installments(installments)], run when
    [datetime.now().date()] is [today]. *)
Definition check_overdue_installments (today : date) (installments : list dict)
    : result OverdueReport :=
  overdue ← scan today installments [];
  total ← Py.sum ((fun inst => dict_get inst "amount") <$> overdue);
  Ok {| has_overdue := bool_decide (0 < length overdue)%nat;
        overdue_count := Z.of_nat (length overdue);
        overdue_installments := overdue;
        total_overdue_amount := total |}.

End RepaymentCalculator.

(* ===================================================================== *)
(** ** ORM objects, the session and the generated CRUD services *)
(* ===================================================================== *)

Module Orm.

(** What SQLAlchemy loads from an [Integer], [String] or [Boolean] column. *)
Inductive colval :=
| Null
| CBool (b : bool)
| CInt (z : Z)
| CStr (s : string).

Definition colval_eqb (a b : colval) : bool :=
  match a, b with
  | Null, Null => true
  | CBool x, CBool y => Bool.eqb x y
  | CInt x, CInt y => x =? y
  | CStr x, CStr y => String.eqb x y
  | _, _ => false
  end.

Definition to_value (v : colval) : value :=
  match v with
  | Null => VNone
  | CBool b => VBool b
  | CInt z => VInt z
  | CStr s => VStr s
  end.

(** [bool(v)] *)
Definition truthy (v : colval) : bool :=
  match v with
  | Null => false
  | CBool b => b
  | CInt z => negb (z =? 0)
  | CStr s => negb (String.eqb s "")
  end.

(** [v or d] *)
Definition or_else (v d : colval) : colval := if truthy v then v else d.

(** [str(v)], as an f-string prints it. *)
Definition str (v : colval) : string :=
  match v with
  | Null => "None"
  | CBool true => "True"
  | CBool false => "False"
  | CInt z => pretty z
  | CStr s => s
  end.

(** The integer a number stands for in arithmetic and comparisons. *)
Definition as_int (v : colval) : result Z :=
  match v with
  | CInt z => Ok z
  | CBool b => Ok (int_of_bool b)
  | _ => Raise (TypeError "unsupported operand type(s)")
  end.

(** A mapped instance: its mapped state, the attributes a row gives it,
    by name. *)
Abbreviation obj := (gmap string colval).

Definition getattr (o : obj) (name : string) : result colval :=
  match o !! name with
  | Some v => Ok v
  | None => Raise (AttributeError name)
  end.

Definition hasattr (o : obj) (name : string) : bool :=
  bool_decide (is_Some (o !! name)).

Definition setattr (o : obj) (name : string) (v : colval) : obj :=
  <[name := v]> o.

Definition row_id (o : obj) : Z :=
  match o !! "id" with
  | Some (CInt z) => z
  | _ => 0
  end.

(** The database behind the [AsyncSession]: the two tables the membership
    service touches, rows in insertion order, and the outcomes of the
    commits still to come ([true]: the commit raises; none left: it
    succeeds). *)
Record Session := {
  profiles : list obj;
  class_upgrades : list obj;
  commit_faults : list bool
}.

(** What an attribute of a mapped class that is no column holds, as far
    as [==] with a value can tell: [None], a [bool], an [int] or a [str],
    or any other object, which equals none of them. *)
Inductive attribute :=
| Constant (v : colval)
| Object.

(** Python's [a == b] on [None], [bool], [int] and [str]: a [bool] is the
    [int] 0 or 1. *)
Definition py_eq (a b : colval) : bool :=
  match a, b with
  | Null, Null => true
  | CStr x, CStr y => String.eqb x y
  | CBool x, CBool y => Bool.eqb x y
  | CInt x, CInt y => x =? y
  | CBool x, CInt y => int_of_bool x =? y
  | CInt x, CBool y => x =? int_of_bool y
  | _, _ => false
  end.

(** [attr == value], a Python [bool], for an attribute that is no
    column. *)
Definition attribute_eq (a : attribute) (value : colval) : bool :=
  match a with
  | Constant c => py_eq c value
  | Object => false
  end.

(** A declarative model: its columns, the other attributes of the class,
    and its table in the session. *)
Record Model := {
  columns : list string;
  class_attributes : list (string * attribute);
  table : Session -> list obj;
  with_table : list obj -> Session -> Session
}.

(** A coroutine that uses the session: it returns or raises, and leaves
    the session behind. *)
Definition io (A : Type) : Type := Session -> result A * Session.

Definition io_ret {A} (a : A) : io A := fun db => (Ok a, db).
Definition io_raise {A} (e : exn) : io A := fun db => (Raise e, db).
Definition io_bind {A B} (c : io A) (k : A -> io B) : io B :=
  fun db =>
    match c db with
    | (Ok a, db') => k a db'
    | (Raise e, db') => (Raise e, db')
    end.
Definition lift {A} (r : result A) : io A := fun db => (r, db).

(** Whether the [k]-th commit from now raises. *)
Definition fails_at (k : nat) (db : Session) : bool :=
  nth k (commit_faults db) false.

(** The session once a commit has been attempted. *)
Definition attempted (db : Session) : Session :=
  {| profiles := profiles db; class_upgrades := class_upgrades db;
     commit_faults := tail (commit_faults db) |}.

(** [await self.db.commit()] of the pending changes [staged] to the table
    of [M]; when it raises, the [except] branch of every service method
    rolls the changes back and re-raises. *)
Definition commit (M : Model) (staged : list obj) : io unit :=
  fun db =>
    if fails_at 0 db
    then (Raise DBAPIError, attempted db)
    else (Ok tt, with_table M staged (attempted db)).

End Orm.

Import Orm.

#[global] Instance io_mret : MRet io := @io_ret.
#[global] Instance io_mbind : MBind io := fun A B k c => io_bind c k.

(** [models/profiles.py] and [models/class_upgrades.py] *)
Module Models.

(** The attributes of a model class that are no columns, as far as the
    sources tell: [__tablename__] and [__table_args__] of the class body,
    and what every class mapped on a declarative base carries, its
    [__table__], its [__mapper__], and the [metadata] and [registry] of
    the base.  [Base] itself is declared in [core/database.py], which is
    not among the sources: what else a class inherits, from it and from
    [object], is not listed, so the properties of the queries by
    attribute name are stated for the names listed here and for the
    names that are no identifiers. *)
Definition declared (tablename : string) : list (string * attribute) :=
  [("__tablename__", Constant (CStr tablename)); ("__table_args__", Object);
   ("__table__", Object); ("__mapper__", Object);
   ("metadata", Object); ("registry", Object)].

Definition Profiles : Model := {|
  columns := ["id"; "user_id"; "full_name"; "phone"; "membership_class";
              "account_status"; "consecutive_months_paid"; "months_late";
              "stripe_subscription_id"; "created_at"; "updated_at"];
  class_attributes := declared "profiles";
  table := profiles;
  with_table := fun rows db =>
    {| profiles := rows; class_upgrades := class_upgrades db;
       commit_faults := commit_faults db |}
|}.

Definition Class_upgrades : Model := {|
  columns := ["id"; "user_id"; "profile_id"; "from_class"; "to_class";
              "status"; "payments_in_new_class"; "requested_at"; "activated_at"];
  class_attributes := declared "class_upgrades";
  table := class_upgrades;
  with_table := fun rows db =>
    {| profiles := profiles db; class_upgrades := rows;
       commit_faults := commit_faults db |}
|}.

(** A row of the model's table carries exactly the model's columns. *)
Definition instance_of (M : Model) (o : obj) : Prop :=
  forall name, is_Some (o !! name) <-> name ∈ columns M.

End Models.

(** The service layer every entity gets ([services/class_upgrades.py] is
    the instance at [Models.Class_upgrades]), for the model [M]. *)
Module Service.
Section WithModel.
Variable M : Model.

(** Whether [field] names a column of the model. *)
Definition is_column (field : string) : bool :=
  existsb (String.eqb field) (columns M).

(** The attribute of the class that [field] names, when it is no
    column. *)
Definition class_attribute (field : string) : option attribute :=
  snd <$> head (filter (fun kv => String.eqb field kv.1 = true) (class_attributes M)).

(** [hasattr(Model, field)]: a column, or another attribute of the
    class. *)
Definition has_attribute (field : string) : bool :=
  is_column field || bool_decide (is_Some (class_attribute field)).

(** The constructor called with the keywords [data]: every column is
    [None] unless [data] sets it; a keyword the class has no attribute
    for is refused; a keyword that names an attribute that is no column
    sets it on the instance, which leaves the mapped state, the row to
    be, as it is. *)
Fixpoint construct (data : list (string * colval)) (o : obj) : result obj :=
  match data with
  | [] => Ok o
  | (k, v) :: data' =>
      if is_column k then construct data' (setattr o k v)
      else if has_attribute k then construct data' o
      else Raise (TypeError (k +:+ " is an invalid keyword argument"))
  end.

Definition blank : obj :=
  list_to_map ((fun c => (c, Null)) <$> columns M).

(** The next value of the autoincrement primary key. *)
Definition next_id (rows : list obj) : Z :=
  1 + foldr Z.max 0 (row_id <$> rows).

(** [data['user_id'] = user_id] *)
Fixpoint dict_set (data : list (string * colval)) (k : string) (v : colval)
    : list (string * colval) :=
  match data with
  | [] => [(k, v)]
  | (k', v') :: data' =>
      if String.eqb k' k then (k, v) :: data' else (k', v') :: dict_set data' k v
  end.

(** [create(data, user_id)] *)
Definition create (data : list (string * colval)) (user_id : string) : io obj :=
  fun db =>
    let data := if negb (String.eqb user_id "")
                then dict_set data "user_id" (CStr user_id) else data in
    match construct data blank with
    | Raise e => (Raise e, db)
    | Ok o =>
        let rows := table M db in
        let o := if colval_eqb (default Null (o !! "id")) Null
                 then setattr o "id" (CInt (next_id rows)) else o in
        if existsb (fun r => row_id r =? row_id o) rows
        then (Raise DBAPIError, db)
        else (_ ← commit M (rows ++ [o]); mret o) db
    end.

(** [Model.user_id == user_id], asked only when a [user_id] is given. *)
Definition owned_by (user_id : string) (r : obj) : bool :=
  String.eqb user_id "" || colval_eqb (default Null (r !! "user_id")) (CStr user_id).

(** [Model.id == obj_id]; no primary key is [NULL]. *)
Definition id_is (obj_id : colval) (r : obj) : bool :=
  negb (colval_eqb obj_id Null) && colval_eqb (default Null (r !! "id")) obj_id.

Definition selects (obj_id : colval) (user_id : string) (r : obj) : bool :=
  id_is obj_id r && owned_by user_id r.

(** [get_by_id(obj_id, user_id)], ending in [scalar_one_or_none()] *)
Definition get_by_id (db : Session) (obj_id : colval) (user_id : string)
    : result (option obj) :=
  match filter (fun r => selects obj_id user_id r = true) (table M db) with
  | [] => Ok None
  | [r] => Ok (Some r)
  | _ => Raise MultipleResultsFound
  end.

(** [Model.field == value], for a column. *)
Definition field_is (field_name : string) (field_value : colval) (r : obj) : bool :=
  colval_eqb (default Null (r !! field_name)) field_value.

(** [getattr(Model, field) == value] as a [where] clause, for an
    attribute of the class: the comparison with a column, or the Python
    [bool] that [==] gives on another attribute, a clause every row
    answers or none. *)
Definition equals (field : string) (value : colval) (r : obj) : bool :=
  if is_column field then field_is field value r
  else match class_attribute field with
       | Some a => attribute_eq a value
       | None => false
       end.

(** One [where(getattr(Model, field) == value)] of [get_list]; a field
    the class has no attribute for adds no condition. *)
Definition matches (query : string * colval) (r : obj) : bool :=
  let '(field, value) := query in
  if has_attribute field then equals field value r else true.

Definition selected (user_id : string) (query_dict : list (string * colval))
    (r : obj) : bool :=
  owned_by user_id r && forallb (fun q => matches q r) query_dict.

(** [order_by(Model.id.desc())] *)
Fixpoint insert_desc (r : obj) (rows : list obj) : list obj :=
  match rows with
  | [] => [r]
  | r' :: rows' =>
      if row_id r' <=? row_id r then r :: rows
      else r' :: insert_desc r rows'
  end.

Definition order_by_id_desc (rows : list obj) : list obj :=
  foldr insert_desc [] rows.

Record Page := { items : list obj; total : Z; skip : nat; limit : nat }.

(** [get_list(skip, limit, user_id, query_dict)] with [sort=None], the
    only way the membership service calls it. *)
Definition get_list (db : Session) (skip limit : nat) (user_id : string)
    (query_dict : list (string * colval)) : Page :=
  let rows := filter (fun r => selected user_id query_dict r = true) (table M db) in
  {| items := take limit (drop skip (order_by_id_desc rows));
     total := Z.of_nat (length rows);
     skip := skip;
     limit := limit |}.

(** The loop [for key, value in update_data.items()] of [update].  A key
    that names an attribute of the class that is no column is set on the
    instance too; the mapped state is then left as it is, as it is for a
    key the object has no attribute for. *)
Fixpoint assign (o : obj) (update_data : list (string * colval)) : obj :=
  match update_data with
  | [] => o
  | (key, value) :: rest =>
      if hasattr o key && negb (String.eqb key "user_id")
      then assign (setattr o key value) rest
      else assign o rest
  end.

(** The table once the changed object is flushed: the row with its
    primary key is replaced. *)
Definition flush (obj_id : colval) (o' : obj) (rows : list obj) : list obj :=
  (fun r => if id_is obj_id r then o' else r) <$> rows.

(** [update(obj_id, update_data, user_id)] *)
Definition update (obj_id : colval) (update_data : list (string * colval))
    (user_id : string) : io (option obj) :=
  fun db =>
    match get_by_id db obj_id user_id with
    | Raise e => (Raise e, db)
    | Ok None => (Ok None, db)
    | Ok (Some o) =>
        let o' := assign o update_data in
        (_ ← commit M (flush obj_id o' (table M db)); mret (Some o')) db
    end.

(** [check_ownership(obj_id, user_id)]: whatever [get_by_id] raises is
    logged and answered with [False]. *)
Definition check_ownership (db : Session) (obj_id : colval) (user_id : string) : bool :=
  match get_by_id db obj_id user_id with
  | Ok (Some _) => true
  | Ok None => false
  | Raise _ => false
  end.

(** The table once [db.delete(obj)] is flushed: the row with the primary
    key is gone. *)
Definition remove (obj_id : colval) (rows : list obj) : list obj :=
  filter (fun r => id_is obj_id r = false) rows.

(** [delete(obj_id, user_id)] *)
Definition delete (obj_id : colval) (user_id : string) : io bool :=
  fun db =>
    match get_by_id db obj_id user_id with
    | Raise e => (Raise e, db)
    | Ok None => (Ok false, db)
    | Ok (Some o) =>
        (_ ← commit M (remove obj_id (table M db)); mret true) db
    end.

(** The name of the model's class, as the error messages print it. *)
Variable class_name : string.

Definition no_such_field (field_name : string) : exn :=
  ValueError ("Field " +:+ field_name +:+ " does not exist on " +:+ class_name).

(** [get_by_field(field_name, field_value)], ending in
    [scalar_one_or_none()]; no owner is asked for. *)
Definition get_by_field (db : Session) (field_name : string) (field_value : colval)
    : result (option obj) :=
  if negb (has_attribute field_name) then Raise (no_such_field field_name)
  else
    match filter (fun r => equals field_name field_value r = true) (table M db) with
    | [] => Ok None
    | [r] => Ok (Some r)
    | _ => Raise MultipleResultsFound
    end.

(** [list_by_field(field_name, field_value, skip, limit)]: the statement
    orders by [id] descending before it skips and limits. *)
Definition list_by_field (db : Session) (field_name : string) (field_value : colval)
    (skip limit : nat) : result (list obj) :=
  if negb (has_attribute field_name) then Raise (no_such_field field_name)
  else
    Ok (take limit (drop skip (order_by_id_desc
          (filter (fun r => equals field_name field_value r = true) (table M db))))).

End WithModel.

Arguments field_is field_name field_value r /.
Arguments equals M field value r /.

End Service.

(** [services/class_upgrades.py] *)
Module Class_upgradesService.
Definition create := Service.create Models.Class_upgrades.
Definition get_by_id := Service.get_by_id Models.Class_upgrades.
Definition get_list := Service.get_list Models.Class_upgrades.
Definition update := Service.update Models.Class_upgrades.
Definition check_ownership := Service.check_ownership Models.Class_upgrades.
Definition delete := Service.delete Models.Class_upgrades.
Definition get_by_field := Service.get_by_field Models.Class_upgrades "Class_upgrades".
Definition list_by_field := Service.list_by_field Models.Class_upgrades "Class_upgrades".
End Class_upgradesService.

(** [routers/class_upgrades.py]: the handlers of the routes of one record
    and of the batch deletion.  A handler is given what FastAPI hands it
    once the request is validated: the path parameter, the body, and
    [str(current_user.id)] as [user_id].  Logging is left out. *)
Module Class_upgradesRouter.

(** The [detail] of an [HTTPException]: a text, or a text followed by
    [str(e)] for the exception [e] the handler caught. *)
Inductive detail :=
| Text (s : string)
| Quoting (s : string) (e : exn).

(** A handler returns a value, or raises an [HTTPException]. *)
Inductive answer (A : Type) :=
| Returns (a : A)
| HTTPException (status_code : Z) (d : detail).
Arguments Returns {A} a.
Arguments HTTPException {A} status_code d.

(** [Class_upgradesData] and [Class_upgradesUpdateData]: the same seven
    fields, each an [int] or a [str], or [None]. *)
Record Class_upgradesData := {
  profile_id : option Z;
  from_class : option string;
  to_class : option string;
  status : option string;
  payments_in_new_class : option Z;
  requested_at : option string;
  activated_at : option string
}.

Definition Class_upgradesUpdateData : Type := Class_upgradesData.

Definition int_or_none (v : option Z) : colval := from_option CInt Null v.
Definition str_or_none (v : option string) : colval := from_option CStr Null v.

(** [data.model_dump()]: the fields in the order the class declares them. *)
Definition model_dump (data : Class_upgradesData) : list (string * colval) :=
  [("profile_id", int_or_none (profile_id data));
   ("from_class", str_or_none (from_class data));
   ("to_class", str_or_none (to_class data));
   ("status", str_or_none (status data));
   ("payments_in_new_class", int_or_none (payments_in_new_class data));
   ("requested_at", str_or_none (requested_at data));
   ("activated_at", str_or_none (activated_at data))].

(** [{k: v for k, v in data.model_dump().items() if v is not None}] *)
Definition update_dict (data : Class_upgradesUpdateData) : list (string * colval) :=
  filter (fun kv => colval_eqb kv.2 Null = false) (model_dump data).

Definition not_found {A} : answer A :=
  HTTPException 404 (Text "Class_upgrades not found").

(** The last [except Exception as e] of the handlers of one record. *)
Definition internal_server_error {A} (e : exn) : answer A :=
  HTTPException 500 (Quoting "Internal server error: " e).

(** [GET /{id}] *)
Definition get_class_upgrades (id : Z) (user_id : string) (db : Session) : answer obj :=
  match Class_upgradesService.get_by_id db (CInt id) user_id with
  | Ok (Some result) => Returns result
  | Ok None => not_found
  | Raise e => internal_server_error e
  end.

(** [POST]: a mapped object is never false, so the check of the result
    never raises. *)
Definition create_class_upgrades (data : Class_upgradesData) (user_id : string)
    (db : Session) : answer obj * Session :=
  match Class_upgradesService.create (model_dump data) user_id db with
  | (Ok result, db') => (Returns result, db')
  | (Raise (ValueError msg), db') => (HTTPException 400 (Text msg), db')
  | (Raise e, db') => (internal_server_error e, db')
  end.

(** [PUT /{id}] *)
Definition update_class_upgrades (id : Z) (data : Class_upgradesUpdateData)
    (user_id : string) (db : Session) : answer obj * Session :=
  match Class_upgradesService.update (CInt id) (update_dict data) user_id db with
  | (Ok (Some result), db') => (Returns result, db')
  | (Ok None, db') => (not_found, db')
  | (Raise (ValueError msg), db') => (HTTPException 400 (Text msg), db')
  | (Raise e, db') => (internal_server_error e, db')
  end.

(** [DELETE /{id}] *)
Definition delete_class_upgrades (id : Z) (user_id : string) (db : Session)
    : answer dict * Session :=
  match Class_upgradesService.delete (CInt id) user_id db with
  | (Ok true, db') =>
      (Returns {[ "message" := VStr "Class_upgrades deleted successfully";
                  "id" := VInt id ]}, db')
  | (Ok false, db') => (not_found, db')
  | (Raise e, db') => (internal_server_error e, db')
  end.

(** The loop [for item_id in request.ids] of the batch deletion. *)
Fixpoint delete_each (ids : list Z) (user_id : string) (deleted_count : Z) : io Z :=
  match ids with
  | [] => mret deleted_count
  | item_id :: ids' =>
      success ← Class_upgradesService.delete (CInt item_id) user_id;
      delete_each ids' user_id
        (if success : bool then deleted_count + 1 else deleted_count)
  end.

Definition batch_deleted (deleted_count : Z) : dict :=
  {[ "message" := VStr ("Successfully deleted " +:+ pretty deleted_count +:+
                        " class_upgradess");
     "deleted_count" := VInt deleted_count ]}.

(** [DELETE /batch]: the [db.rollback()] of the [except] branch finds
    nothing pending, every [delete] having committed or rolled back. *)
Definition delete_class_upgradess_batch (ids : list Z) (user_id : string) (db : Session)
    : answer dict * Session :=
  match delete_each ids user_id 0 db with
  | (Ok deleted_count, db') => (Returns (batch_deleted deleted_count), db')
  | (Raise e, db') => (HTTPException 500 (Quoting "Batch delete failed: " e), db')
  end.

End Class_upgradesRouter.

(** Modelled from the spec: [services/profiles.py] is not among the
    sources.  The spec's Member Ledger interface ([get_profile_by_member],
    [update_profile(profile_id, fields)]) is given the body every generated
    service of the repository has, over [models/profiles.py]. *)
Module ProfilesService.
Definition get_list := Service.get_list Models.Profiles.
Definition update := Service.update Models.Profiles.
End ProfilesService.

(* ===================================================================== *)
(** ** [services/membership.py] *)
(* ===================================================================== *)

Module MembershipService.
Import DateTime.

(** The dictionary [class_info] of [get_class_limits]. *)
Definition class_info : gmap string dict :=
  {[ "A" := {[ "monthly" := VFloat 25; "limit" := VFloat 2000 ]};
     "B" := {[ "monthly" := VFloat 50; "limit" := VFloat 3000 ]};
     "C" := {[ "monthly" := VFloat 75; "limit" := VFloat 5000 ]};
     "D" := {[ "monthly" := VFloat 100; "limit" := VFloat 10000 ]} ]}.

(** [get_class_limits(class_type)]: [class_info.get(class_type, default)]. *)
Definition get_class_limits (class_type : colval) : dict :=
  let default_info : dict := {[ "monthly" := VInt 0; "limit" := VInt 0 ]} in
  match class_type with
  | CStr c => default default_info (class_info !! c)
  | _ => default_info
  end.

(** [d[k]] on a dictionary that has the key. *)
Definition subscript (d : dict) (k : string) : result value :=
  match d !! k with
  | Some v => Ok v
  | None => Raise (KeyError k)
  end.

(** [check_eligibility(user_id)] *)
Definition check_eligibility (db : Session) (user_id : string) : result dict :=
  let profile_list := ProfilesService.get_list db 0 1 user_id [] in
  match Service.items profile_list with
  | [] =>
      Ok {[ "eligible" := VBool false; "reason" := VStr "Perfil não encontrado" ]}
  | profile :: _ =>
      join_fee_paid ← getattr profile "join_fee_paid";
      if negb (truthy join_fee_paid) then
        Ok {[ "eligible" := VBool false; "reason" := VStr "Taxa de adesão não paga" ]}
      else
        paid_months_count ← getattr profile "paid_months_count";
        paid ← as_int (or_else paid_months_count (CInt 0));
        if paid <? 6 then
          Ok {[ "eligible" := VBool false;
                "reason" := VStr ("Necessário 6 meses pagos consecutivos. Você tem " +:+
                                  str (or_else paid_months_count (CInt 0)) +:+ " meses.") ]}
        else
          months_in_arrears ← getattr profile "months_in_arrears";
          arrears ← as_int (or_else months_in_arrears (CInt 0));
          if 2 <? arrears then
            Ok {[ "eligible" := VBool false;
                  "reason" := VStr "Mais de 2 meses em atraso. Regularize seus pagamentos." ]}
          else
            membership_status ← getattr profile "membership_status";
            if negb (colval_eqb membership_status (CStr "active")) then
              Ok {[ "eligible" := VBool false;
                    "reason" := VStr ("Status da conta: " +:+ str membership_status) ]}
            else
              membership_class ← getattr profile "membership_class";
              let class_info := get_class_limits membership_class in
              limit ← subscript class_info "limit";
              Ok {[ "eligible" := VBool true;
                    "class" := to_value membership_class;
                    "limit" := limit;
                    "paid_months" := to_value paid_months_count ]}
  end.

(** The dictionary [class_order] of [request_class_upgrade], and
    [class_order.get(c, 0)]. *)
Definition class_ranks : gmap string Z :=
  {[ "A" := 1; "B" := 2; "C" := 3; "D" := 4 ]}.

Definition class_order (c : colval) : Z :=
  match c with
  | CStr c => default 0 (class_ranks !! c)
  | _ => 0
  end.

Definition pending_query : list (string * colval) := [("status", CStr "pending")].

(** [request_class_upgrade(user_id, to_class)]; [requested] and
    [updated] are what its two calls of [datetime.now()] return. *)
Definition request_class_upgrade (requested updated : datetime)
    (user_id to_class : string) : io dict :=
  fun db =>
  let profile_list := ProfilesService.get_list db 0 1 user_id [] in
  match Service.items profile_list with
  | [] => (Raise (ValueError "Perfil não encontrado"), db)
  | profile :: _ =>
      (from_class ← lift (getattr profile "membership_class");
       if class_order (CStr to_class) <=? class_order from_class then
         io_raise (ValueError "Não é possível fazer downgrade de classe")
       else
         existing_upgrades ← (fun db =>
           (Ok (Class_upgradesService.get_list db 0 20 user_id pending_query), db));
         match Service.items existing_upgrades with
         | _ :: _ =>
             io_raise (ValueError "Você já tem uma solicitação de upgrade pendente")
         | [] =>
             profile_id ← lift (getattr profile "id");
             let upgrade_data :=
               [("user_id", CStr user_id);
                ("profile_id", profile_id);
                ("from_class", from_class);
                ("to_class", CStr to_class);
                ("status", CStr "pending");
                ("payments_in_new_class", CInt 0);
                ("requested_at", CStr (strftime_ymd_hms requested))] in
             upgrade ← Class_upgradesService.create upgrade_data user_id;
             _ ← ProfilesService.update profile_id
                   [("membership_class", CStr to_class);
                    ("updated_at", CStr (strftime_ymd_hms updated))]
                   user_id;
             upgrade_id ← lift (getattr upgrade "id");
             mret ({[ "success" := VBool true;
                      "message" := VStr ("Upgrade de classe " +:+ str from_class +:+
                                         " para " +:+ to_class +:+
                                         " solicitado. O novo limite estará disponível após 3 pagamentos.");
                      "upgrade_id" := to_value upgrade_id ]} : dict)
         end) db
  end.

(** [process_monthly_payment(user_id)]; [now] is what [datetime.now()]
    returns when the upgrade is activated. *)
Definition process_monthly_payment (now : datetime) (user_id : string) : io dict :=
  fun db =>
  let profile_list := ProfilesService.get_list db 0 1 user_id [] in
  match Service.items profile_list with
  | [] =>
      (Ok {[ "success" := VBool false; "message" := VStr "Perfil não encontrado" ]}, db)
  | profile :: _ =>
      let pending_upgrades := Class_upgradesService.get_list db 0 20 user_id pending_query in
      let done : io dict :=
        mret ({[ "success" := VBool true;
                 "message" := VStr "Pagamento processado com sucesso" ]} : dict) in
      match Service.items pending_upgrades with
      | [] => done db
      | upgrade :: _ =>
          (payments ← lift (getattr upgrade "payments_in_new_class");
           count ← lift (as_int (or_else payments (CInt 0)));
           let new_payments := count + 1 in
           upgrade_id ← lift (getattr upgrade "id");
           _ ← Class_upgradesService.update upgrade_id
                 [("payments_in_new_class", CInt new_payments)] user_id;
           if 3 <=? new_payments then
             _ ← Class_upgradesService.update upgrade_id
                   [("status", CStr "active");
                    ("activated_at", CStr (strftime_ymd_hms now))] user_id;
             to_class ← lift (getattr upgrade "to_class");
             mret ({[ "success" := VBool true;
                      "message" := VStr ("Upgrade para classe " +:+ str to_class +:+
                                         " ativado! Novo limite disponível.");
                      "upgrade_activated" := VBool true ]} : dict)
           else done) db
      end
  end.

End MembershipService.

(* ===================================================================== *)
(** ** Specification-level notions the claims are stated with *)
(* ===================================================================== *)

Module Spec.
Import DateTime.

(** A date advanced by [i] calendar months: the month moves by [i], the
    day of the month is kept where the month reached has it and is its
    last day otherwise. *)
Definition advance_months (d : date) (i : Z) : date :=
  let idx := 12 * year d + (month d - 1) + i in
  let y := idx / 12 in
  let m := idx mod 12 + 1 in
  Date y m (Z.min (days_in_month y m) (day d)).

(** The schedule entry the spec describes for installment [i]. *)
Definition scheduled (now : datetime) (amount : float) (i : Z) : dict :=
  {[ "installment_number" := VInt i;
     "amount" := VFloat amount;
     "due_date" := VStr (strftime_ymd (advance_months (date_of now) i));
     "status" := VStr "pending" ]}.

(** The amount of a schedule entry, and the exact sum of the amounts. *)
Definition amount_of (inst : dict) : float :=
  match dict_get inst "amount" with
  | VFloat f => f
  | _ => 0%float
  end.

Definition exact_sum (insts : list dict) : Q :=
  foldr Qplus 0%Q ((fun inst => PyFloat.exact (amount_of inst)) <$> insts).

(** An installment is overdue on [today]: pending, and due strictly
    before [today]. *)
Definition is_overdue (today : date) (inst : dict) : bool :=
  RepaymentCalculator.is_pending inst &&
  match RepaymentCalculator.parse_due_date inst with
  | Ok due => ltb due today
  | Raise _ => false
  end.

(** An installment record: when pending, its due date reads as a date
    in the format ["%Y-%m-%d"] and its amount is a float. *)
Definition installment_record (inst : dict) : Prop :=
  RepaymentCalculator.is_pending inst = true ->
  (exists due, RepaymentCalculator.parse_due_date inst = Ok due) /\
  (exists f, dict_get inst "amount" = VFloat f).

(** The entry reported for an overdue installment. *)
Definition reported (today : date) (inst : dict) : dict :=
  match RepaymentCalculator.parse_due_date inst with
  | Ok due =>
      {[ "installment_number" := dict_get inst "installment_number";
         "amount" := dict_get inst "amount";
         "due_date" := dict_get inst "due_date";
         "days_overdue" := VInt (toordinal today - toordinal due) ]}
  | Raise _ => ∅
  end.

(** What the database guarantees of the table of a model: every row
    carries the model's columns, its primary key is an integer, and no two
    rows share it. *)
Definition well_formed (M : Model) (rows : list obj) : Prop :=
  Forall (Models.instance_of M) rows /\
  Forall (fun r => exists z, r !! "id" = Some (CInt z)) rows /\
  NoDup (row_id <$> rows).

(** No commit of the session fails. *)
Definition commits_succeed (db : Session) : Prop :=
  forall k, fails_at k db = false.

(** The two outcomes [process_monthly_payment] reports for a member with
    a profile: normal success, and the activation of an upgrade. *)
Definition normal_success : dict :=
  {[ "success" := VBool true; "message" := VStr "Pagamento processado com sucesso" ]}.

Definition upgrade_activated (to_class : colval) : dict :=
  {[ "success" := VBool true;
     "message" := VStr ("Upgrade para classe " +:+ str to_class +:+
                        " ativado! Novo limite disponível.");
     "upgrade_activated" := VBool true ]}.

(** An upgrade record with one more payment counted, and one activated at
    the time [now]. *)
Definition counted (u : obj) (payments : Z) : obj :=
  <["payments_in_new_class" := CInt payments]> u.

Definition activated (u : obj) (now : datetime) : obj :=
  <["activated_at" := CStr (strftime_ymd_hms now)]> (<["status" := CStr "active"]> u).

(** The upgrade the service finds for a member: the latest pending one. *)
Definition pending_upgrade (db : Session) (user_id : string) : option obj :=
  head (Service.items
          (Class_upgradesService.get_list db 0 20 user_id MembershipService.pending_query)).

(** The profile the service finds for a member. *)
Definition profile_of (db : Session) (user_id : string) : option obj :=
  head (Service.items (ProfilesService.get_list db 0 1 user_id [])).

(** A record that differs from another at most in the three attributes a
    monthly payment writes. *)
Definition differs_in_payment_fields (row row' : obj) : Prop :=
  forall name,
    name <> "payments_in_new_class" -> name <> "status" -> name <> "activated_at" ->
    row' !! name = row !! name.

(** The errors of the spec's taxonomy, as the code raises them: every one
    is a [ValueError], told apart by its message. *)
Definition InvalidArgument : exn := ValueError "Installments must be between 1 and 12".
Definition InvalidUpgrade : exn := ValueError "Não é possível fazer downgrade de classe".
Definition Conflict : exn := ValueError "Você já tem uma solicitação de upgrade pendente".

(** The record [request_class_upgrade] creates, with the key the database
    gives it. *)
Definition requested_upgrade (id : Z) (user_id : string) (profile_id from_class : colval)
    (to_class requested_at : string) : obj :=
  list_to_map
    [("id", CInt id); ("user_id", CStr user_id); ("profile_id", profile_id);
     ("from_class", from_class); ("to_class", CStr to_class); ("status", CStr "pending");
     ("payments_in_new_class", CInt 0);
     ("requested_at", CStr requested_at); ("activated_at", Null)].

(** The profile with its class changed, as [request_class_upgrade] stores it. *)
Definition reclassified (profile : obj) (to_class : string) (updated : datetime) : obj :=
  <["updated_at" := CStr (strftime_ymd_hms updated)]>
    (<["membership_class" := CStr to_class]> profile).

(** What [request_class_upgrade] returns on success. *)
Definition upgrade_requested (from_class : colval) (to_class : string) (upgrade_id : Z) : dict :=
  {[ "success" := VBool true;
     "message" := VStr ("Upgrade de classe " +:+ str from_class +:+ " para " +:+ to_class +:+
                        " solicitado. O novo limite estará disponível após 3 pagamentos.");
     "upgrade_id" := VInt upgrade_id ]}.

(** A refusal of [check_eligibility], with its reason. *)
Definition ineligible (reason : string) : dict :=
  {[ "eligible" := VBool false; "reason" := VStr reason ]}.

(** Whether [name] can be a Python identifier, as far as ASCII tells: it
    is not empty, does not start with a digit, and holds no ASCII
    character other than letters, digits and [_]; the bytes of a
    character outside ASCII are let through.  A class statement names
    attributes by identifiers only: a name that is none names no
    attribute of a model class. *)
Definition identifier_start (c : ascii) : bool :=
  let n := Z.of_N (N_of_ascii c) in
  ((65 <=? n) && (n <=? 90)) || ((97 <=? n) && (n <=? 122)) || (n =? 95) || (128 <=? n).

Definition identifier_part (c : ascii) : bool :=
  let n := Z.of_N (N_of_ascii c) in
  identifier_start c || ((48 <=? n) && (n <=? 57)).

Definition identifier (name : string) : bool :=
  match name with
  | EmptyString => false
  | String c rest => identifier_start c && forallb identifier_part (list_ascii_of_string rest)
  end.

(** A model class whose attributes are named by identifiers. *)
Definition well_named (M : Model) : Prop :=
  forall name, Service.has_attribute M name = true -> identifier name = true.

(** What it is for a row to answer a query of [get_list]: it is the
    caller's when a [user_id] is given, it holds the asked value in every
    field of the query that is a column, and every field that names
    another attribute of the class is asked the value that attribute
    equals. *)
Definition answers (M : Model) (user_id : string) (query_dict : list (string * colval))
    (r : obj) : Prop :=
  (user_id <> EmptyString -> r !! "user_id" = Some (CStr user_id)) /\
  forall field value, (field, value) ∈ query_dict ->
    (field ∈ columns M -> default Null (r !! field) = value) /\
    (forall a, field ∉ columns M -> Service.class_attribute M field = Some a ->
               attribute_eq a value = true).

(** The order of [order_by(Model.id.desc())]: [a] may come before [b]. *)
Definition id_desc (a b : obj) : Prop := row_id b <= row_id a.

(** The [days_overdue] an entry of a report carries. *)
Definition days_overdue_of (entry : dict) : option Z :=
  match entry !! "days_overdue" with
  | Some (VInt k) => Some k
  | _ => None
  end.

(** The report on a list with nothing overdue. *)
Definition nothing_overdue : RepaymentCalculator.OverdueReport :=
  {| RepaymentCalculator.has_overdue := false;
     RepaymentCalculator.overdue_count := 0;
     RepaymentCalculator.overdue_installments := [];
     RepaymentCalculator.total_overdue_amount := VInt 0 |}.

(** The day a leap year has more than the others. *)
Definition leap_day (y : Z) : Z := if is_leap y then 1 else 0.

(** The keys of a dictionary passed as [data] or [update_data]. *)
Definition keys (data : list (string * colval)) : list string := fst <$> data.

(** The object the constructor builds from keywords that are columns:
    each keyword is assigned, in turn. *)
Definition assigned (o : obj) (data : list (string * colval)) : obj :=
  foldl (fun o kv => <[kv.1 := kv.2]> o) o data.

End Spec.

(* ===================================================================== *)
(** ** Sample data, to instantiate the theorems *)
(* ===================================================================== *)

Module Samples.
Import DateTime.

(** A moment [datetime.now()] can return. *)
Definition sample_now : datetime := DateTime (Date 2024 1 31) 10 20 30.

(** The list of the spec's example, on 2024-03-15: one pending installment
    due ten days before, one pending due ten days later, and one paid. *)
Definition sample_today : date := Date 2024 3 15.

Definition sample_installments : list dict :=
  [ {[ "installment_number" := VInt 2; "amount" := VFloat 85;
       "due_date" := VStr "2024-03-05"; "status" := VStr "pending" ]};
    {[ "installment_number" := VInt 3; "amount" := VFloat 85;
       "due_date" := VStr "2024-03-25"; "status" := VStr "pending" ]};
    {[ "installment_number" := VInt 1; "amount" := VFloat 85;
       "due_date" := VStr "2024-02-05"; "status" := VStr "paid" ]} ].

(** A pending installment whose due date is no date of the calendar. *)
Definition sample_unreadable : dict :=
  {[ "installment_number" := VInt 4; "amount" := VFloat 85;
     "due_date" := VStr "2024-02-30"; "status" := VStr "pending" ]}.

(** A row of [profiles], as [models/profiles.py] declares it: a member of
    class A, active, 8 months paid, none late. *)
Definition sample_profile : obj :=
  list_to_map
    [("id", CInt 7); ("user_id", CStr "u1"); ("full_name", CStr "Ana");
     ("phone", CStr "555-0100"); ("membership_class", CStr "A");
     ("account_status", CStr "active"); ("consecutive_months_paid", CInt 8);
     ("months_late", CInt 0); ("stripe_subscription_id", Null);
     ("created_at", CStr "2023-05-01 09:00:00");
     ("updated_at", CStr "2023-05-01 09:00:00")].

(** The same member with three months paid only. *)
Definition sample_new_member : obj :=
  <["consecutive_months_paid" := CInt 3]> sample_profile.

(** A row of [class_upgrades]: the member's pending upgrade from A to B,
    no payment counted yet. *)
Definition sample_upgrade : obj :=
  list_to_map
    [("id", CInt 1); ("user_id", CStr "u1"); ("profile_id", CInt 7);
     ("from_class", CStr "A"); ("to_class", CStr "B"); ("status", CStr "pending");
     ("payments_in_new_class", CInt 0);
     ("requested_at", CStr "2024-01-31 10:20:30"); ("activated_at", Null)].

(** Sessions: the member alone; the member with the pending upgrade; the
    member alone, when the second commit to come fails. *)
Definition sample_db : Session :=
  {| profiles := [sample_profile]; class_upgrades := []; commit_faults := [] |}.

Definition sample_db_pending : Session :=
  {| profiles := [sample_profile]; class_upgrades := [sample_upgrade]; commit_faults := [] |}.

Definition sample_db_second_commit_fails : Session :=
  {| profiles := [sample_profile]; class_upgrades := []; commit_faults := [false; true] |}.

End Samples.

(* ===================================================================== *)
(** ** Facts about dates *)
(* ===================================================================== *)

Section DateFacts.
Import DateTime Spec.

Lemma days_in_month_bounds y m : 28 <= days_in_month y m <= 31.
Proof.
  unfold days_in_month.
  repeat match goal with |- context [if ?b then _ else _] => destruct b end; lia.
Qed.

(** [relativedelta(months=i)] for the counts the calculator uses. *)
Lemma relativedelta_months_small i :
  1 <= i <= 11 -> relativedelta_months i = RelativeDelta 0 i.
Proof.
  intros Hi. unfold relativedelta_months.
  destruct (11 <? Z.abs i) eqn:E; [apply Z.ltb_lt in E; lia | reflexivity].
Qed.

Lemma relativedelta_months_12 : relativedelta_months 12 = RelativeDelta 1 0.
Proof. reflexivity. Qed.

(** The code's month arithmetic agrees with advancing by calendar months. *)
Lemma add_months_advance (now : datetime) (i : Z) :
  valid (date_of now) -> year (date_of now) < MAXYEAR -> 1 <= i <= 12 ->
  DateTime.add now (relativedelta_months i) =
  Ok (DateTime (advance_months (date_of now) i) (hour now) (minute now) (second now)).
Proof.
  intros (Hy & Hm & Hd) Hmax Hi.
  destruct now as [[y m d] h mi s]; simpl in *.
  unfold MAXYEAR in *.
  assert (Hcase : i = 12 \/ 1 <= i <= 11) by lia.
  destruct Hcase as [-> | Hi'].
  - rewrite relativedelta_months_12. unfold DateTime.add, advance_months, MAXYEAR. simpl.
    replace ((12 * y + (m - 1) + 12) / 12) with (y + 1) by (Z.div_mod_to_equations; lia).
    replace ((12 * y + (m - 1) + 12) mod 12 + 1) with m by (Z.div_mod_to_equations; lia).
    destruct ((1 <=? y + 1) && (y + 1 <=? 9999)) eqn:E; [reflexivity|].
    apply andb_false_iff in E as [E|E]; [apply Z.leb_gt in E | apply Z.leb_gt in E]; lia.
  - rewrite relativedelta_months_small by assumption.
    unfold DateTime.add, advance_months, MAXYEAR. simpl.
    destruct (i =? 0) eqn:E0; [apply Z.eqb_eq in E0; lia|].
    destruct (12 <? m + i) eqn:E12.
    + apply Z.ltb_lt in E12.
      replace ((12 * y + (m - 1) + i) / 12) with (y + 0 + 1) by (Z.div_mod_to_equations; lia).
      replace ((12 * y + (m - 1) + i) mod 12 + 1) with (m + i - 12) by (Z.div_mod_to_equations; lia).
      destruct ((1 <=? y + 0 + 1) && (y + 0 + 1 <=? 9999)) eqn:E; [reflexivity|].
      apply andb_false_iff in E as [E|E]; [apply Z.leb_gt in E | apply Z.leb_gt in E]; lia.
    + apply Z.ltb_ge in E12.
      destruct (m + i <? 1) eqn:E1; [apply Z.ltb_lt in E1; lia|].
      replace ((12 * y + (m - 1) + i) / 12) with (y + 0) by (Z.div_mod_to_equations; lia).
      replace ((12 * y + (m - 1) + i) mod 12 + 1) with (m + i) by (Z.div_mod_to_equations; lia).
      destruct ((1 <=? y + 0) && (y + 0 <=? 9999)) eqn:E; [reflexivity|].
      apply andb_false_iff in E as [E|E]; [apply Z.leb_gt in E | apply Z.leb_gt in E]; lia.
Qed.

(** Advancing moves the calendar month by exactly [i] and lands on a date
    of that month. *)
Lemma advance_months_index d i :
  month_index (advance_months d i) = month_index d + i.
Proof.
  unfold month_index, advance_months. simpl.
  pose proof (Z.div_mod (12 * year d + (month d - 1) + i) 12). lia.
Qed.

Lemma advance_months_month d i : 1 <= month (advance_months d i) <= 12.
Proof.
  unfold advance_months. simpl.
  pose proof (Z.mod_pos_bound (12 * year d + (month d - 1) + i) 12). lia.
Qed.

Lemma advance_months_day d i :
  1 <= day d ->
  1 <= day (advance_months d i) <=
    days_in_month (year (advance_months d i)) (month (advance_months d i)).
Proof.
  intros Hd. unfold advance_months. simpl.
  match goal with |- context [days_in_month ?y ?m] =>
    pose proof (days_in_month_bounds y m) end.
  lia.
Qed.

(** Dates of increasing calendar months are increasing dates. *)
Lemma ltb_of_month_index a b :
  1 <= month a <= 12 -> 1 <= month b <= 12 ->
  month_index a < month_index b -> ltb a b = true.
Proof.
  unfold month_index, ltb. intros Ha Hb Hlt.
  destruct (year a <? year b) eqn:Ey; [reflexivity|]. simpl.
  apply Z.ltb_ge in Ey.
  assert (year a = year b) by lia.
  assert (month a < month b) by lia.
  rewrite (proj2 (Z.eqb_eq _ _)) by assumption.
  rewrite (proj2 (Z.ltb_lt _ _)) by assumption. reflexivity.
Qed.

End DateFacts.

(* ===================================================================== *)
(** ** The repayment plan *)
(* ===================================================================== *)

Section RepaymentPlanFacts.
Import DateTime Spec RepaymentCalculator.

(** The loop of [calculate_repayment_plan] appends, for each [i] of its
    range, the entry due [i] calendar months after [now]. *)
Lemma build_schedule_scheduled now amount range acc :
  valid (date_of now) -> year (date_of now) < MAXYEAR ->
  Forall (fun i => 1 <= i <= 12) range ->
  build_schedule now amount range acc =
  Ok (acc ++ (scheduled now (PyFloat.round2 amount) <$> range)).
Proof.
  intros Hv Hy Hr. revert acc.
  induction Hr as [|i range Hi Hr IH]; intros acc; simpl.
  - rewrite app_nil_r. reflexivity.
  - rewrite add_months_advance by assumption. simpl.
    rewrite IH. rewrite <- app_assoc. reflexivity.
Qed.

Lemma seqZ_range n : Forall (fun i => 1 <= i <= n) (seqZ 1 n).
Proof. apply Forall_seqZ. intros; lia. Qed.

Lemma scheduled_due_date now amount i :
  scheduled now amount i !! "due_date" =
  Some (VStr (strftime_ymd (advance_months (date_of now) i))).
Proof. reflexivity. Qed.

(** What [calculate_repayment_plan] returns for a valid count. *)
Lemma calculate_repayment_plan_ok now a n :
  valid (date_of now) -> year (date_of now) < MAXYEAR -> 1 <= n <= 12 ->
  let amount := PyFloat.round2 (a * PyFloat.lit_1_02 / PyFloat.of_small_int n)%float in
  calculate_repayment_plan now a n =
  Ok {| approved_amount := a;
        administrative_fee := (a * PyFloat.lit_0_02)%float;
        total_to_repay := PyFloat.round2 (a * PyFloat.lit_1_02)%float;
        installments := n;
        installment_amount := amount;
        schedule := scheduled now amount <$> seqZ 1 n;
        first_due_date := VStr (strftime_ymd (advance_months (date_of now) 1));
        last_due_date := VStr (strftime_ymd (advance_months (date_of now) n)) |}.
Proof.
  intros Hv Hy Hn amount. unfold calculate_repayment_plan.
  destruct ((n <? 1) || (12 <? n)) eqn:E.
  { apply orb_true_iff in E as [E|E]; apply Z.ltb_lt in E; lia. }
  rewrite build_schedule_scheduled; try assumption.
  2:{ eapply Forall_impl; [apply seqZ_range|]. simpl. intros; lia. }
  simpl. fold amount.
  assert (Hhead : head (scheduled now amount <$> seqZ 1 n) = Some (scheduled now amount 1)).
  { rewrite seqZ_cons by lia. reflexivity. }
  assert (Hlast : last (scheduled now amount <$> seqZ 1 n) = Some (scheduled now amount n)).
  { rewrite fmap_last, last_lookup, length_seqZ.
    rewrite lookup_seqZ_lt by lia. simpl. f_equal. f_equal. lia. }
  rewrite Hhead, Hlast. simpl.
  rewrite !scheduled_due_date. reflexivity.
Qed.

End RepaymentPlanFacts.

Section RepaymentPlanClaims.
Import DateTime Spec Samples RepaymentCalculator.

(** C5.  [calculate_repayment_plan] raises its
    ["Installments must be between 1 and 12"] error exactly when
    [installments] is outside 1..12.  For every approved amount and every
    count [n] in 1..12 it returns [total_to_repay = round(a * 1.02, 2)],
    [installment_amount = round(a * 1.02 / n, 2)] and exactly [n] schedule
    entries, the [i]-th numbered [i], pending, of the installment amount
    and due [i] calendar months after the current date.  In particular
    [calculate_repayment_plan(1000, 12)] gives 1020.00, 85.00 and twelve
    monthly due dates starting one month from now. *)
Theorem C5_calculate_repayment_plan (now : datetime) (a : float) (n : Z) :
  valid (date_of now) -> year (date_of now) < MAXYEAR ->
  (calculate_repayment_plan now a n =
     Raise (ValueError "Installments must be between 1 and 12") <->
   n < 1 \/ 12 < n) /\
  (1 <= n <= 12 ->
   exists plan,
     calculate_repayment_plan now a n = Ok plan /\
     total_to_repay plan = PyFloat.round2 (a * PyFloat.lit_1_02)%float /\
     installment_amount plan =
       PyFloat.round2 (a * PyFloat.lit_1_02 / PyFloat.of_small_int n)%float /\
     length (schedule plan) = Z.to_nat n /\
     schedule plan = scheduled now (installment_amount plan) <$> seqZ 1 n /\
     first_due_date plan = VStr (strftime_ymd (advance_months (date_of now) 1)) /\
     last_due_date plan = VStr (strftime_ymd (advance_months (date_of now) n))) /\
  (exists plan,
     calculate_repayment_plan now 1000 12 = Ok plan /\
     total_to_repay plan = 1020%float /\
     installment_amount plan = 85%float /\
     length (schedule plan) = 12%nat /\
     schedule plan = scheduled now 85 <$> seqZ 1 12).
Proof.
  intros Hv Hy. split; [|split].
  - split.
    + intros Hraise.
      destruct (Z_lt_dec n 1) as [|Hge]; [left; assumption|].
      destruct (Z_lt_dec 12 n) as [|Hle]; [right; assumption|].
      rewrite calculate_repayment_plan_ok in Hraise by (assumption || lia).
      discriminate Hraise.
    + intros Hout. unfold calculate_repayment_plan.
      destruct ((n <? 1) || (12 <? n)) eqn:E; [reflexivity|].
      apply orb_false_iff in E as [E1 E2].
      apply Z.ltb_ge in E1, E2. lia.
  - intros Hn. eexists. split.
    + apply calculate_repayment_plan_ok; assumption.
    + simpl. rewrite length_fmap, length_seqZ. repeat split; reflexivity.
  - eexists. split.
    + apply calculate_repayment_plan_ok; (assumption || lia).
    + simpl. repeat split; try reflexivity.
Qed.

Lemma C5_calculate_repayment_plan_witness :
  (calculate_repayment_plan sample_now 250 6 =
     Raise (ValueError "Installments must be between 1 and 12") <->
   6 < 1 \/ 12 < 6) /\
  (1 <= 6 <= 12 ->
   exists plan,
     calculate_repayment_plan sample_now 250 6 = Ok plan /\
     total_to_repay plan = PyFloat.round2 (250 * PyFloat.lit_1_02)%float /\
     installment_amount plan =
       PyFloat.round2 (250 * PyFloat.lit_1_02 / PyFloat.of_small_int 6)%float /\
     length (schedule plan) = Z.to_nat 6 /\
     schedule plan = scheduled sample_now (installment_amount plan) <$> seqZ 1 6 /\
     first_due_date plan = VStr (strftime_ymd (advance_months (date_of sample_now) 1)) /\
     last_due_date plan = VStr (strftime_ymd (advance_months (date_of sample_now) 6))) /\
  (exists plan,
     calculate_repayment_plan sample_now 1000 12 = Ok plan /\
     total_to_repay plan = 1020%float /\
     installment_amount plan = 85%float /\
     length (schedule plan) = 12%nat /\
     schedule plan = scheduled sample_now 85 <$> seqZ 1 12).
Proof.
  apply (C5_calculate_repayment_plan sample_now 250 6).
  - unfold valid, MAXYEAR; cbn; lia.
  - unfold MAXYEAR; cbn; lia.
Defined.

End RepaymentPlanClaims.

(* ===================================================================== *)
(** ** Rounding to two decimals *)
(* ===================================================================== *)

Section RoundingFacts.
Import PyFloat.

Lemma round_half_even_near (N D : Z) :
  0 < D -> Z.abs (2 * (D * round_half_even N D - N)) <= D.
Proof.
  intros HD. unfold round_half_even.
  pose proof (Z.div_mod N D ltac:(lia)) as Hdm.
  pose proof (Z.mod_pos_bound N D HD) as Hr.
  set (q := N / D) in *. set (r := N mod D) in *.
  destruct (Z.compare_spec (2 * r) D) as [He|Hl|Hg].
  - destruct (Z.even q); nia.
  - nia.
  - nia.
Qed.

Lemma denominator_pos e : 0 < denominator e.
Proof. unfold denominator. apply Z.pow_pos_nonneg; lia. Qed.

Lemma Qabs_half (c a : Z) (p : positive) :
  Z.abs (2 * (Z.pos p * c - 100 * a)) <= Z.pos p ->
  (Qabs (inject_Z c - 100 * (a # p)) <= 1 # 2)%Q.
Proof.
  intros H. apply Qabs_Qle_condition.
  unfold Qle, Qminus, Qplus, Qopp, Qmult, inject_Z. cbn [Qnum Qden].
  rewrite ?Pos2Z.inj_mul. split; lia.
Qed.

(** The decimal [round(x, 2)] keeps is within half a hundredth of [x]. *)
Lemma cents_near_exact (x : float) :
  (Qabs (inject_Z (cents x) - 100 * exact x) <= 1 # 2)%Q.
Proof.
  unfold cents, exact.
  destruct (Prim2SF x) as [s|s| |neg m e]; try (vm_compute; discriminate).
  pose proof (denominator_pos e) as HD.
  pose proof (round_half_even_near (100 * numerator m e) (denominator e) HD) as Hn.
  apply Qabs_half. rewrite Z2Pos.id by assumption.
  destruct neg; lia.
Qed.

(** The number of binary digits of a positive number. *)
Lemma digits2_pos_bounds (p : positive) :
  2 ^ (Z.pos (digits2_pos p) - 1) <= Z.pos p < 2 ^ Z.pos (digits2_pos p).
Proof.
  induction p as [p IH|p IH|]; cbn [digits2_pos].
  - rewrite Pos2Z.inj_succ.
    replace (Z.succ (Z.pos (digits2_pos p)) - 1) with (Z.succ (Z.pos (digits2_pos p) - 1)) by lia.
    rewrite !Z.pow_succ_r by lia. lia.
  - rewrite Pos2Z.inj_succ.
    replace (Z.succ (Z.pos (digits2_pos p)) - 1) with (Z.succ (Z.pos (digits2_pos p) - 1)) by lia.
    rewrite !Z.pow_succ_r by lia. lia.
  - simpl. lia.
Qed.

Lemma Zdigits2_unique (m d : Z) :
  0 < d -> 2 ^ (d - 1) <= m < 2 ^ d -> Zdigits2 m = d.
Proof.
  intros Hd [Hlo Hhi].
  assert (Hm : 0 < m) by (pose proof (Z.pow_pos_nonneg 2 (d - 1)); lia).
  destruct m as [|p|p]; try lia. cbn [Zdigits2].
  pose proof (digits2_pos_bounds p) as [Hlo' Hhi'].
  set (k := Z.pos (digits2_pos p)) in *.
  assert (Hk : 0 < k) by (unfold k; lia).
  destruct (Z.lt_trichotomy k d) as [Hlt|[Heq|Hgt]]; [|exact Heq|].
  - assert (2 ^ k <= 2 ^ (d - 1)) by (apply Z.pow_le_mono_r; lia). lia.
  - assert (2 ^ d <= 2 ^ (k - 1)) by (apply Z.pow_le_mono_r; lia). lia.
Qed.

Lemma shr_1_spec (m : Z) (r s : bool) :
  2 <= m ->
  shr_1 {| shr_m := m; shr_r := r; shr_s := s |} =
  {| shr_m := m / 2; shr_r := Z.odd m; shr_s := r || s |}.
Proof.
  intros Hm. destruct m as [|p|p]; try lia.
  destruct p as [p|p|]; [| |lia]; cbn [shr_1 Z.odd]; f_equal.
  - rewrite Pos2Z.inj_xI. Z.div_mod_to_equations. lia.
  - rewrite Pos2Z.inj_xO. Z.div_mod_to_equations. lia.
Qed.

Lemma shr_record_of_loc_m m l : shr_m (shr_record_of_loc m l) = m.
Proof. destruct l as [|[]]; reflexivity. Qed.

Lemma loc_of_shr_record_of_loc m l : loc_of_shr_record (shr_record_of_loc m l) = l.
Proof. destruct l as [|[]]; reflexivity. Qed.

Lemma round_nearest_even_bounds m l :
  m <= round_nearest_even m l <= m + 1.
Proof. destruct l as [|[]]; cbn [round_nearest_even]; try destruct (Z.even m); lia. Qed.

Lemma fexp_normal (d e : Z) : -1074 <= e -> fexp prec emax (d + e) - e = Z.max (d - 53) (-1074 - e).
Proof. intros He. unfold fexp, emin, prec, emax. lia. Qed.

(** The end of [binary_round_aux]: a mantissa of 53 bits is the
    result; the mantissa [2 ^ 53], that rounding up can reach, is
    renormalised. *)
Lemma round_finish (sx : bool) (m1 e : Z) :
  2 ^ 52 <= m1 <= 2 ^ 53 -> -1074 <= e <= 970 ->
  (let '(mrs, e') := shr_fexp prec emax m1 e loc_Exact in
   match shr_m mrs with
   | Z0 => S754_zero sx
   | Zpos m => if Z.leb e' (emax - prec) then S754_finite sx m e' else S754_infinity sx
   | Zneg _ => S754_nan
   end) =
  if m1 <? 2 ^ 53 then S754_finite sx (Z.to_pos m1) e
  else S754_finite sx (Z.to_pos (2 ^ 52)) (e + 1).
Proof.
  intros Hm He. unfold shr_fexp.
  destruct (m1 <? 2 ^ 53) eqn:E.
  - apply Z.ltb_lt in E.
    rewrite (Zdigits2_unique m1 53) by lia.
    rewrite fexp_normal by lia.
    replace (Z.max (53 - 53) (-1074 - e)) with 0 by lia.
    cbn [shr shr_record_of_loc shr_m].
    destruct m1 as [|p|p] eqn:Em; try lia.
    rewrite (proj2 (Z.leb_le e (emax - prec))) by (unfold emax, prec; lia).
    reflexivity.
  - apply Z.ltb_ge in E.
    assert (Hm1 : m1 = 2 ^ 53) by lia.
    rewrite (Zdigits2_unique m1 54) by lia.
    rewrite fexp_normal by lia.
    replace (Z.max (54 - 53) (-1074 - e)) with 1 by lia.
    cbn [shr shr_record_of_loc SpecFloat.iter_pos]. rewrite shr_1_spec by lia.
    cbn [shr_m]. rewrite Hm1.
    replace (2 ^ 53 / 2) with (2 ^ 52) by reflexivity.
    change (2 ^ 52) with (Z.pos (Z.to_pos (2 ^ 52))) at 1.
    cbv iota beta.
    rewrite (proj2 (Z.leb_le (e + 1) (emax - prec))) by (unfold emax, prec; lia).
    reflexivity.
Qed.

(** Rounding a mantissa of 53 bits: it is kept, or it is the next one. *)
Lemma binary_round_aux_53 (sx : bool) (mx ex : Z) (lx : location) :
  2 ^ 52 <= mx < 2 ^ 53 -> -1074 <= ex <= 970 ->
  binary_round_aux prec emax sx mx ex lx =
  if round_nearest_even mx lx <? 2 ^ 53
  then S754_finite sx (Z.to_pos (round_nearest_even mx lx)) ex
  else S754_finite sx (Z.to_pos (2 ^ 52)) (ex + 1).
Proof.
  intros Hmx Hex. unfold binary_round_aux. unfold shr_fexp at 1.
  rewrite (Zdigits2_unique mx 53) by lia.
  rewrite fexp_normal by lia.
  replace (Z.max (53 - 53) (-1074 - ex)) with 0 by lia.
  cbn [shr]. rewrite shr_record_of_loc_m, loc_of_shr_record_of_loc.
  pose proof (round_nearest_even_bounds mx lx) as Hm1.
  apply round_finish; lia.
Qed.

(** Rounding a mantissa of 54 bits: its last bit goes, and tells with the
    location which neighbour is nearer. *)
Lemma binary_round_aux_54 (sx : bool) (mx ex : Z) (lx : location) :
  2 ^ 53 <= mx < 2 ^ 54 -> -1074 <= ex <= 969 ->
  let l' := loc_of_shr_record (shr_1 (shr_record_of_loc mx lx)) in
  binary_round_aux prec emax sx mx ex lx =
  if round_nearest_even (mx / 2) l' <? 2 ^ 53
  then S754_finite sx (Z.to_pos (round_nearest_even (mx / 2) l')) (ex + 1)
  else S754_finite sx (Z.to_pos (2 ^ 52)) (ex + 1 + 1).
Proof.
  intros Hmx Hex l'. unfold binary_round_aux. unfold shr_fexp at 1.
  rewrite (Zdigits2_unique mx 54) by lia.
  rewrite fexp_normal by lia.
  replace (Z.max (54 - 53) (-1074 - ex)) with 1 by lia.
  cbn [shr SpecFloat.iter_pos]. fold l'.
  assert (Hm : shr_m (shr_1 (shr_record_of_loc mx lx)) = mx / 2).
  { destruct lx as [|[]]; cbn [shr_record_of_loc]; rewrite shr_1_spec by lia; reflexivity. }
  rewrite Hm.
  pose proof (round_nearest_even_bounds (mx / 2) l') as Hm1.
  assert (Hhalf : 2 ^ 52 <= mx / 2 < 2 ^ 53).
  { change (2 ^ 53) with (2 * 2 ^ 52) in Hmx. change (2 ^ 54) with (2 * 2 ^ 53) in Hmx.
    Z.div_mod_to_equations. lia. }
  apply round_finish; lia.
Qed.

(** The location of a quotient by 100, from the remainder. *)
Lemma new_location_100 (r : Z) :
  new_location 100 r =
  if r =? 0 then loc_Exact else loc_Inexact (2 * r ?= 100).
Proof. reflexivity. Qed.

(** Rounding the quotient: the mantissa kept is within half a unit of
    the exact quotient. *)
Lemma round_quotient_53 (qq r : Z) :
  0 <= r < 100 ->
  Z.abs (100 * round_nearest_even qq (new_location 100 r) - (100 * qq + r)) <= 50.
Proof.
  intros Hr. rewrite new_location_100.
  destruct (r =? 0) eqn:E0; cbn [round_nearest_even].
  - apply Z.eqb_eq in E0. lia.
  - apply Z.eqb_neq in E0.
    destruct (Z.compare_spec (2 * r) 100) as [He|Hl|Hg]; cbn [round_nearest_even].
    + destruct (Z.even qq); lia.
    + lia.
    + lia.
Qed.

Lemma round_quotient_54 (qq r : Z) :
  2 <= qq -> 0 <= r < 100 ->
  Z.abs (200 * round_nearest_even (qq / 2)
                 (loc_of_shr_record (shr_1 (shr_record_of_loc qq (new_location 100 r)))) -
         (100 * qq + r)) <= 100.
Proof.
  intros Hq Hr. rewrite new_location_100.
  pose proof (Z.div_mod qq 2 ltac:(lia)) as Hdm.
  pose proof (Z.mod_pos_bound qq 2 ltac:(lia)) as Hb.
  assert (Hodd : Z.odd qq = (qq mod 2 =? 1)).
  { rewrite Zmod_odd. destruct (Z.odd qq); reflexivity. }
  destruct (r =? 0) eqn:E0.
  - apply Z.eqb_eq in E0. cbn [shr_record_of_loc]. rewrite shr_1_spec by lia.
    rewrite Hodd. destruct (qq mod 2 =? 1) eqn:E1;
      [apply Z.eqb_eq in E1 | apply Z.eqb_neq in E1];
      cbn [loc_of_shr_record orb round_nearest_even]; [destruct (Z.even (qq / 2))|]; lia.
  - apply Z.eqb_neq in E0.
    assert (Hrec : exists b, shr_record_of_loc qq (loc_Inexact (2 * r ?= 100)) =
                             {| shr_m := qq; shr_r := b; shr_s := negb b || true |} \/
                             shr_record_of_loc qq (loc_Inexact (2 * r ?= 100)) =
                             {| shr_m := qq; shr_r := b; shr_s := negb b |}).
    { destruct (2 * r ?= 100); cbn [shr_record_of_loc]; [exists true | exists false | exists true];
        cbn [negb orb]; tauto. }
    destruct Hrec as [b Hrec].
    assert (Hs : shr_1 (shr_record_of_loc qq (loc_Inexact (2 * r ?= 100))) =
                 {| shr_m := qq / 2; shr_r := Z.odd qq; shr_s := true |}).
    { destruct Hrec as [-> | ->]; rewrite shr_1_spec by lia; f_equal; destruct b; reflexivity. }
    rewrite Hs, Hodd.
    destruct (qq mod 2 =? 1) eqn:E1;
      [apply Z.eqb_eq in E1 | apply Z.eqb_neq in E1];
      cbn [loc_of_shr_record round_nearest_even]; lia.
Qed.

(** The double nearest to [q / 100], for [q] below [2 ^ 57]: a normal
    number [m * 2 ^ e] within half a unit in the last place of
    [q / 100]. *)
Lemma nearest_double_finite (neg : bool) (q : positive) :
  Z.pos q < 2 ^ 57 ->
  exists m e,
    SFdiv prec emax (S754_finite neg q 0) (S754_finite false 100 0) = S754_finite neg m e /\
    -59 <= e <= -1 /\ 2 ^ 52 <= Z.pos m < 2 ^ 53 /\
    Z.abs (100 * Z.pos m - Z.pos q * 2 ^ (- e)) <= 50.
Proof.
  intros Hq.
  pose proof (digits2_pos_bounds q) as [Hlo Hhi].
  set (D := Z.pos (digits2_pos q)) in *.
  assert (HD : 1 <= D <= 57).
  { split; [unfold D; lia|].
    destruct (Z.le_gt_cases D 57) as [H|H]; [exact H|].
    assert (2 ^ 57 <= 2 ^ (D - 1)) by (apply Z.pow_le_mono_r; lia). lia. }
  set (S := 60 - D).
  set (h := Z.pos q * 2 ^ (S - 1)).
  assert (Hpow : 2 ^ (D - 1) * 2 ^ (S - 1) = 2 ^ 58 /\ 2 ^ D * 2 ^ (S - 1) = 2 ^ 59).
  { rewrite <- !Z.pow_add_r by (unfold S; lia). unfold S.
    split; f_equal; lia. }
  assert (Hpos : 0 < 2 ^ (S - 1)) by (apply Z.pow_pos_nonneg; unfold S; lia).
  assert (Hh : 2 ^ 58 <= h < 2 ^ 59) by (unfold h; nia).
  assert (Hm' : Z.pos q * 2 ^ S = 2 * h).
  { unfold h. replace S with (Z.succ (S - 1)) at 1 by lia.
    rewrite Z.pow_succ_r by (unfold S; lia). lia. }
  unfold SFdiv, SFdiv_core_binary. cbn [Zdigits2].
  change (digits2_pos 100) with 7%positive. fold D.
  replace (Z.min (fexp prec emax (D + 0 - (7 + 0))) (0 - 0)) with (D - 60)
    by (unfold fexp, emin, prec, emax; lia).
  replace (0 - 0 - (D - 60)) with S by (unfold S; lia).
  destruct S as [|p|p] eqn:ES; try (unfold S in ES; lia).
  rewrite Z.shiftl_mul_pow2 by lia. rewrite Hm'.
  pose proof (Z_div_mod (2 * h) 100 ltac:(lia)) as Hdiv.
  destruct (Z.div_eucl (2 * h) 100) as [qq r]. destruct Hdiv as [Hdiv Hr].
  replace (xorb neg false) with neg by (destruct neg; reflexivity).
  assert (Hqq : 2 ^ 52 <= qq < 2 ^ 54) by lia.
  destruct (Z.lt_ge_cases qq (2 ^ 53)) as [H53|H54].
  - rewrite binary_round_aux_53 by lia.
    pose proof (round_quotient_53 qq r Hr) as Hnear.
    pose proof (round_nearest_even_bounds qq (new_location 100 r)) as Hb.
    set (m1 := round_nearest_even qq (new_location 100 r)) in *.
    destruct (m1 <? 2 ^ 53) eqn:E; [apply Z.ltb_lt in E | apply Z.ltb_ge in E].
    + exists (Z.to_pos m1), (D - 60). split; [reflexivity|].
      rewrite Z2Pos.id by lia. split; [lia|]. split; [lia|].
      replace (- (D - 60)) with (Z.pos p) by lia. rewrite Hm'. lia.
    + exists (Z.to_pos (2 ^ 52)), (D - 60 + 1). split; [reflexivity|].
      rewrite Z2Pos.id by lia. split; [lia|]. split; [lia|].
      replace (- (D - 60 + 1)) with (Z.pos p - 1) by lia. fold h. lia.
  - rewrite binary_round_aux_54 by lia.
    pose proof (round_quotient_54 qq r ltac:(lia) Hr) as Hnear.
    set (l' := loc_of_shr_record (shr_1 (shr_record_of_loc qq (new_location 100 r)))) in *.
    pose proof (round_nearest_even_bounds (qq / 2) l') as Hb.
    set (m1 := round_nearest_even (qq / 2) l') in *.
    assert (Hhalf : 2 ^ 52 <= qq / 2 < 2 ^ 53).
    { change (2 ^ 53) with (2 * 2 ^ 52) in H54. change (2 ^ 54) with (2 * 2 ^ 53) in Hqq.
      Z.div_mod_to_equations. lia. }
    destruct (m1 <? 2 ^ 53) eqn:E; [apply Z.ltb_lt in E | apply Z.ltb_ge in E].
    + exists (Z.to_pos m1), (D - 60 + 1). split; [reflexivity|].
      rewrite Z2Pos.id by lia. split; [lia|]. split; [lia|].
      replace (- (D - 60 + 1)) with (Z.pos p - 1) by lia. fold h. lia.
    + exfalso.
      change (2 ^ 53) with 9007199254740992 in *. change (2 ^ 54) with 18014398509481984 in *.
      change (2 ^ 59) with 576460752303423488 in *. lia.
Qed.

Lemma near_Q (neg : bool) (m q P : Z) :
  0 < P -> 2 ^ 52 <= m -> Z.abs (100 * m - q * P) <= 50 ->
  (Qabs (((if neg then - m else m) # Z.to_pos P) -
         inject_Z (if neg then - q else q) * (1 # 100)) <=
   Qabs ((if neg then - m else m) # Z.to_pos P) * (1 # 9007199254740992))%Q.
Proof.
  intros HP Hm Hnear.
  change (2 ^ 52) with 4503599627370496 in Hm.
  assert (Habs : (Qabs ((if neg then - m else m) # Z.to_pos P) == m # Z.to_pos P)%Q).
  { destruct neg; unfold Qabs, Qeq; cbn [Qnum Qden]; f_equal; lia. }
  rewrite Habs. apply Qabs_Qle_condition.
  unfold Qle, Qminus, Qplus, Qopp, Qmult, inject_Z. cbn [Qnum Qden].
  rewrite ?Pos2Z.inj_mul, ?Z2Pos.id by lia.
  set (k := 100 * m - q * P) in *.
  assert (Hk1 : k * 9007199254740992 <= 100 * m) by lia.
  assert (Hk2 : - (100 * m) <= k * 9007199254740992) by lia.
  destruct neg; unfold k in *; split; nia.
Qed.

(** What [SF2Prim] keeps: a normal number is a double. *)
Lemma Prim2SF_normal (neg : bool) (m : positive) (e : Z) :
  2 ^ 52 <= Z.pos m < 2 ^ 53 -> -1074 <= e <= 971 ->
  Prim2SF (SF2Prim (S754_finite neg m e)) = S754_finite neg m e.
Proof.
  intros Hm He. apply Prim2SF_SF2Prim.
  unfold valid_binary, bounded, canonical_mantissa.
  pose proof (Zdigits2_unique (Z.pos m) 53 ltac:(lia) Hm) as Hd. cbn [Zdigits2] in Hd.
  injection Hd as ->.
  apply andb_true_iff. split.
  - apply Z.eqb_eq. unfold fexp, emin, prec, emax. lia.
  - apply Z.leb_le. unfold prec, emax. lia.
Qed.

(** The double [round(x, 2)] returns is the decimal it stands for, up to
    the [2 ^ -53] of its size that a double cannot tell. *)
Lemma round2_near (x : float) :
  Z.abs (cents x) < 2 ^ 57 ->
  (Qabs (exact (round2 x) - decimal x) <= Qabs (exact (round2 x)) * (1 # 9007199254740992))%Q.
Proof.
  unfold decimal, cents, round2. intros Hc.
  destruct (Prim2SF x) as [s|s| |neg m e] eqn:Ex.
  1-3: unfold exact; rewrite Ex; vm_compute; discriminate.
  assert (Hpos : 0 <= round_half_even (100 * numerator m e) (denominator e)).
  { pose proof (denominator_pos e) as HD.
    assert (HN : 0 <= 100 * numerator m e).
    { unfold numerator. pose proof (Z.pow_nonneg 2 (Z.max e 0) ltac:(lia)). lia. }
    unfold round_half_even.
    pose proof (Z.div_pos (100 * numerator m e) (denominator e) HN HD).
    destruct (2 * ((100 * numerator m e) mod denominator e) ?= denominator e);
      [destruct (Z.even _)| |]; lia. }
  set (c := round_half_even (100 * numerator m e) (denominator e)) in *.
  assert (Hc' : Z.abs c < 2 ^ 57) by (destruct neg; lia).
  unfold of_cents. destruct c as [|q|q] eqn:Ec; [| |lia].
  - destruct neg; vm_compute; discriminate.
  - destruct (nearest_double_finite neg q ltac:(lia)) as (m' & e' & Hdiv & He' & Hm' & Hnear).
    unfold nearest_double, exact. rewrite Hdiv, Prim2SF_normal by lia.
    unfold numerator, denominator.
    replace (Z.max e' 0) with 0 by lia. replace (Z.max (- e') 0) with (- e') by lia.
    rewrite Z.pow_0_r, Z.mul_1_r.
    assert (HP : 0 < 2 ^ (- e')) by (apply Z.pow_pos_nonneg; lia).
    pose proof (near_Q neg (Z.pos m') (Z.pos q) (2 ^ (- e')) HP ltac:(lia) Hnear) as H.
    destruct neg; exact H.
Qed.

(** A value below [1.4 * 10 ^ 15] has fewer than [2 ^ 57] hundredths. *)
Lemma cents_bound (x : float) :
  (Qabs (exact x) <= 1400000000000000)%Q -> Z.abs (cents x) < 2 ^ 57.
Proof.
  intros Hx. pose proof (cents_near_exact x) as Hc.
  apply Qabs_Qle_condition in Hx, Hc.
  assert (Hq : (- (140000000000000001) <= inject_Z (cents x) /\
                inject_Z (cents x) <= 140000000000000001)%Q).
  { generalize dependent (inject_Z (cents x)). intros c Hc. split; lra. }
  destruct Hq as [Hlo Hhi]. unfold Qle, Qopp, inject_Z in Hlo, Hhi.
  cbn [Qnum Qden Z.opp] in Hlo, Hhi.
  change (2 ^ 57) with 144115188075855872. lia.
Qed.

(** The location of a quotient by an even number, from the remainder. *)
Lemma new_location_even_divisor (d r : Z) :
  Z.even d = true ->
  new_location d r = if r =? 0 then loc_Exact else loc_Inexact (2 * r ?= d).
Proof. intros Hd. unfold new_location, new_location_even. rewrite Hd. reflexivity. Qed.

Lemma round_quotient_even_53 (d qq r : Z) :
  Z.even d = true -> 0 <= r < d ->
  Z.abs (2 * (d * round_nearest_even qq (new_location d r) - (d * qq + r))) <= d.
Proof.
  intros Hd Hr. rewrite new_location_even_divisor by exact Hd.
  destruct (r =? 0) eqn:E0; cbn [round_nearest_even].
  - apply Z.eqb_eq in E0. lia.
  - apply Z.eqb_neq in E0.
    destruct (Z.compare_spec (2 * r) d) as [He|Hl|Hg]; cbn [round_nearest_even].
    + destruct (Z.even qq); lia.
    + lia.
    + lia.
Qed.

Lemma round_quotient_even_54 (d qq r : Z) :
  Z.even d = true -> 2 <= qq -> 0 <= r < d ->
  let m1 := round_nearest_even (qq / 2)
              (loc_of_shr_record (shr_1 (shr_record_of_loc qq (new_location d r)))) in
  Z.abs (2 * d * m1 - (d * qq + r)) <= d /\ 2 * m1 <= qq + 1.
Proof.
  intros Hd Hq Hr. cbn zeta. rewrite new_location_even_divisor by exact Hd.
  pose proof (Z.div_mod qq 2 ltac:(lia)) as Hdm.
  pose proof (Z.mod_pos_bound qq 2 ltac:(lia)) as Hb.
  assert (Hodd : Z.odd qq = (qq mod 2 =? 1)).
  { rewrite Zmod_odd. destruct (Z.odd qq); reflexivity. }
  destruct (r =? 0) eqn:E0.
  - apply Z.eqb_eq in E0. cbn [shr_record_of_loc]. rewrite shr_1_spec by lia.
    rewrite Hodd. destruct (qq mod 2 =? 1) eqn:E1;
      [apply Z.eqb_eq in E1 | apply Z.eqb_neq in E1];
      cbn [loc_of_shr_record orb round_nearest_even]; [destruct (Z.even (qq / 2))|]; nia.
  - apply Z.eqb_neq in E0.
    assert (Hs : shr_1 (shr_record_of_loc qq (loc_Inexact (2 * r ?= d))) =
                 {| shr_m := qq / 2; shr_r := Z.odd qq; shr_s := true |}).
    { destruct (2 * r ?= d); cbn [shr_record_of_loc]; rewrite shr_1_spec by lia; reflexivity. }
    rewrite Hs, Hodd.
    destruct (qq mod 2 =? 1) eqn:E1;
      [apply Z.eqb_eq in E1 | apply Z.eqb_neq in E1];
      cbn [loc_of_shr_record round_nearest_even]; nia.
Qed.

(** The quotient of two normal numbers, the divisor's mantissa even: a
    normal number within half a unit in the last place of the exact
    quotient.  [k] tells by how much the exponent exceeds
    [e1 - e2 - 53]. *)
Lemma SFdiv_normal (s : bool) (m1 m2 : positive) (e1 e2 : Z) :
  2 ^ 52 <= Z.pos m1 < 2 ^ 53 -> 2 ^ 52 <= Z.pos m2 < 2 ^ 53 ->
  Z.even (Z.pos m2) = true ->
  -1000 <= e1 - e2 <= 1000 ->
  exists m k,
    SFdiv prec emax (S754_finite s m1 e1) (S754_finite false m2 e2) =
      S754_finite s m (e1 - e2 - 53 + k) /\
    0 <= k <= 1 /\ 2 ^ 52 <= Z.pos m < 2 ^ 53 /\
    Z.abs (2 * (Z.pos m2 * Z.pos m * 2 ^ k - Z.pos m1 * 2 ^ 53)) <= Z.pos m2 * 2 ^ k.
Proof.
  intros H1 H2 Heven He.
  unfold SFdiv, SFdiv_core_binary.
  rewrite (Zdigits2_unique (Z.pos m1) 53) by lia.
  rewrite (Zdigits2_unique (Z.pos m2) 53) by lia.
  replace (Z.min (fexp prec emax (53 + e1 - (53 + e2))) (e1 - e2)) with (e1 - e2 - 53)
    by (unfold fexp, emin, prec, emax; lia).
  replace (e1 - e2 - (e1 - e2 - 53)) with 53 by lia.
  cbv iota beta. rewrite Z.shiftl_mul_pow2 by lia.
  pose proof (Z_div_mod (Z.pos m1 * 2 ^ 53) (Z.pos m2) ltac:(lia)) as Hdiv.
  destruct (Z.div_eucl (Z.pos m1 * 2 ^ 53) (Z.pos m2)) as [qq r]. destruct Hdiv as [Hdiv Hr].
  replace (xorb s false) with s by (destruct s; reflexivity).
  change (2 ^ 52) with 4503599627370496 in *.
  change (2 ^ 53) with 9007199254740992 in *.
  assert (Hqq : 4503599627370496 <= qq <= 18014398509481982).
  { split.
    - destruct (Z.lt_ge_cases qq 4503599627370496) as [Hc|Hc]; [exfalso|exact Hc].
      pose proof (Z.mul_le_mono_nonneg_l (qq + 1) 4503599627370496 (Z.pos m2)
                    ltac:(lia) ltac:(lia)) as Hm.
      lia.
    - destruct (Z.le_gt_cases qq 18014398509481982) as [Hc|Hc]; [exact Hc|exfalso].
      pose proof (Z.mul_le_mono_nonneg_l 18014398509481983 qq (Z.pos m2)
                    ltac:(lia) ltac:(lia)) as Hm.
      lia. }
  destruct (Z.lt_ge_cases qq 9007199254740992) as [H53|H54].
  - rewrite binary_round_aux_53
      by (change (2 ^ 52) with 4503599627370496; change (2 ^ 53) with 9007199254740992; lia).
    pose proof (round_quotient_even_53 (Z.pos m2) qq r Heven Hr) as Hnear.
    pose proof (round_nearest_even_bounds qq (new_location (Z.pos m2) r)) as Hb.
    set (mr := round_nearest_even qq (new_location (Z.pos m2) r)) in *.
    change (2 ^ 53) with 9007199254740992. change (2 ^ 52) with 4503599627370496.
    destruct (mr <? 9007199254740992) eqn:E; [apply Z.ltb_lt in E | apply Z.ltb_ge in E].
    + exists (Z.to_pos mr), 0. rewrite Z.add_0_r. split; [reflexivity|].
      rewrite Z2Pos.id by lia. split; [lia|]. split; [lia|].
      rewrite Z.pow_0_r. lia.
    + exists (Z.to_pos 4503599627370496), 1. split; [reflexivity|].
      rewrite Z2Pos.id by lia. split; [lia|]. split; [lia|].
      assert (Hmr : mr = 9007199254740992) by lia. rewrite Hmr in Hnear.
      change (2 ^ 1) with 2. lia.
  - rewrite binary_round_aux_54
      by (change (2 ^ 54) with 18014398509481984; change (2 ^ 53) with 9007199254740992; lia).
    pose proof (round_quotient_even_54 (Z.pos m2) qq r Heven ltac:(lia) Hr) as [Hnear Hle].
    set (l' := loc_of_shr_record (shr_1 (shr_record_of_loc qq (new_location (Z.pos m2) r)))) in *.
    pose proof (round_nearest_even_bounds (qq / 2) l') as Hb.
    set (mr := round_nearest_even (qq / 2) l') in *.
    assert (Hhalf : 4503599627370496 <= qq / 2) by (Z.div_mod_to_equations; lia).
    change (2 ^ 53) with 9007199254740992. change (2 ^ 52) with 4503599627370496.
    destruct (mr <? 9007199254740992) eqn:E; [apply Z.ltb_lt in E | apply Z.ltb_ge in E]; [|lia].
    exists (Z.to_pos mr), 1. split; [reflexivity|].
    rewrite Z2Pos.id by lia. split; [lia|]. split; [lia|].
    change (2 ^ 1) with 2. lia.
Qed.


(** A count of installments as a double: exact, with an even mantissa. *)
Lemma of_small_int_finite (n : Z) :
  1 <= n <= 12 ->
  exists m2 e2,
    Prim2SF (of_small_int n) = S754_finite false m2 e2 /\
    -52 <= e2 <= -49 /\ Z.pos m2 = n * 2 ^ (- e2) /\
    2 ^ 52 <= Z.pos m2 < 2 ^ 53 /\ Z.even (Z.pos m2) = true.
Proof.
  intros Hn.
  assert (Hcases : n = 1 \/ n = 2 \/ n = 3 \/ n = 4 \/ n = 5 \/ n = 6 \/
                   n = 7 \/ n = 8 \/ n = 9 \/ n = 10 \/ n = 11 \/ n = 12) by lia.
  clear Hn.
  repeat (destruct Hcases as [-> | Hcases]); try subst n;
    (eexists _, _; split; [vm_compute; reflexivity|]; vm_compute; intuition discriminate).
Qed.

(** A double between 0.01 and [10 ^ 15] in size is a normal number. *)
Lemma finite_normal (t : float) :
  (1 # 100 <= Qabs (exact t))%Q -> (Qabs (exact t) <= 1000000000000000)%Q ->
  exists s m1 e1,
    Prim2SF t = S754_finite s m1 e1 /\ 2 ^ 52 <= Z.pos m1 < 2 ^ 53 /\ -59 <= e1 <= -3.
Proof.
  intros Hlo Hhi. pose proof (Prim2SF_valid t) as Hvalid.
  unfold exact in Hlo, Hhi.
  destruct (Prim2SF t) as [s|s| |s m1 e1] eqn:Et.
  1-3: exfalso; apply Hlo; reflexivity.
  exists s, m1, e1. split; [reflexivity|].
  unfold valid_binary, bounded, canonical_mantissa in Hvalid.
  apply andb_true_iff in Hvalid as [Hcan Hmax].
  apply Z.eqb_eq in Hcan. apply Z.leb_le in Hmax.
  unfold fexp, emin, prec, emax in Hcan, Hmax.
  pose proof (digits2_pos_bounds m1) as [Hd1 Hd2].
  set (d := Z.pos (digits2_pos m1)) in *.
  assert (Hd : 0 < d) by (unfold d; lia).
  assert (HN : Qabs ((if s then - numerator m1 e1 else numerator m1 e1) #
                     Z.to_pos (denominator e1)) =
               (numerator m1 e1 # Z.to_pos (denominator e1))).
  { unfold numerator. pose proof (Z.pow_nonneg 2 (Z.max e1 0) ltac:(lia)).
    destruct s; unfold Qabs; f_equal; lia. }
  cbv zeta in Hlo, Hhi. rewrite HN in Hlo, Hhi.
  unfold Qle in Hlo, Hhi. cbn [Qnum Qden] in Hlo, Hhi.
  pose proof (denominator_pos e1) as HD.
  rewrite Z2Pos.id in Hlo, Hhi by exact HD.
  unfold numerator, denominator in Hlo, Hhi.
  destruct (Z.le_gt_cases 0 e1) as [Hpos|Hneg].
  - exfalso.
    replace (Z.max e1 0) with e1 in * by lia. replace (Z.max (- e1) 0) with 0 in * by lia.
    replace d with 53 in * by lia.
    change (2 ^ (53 - 1)) with 4503599627370496 in Hd1.
    pose proof (Z.pow_pos_nonneg 2 e1 ltac:(lia) Hpos) as Hp.
    change (2 ^ 0) with 1 in Hhi.
    assert (Z.pos m1 * 1 <= Z.pos m1 * 2 ^ e1) by (apply Z.mul_le_mono_nonneg_l; lia).
    lia.
  - replace (Z.max e1 0) with 0 in * by lia. replace (Z.max (- e1) 0) with (- e1) in * by lia.
    change (2 ^ 0) with 1 in Hlo, Hhi.
    destruct (Z.eq_dec e1 (-1074)) as [He|He].
    + exfalso. subst e1.
      assert (2 ^ d <= 2 ^ 53) by (apply Z.pow_le_mono_r; lia).
      assert (2 ^ 60 <= 2 ^ (- -1074)) by (apply Z.pow_le_mono_r; lia).
      change (2 ^ 53) with 9007199254740992 in *.
      change (2 ^ 60) with 1152921504606846976 in *. lia.
    + replace d with 53 in * by lia.
      change (2 ^ (53 - 1)) with 4503599627370496 in *.
      change (2 ^ 53) with 9007199254740992 in *.
      change (2 ^ 52) with 4503599627370496.
      split; [lia|]. split.
      * destruct (Z.le_gt_cases (-59) e1) as [H|H]; [exact H|exfalso].
        assert (2 ^ 60 <= 2 ^ (- e1)) by (apply Z.pow_le_mono_r; lia).
        change (2 ^ 60) with 1152921504606846976 in *. lia.
      * destruct (Z.le_gt_cases e1 (-3)) as [H|H]; [exact H|exfalso].
        assert (2 ^ (- e1) <= 2 ^ 2) by (apply Z.pow_le_mono_r; lia).
        change (2 ^ 2) with 4 in *. lia.
Qed.

Lemma near_quotient_Q (neg : bool) (n m m1 J : Z) (P : positive) :
  0 < J -> 1 <= n -> 2 ^ 52 <= m -> Z.abs (2 * (n * m - m1 * J)) <= n ->
  (Qabs (inject_Z n * ((if neg then - m else m) # P) -
         ((if neg then - (m1 * J) else m1 * J) # P)) <=
   inject_Z n * Qabs ((if neg then - m else m) # P) * (1 # 9007199254740992))%Q.
Proof.
  intros HJ Hn Hm Hnear.
  change (2 ^ 52) with 4503599627370496 in Hm.
  assert (Habs : (Qabs ((if neg then - m else m) # P) == m # P)%Q).
  { destruct neg; unfold Qabs, Qeq; cbn [Qnum Qden]; f_equal; lia. }
  rewrite Habs. apply Qabs_Qle_condition.
  unfold Qle, Qminus, Qplus, Qopp, Qmult, inject_Z. cbn [Qnum Qden].
  rewrite ?Pos2Z.inj_mul.
  assert (Hnm : n * 4503599627370496 <= n * m) by (apply Z.mul_le_mono_nonneg_l; lia).
  set (k := n * m - m1 * J) in *.
  assert (Hk1 : k * 9007199254740992 <= n * m) by lia.
  assert (Hk2 : - (n * m) <= k * 9007199254740992) by lia.
  assert (HW : 0 < Z.pos P * Z.pos P) by lia.
  pose proof (Z.mul_le_mono_nonneg_r _ _ (Z.pos P * Z.pos P) ltac:(lia) Hk1) as H1.
  pose proof (Z.mul_le_mono_nonneg_r _ _ (Z.pos P * Z.pos P) ltac:(lia) Hk2) as H2.
  destruct neg; unfold k in *; split; nia.
Qed.

(** The double [t / n] against the exact quotient: within [2 ^ -53] of
    its size. *)
Lemma div_near (t : float) (n : Z) :
  1 <= n <= 12 ->
  (1 # 100 <= Qabs (exact t))%Q -> (Qabs (exact t) <= 1000000000000000)%Q ->
  (Qabs (inject_Z n * exact (t / of_small_int n) - exact t) <=
   inject_Z n * Qabs (exact (t / of_small_int n)) * (1 # 9007199254740992))%Q.
Proof.
  intros Hn Hlo Hhi.
  destruct (finite_normal t Hlo Hhi) as (s & m1 & e1 & Et & Hm1 & He1).
  destruct (of_small_int_finite n Hn) as (m2 & e2 & Ey & He2 & Hm2 & Hm2r & Heven).
  destruct (SFdiv_normal s m1 m2 e1 e2 Hm1 Hm2r Heven ltac:(lia))
    as (m & k & Hdiv & Hk & Hm & Hacc).
  unfold exact. rewrite div_spec, Et, Ey. unfold SF64div. rewrite Hdiv.
  unfold numerator, denominator.
  replace (Z.max (e1 - e2 - 53 + k) 0) with 0 by lia.
  replace (Z.max (- (e1 - e2 - 53 + k)) 0) with (- e1 + (e2 + 53 - k)) by lia.
  replace (Z.max e1 0) with 0 by lia. replace (Z.max (- e1) 0) with (- e1) by lia.
  rewrite Z.pow_add_r by lia. rewrite Z.pow_0_r, !Z.mul_1_r.
  assert (HP1 : 0 < 2 ^ (- e1)) by (apply Z.pow_pos_nonneg; lia).
  assert (HJ : 0 < 2 ^ (e2 + 53 - k)) by (apply Z.pow_pos_nonneg; lia).
  assert (Hnear : Z.abs (2 * (n * Z.pos m - Z.pos m1 * 2 ^ (e2 + 53 - k))) <= n).
  { assert (He2c : e2 = -52 \/ e2 = -51 \/ e2 = -50 \/ e2 = -49) by lia.
    assert (Hkc : k = 0 \/ k = 1) by lia.
    clear - Hm2 Hacc He2c Hkc Hn. rewrite Hm2 in Hacc. clear Hm2.
    destruct He2c as [-> | [-> | [-> | ->]]]; destruct Hkc as [-> | ->];
      repeat match goal with
             | H : context [2 ^ ?a] |- _ =>
                 let v := eval vm_compute in (2 ^ a) in change (2 ^ a) with v in H
             | |- context [2 ^ ?a] =>
                 let v := eval vm_compute in (2 ^ a) in change (2 ^ a) with v
             end; lia. }
  set (P1 := 2 ^ (- e1)) in *. set (J := 2 ^ (e2 + 53 - k)) in *.
  assert (Ht : ((if s then - Z.pos m1 else Z.pos m1) # Z.to_pos P1 ==
                (if s then - (Z.pos m1 * J) else Z.pos m1 * J) # Z.to_pos (P1 * J))%Q).
  { unfold Qeq. cbn [Qnum Qden]. rewrite !Z2Pos.id by lia. destruct s; ring. }
  rewrite Ht.
  apply near_quotient_Q; [exact HJ | lia | lia | exact Hnear].
Qed.


(** The quotient of an amount below [10 ^ 15] by a count of
    installments stays in the range [round2] is exact to the cent on. *)
Lemma quotient_bound (n : Z) (U T : Q) :
  1 <= n <= 12 ->
  (Qabs (inject_Z n * U - T) <= inject_Z n * Qabs U * (1 # 9007199254740992))%Q ->
  (Qabs T <= 1000000000000000)%Q ->
  (Qabs U <= 1400000000000000)%Q.
Proof.
  intros Hn Hd HT.
  apply Qabs_Qle_condition in Hd, HT.
  assert (Hcases : n = 1 \/ n = 2 \/ n = 3 \/ n = 4 \/ n = 5 \/ n = 6 \/
                   n = 7 \/ n = 8 \/ n = 9 \/ n = 10 \/ n = 11 \/ n = 12) by lia.
  clear Hn. revert Hd. apply (Qabs_case U); intros HU Hd;
  repeat (destruct Hcases as [-> | Hcases]); try subst n;
    unfold inject_Z in *; lra.
Qed.

(** [n] stored amounts against the stored total: the tolerance of the
    decimals, and what the doubles add, the division included. *)
Lemma stored_sum_near (n cu ct : Z) (A B U T : Q) :
  1 <= n <= 12 ->
  (Qabs (inject_Z cu - 100 * U) <= 1 # 2)%Q ->
  (Qabs (inject_Z ct - 100 * T) <= 1 # 2)%Q ->
  (Qabs (inject_Z n * U - T) <= inject_Z n * Qabs U * (1 # 9007199254740992))%Q ->
  (Qabs (A - inject_Z cu * (1 # 100)) <= Qabs A * (1 # 9007199254740992))%Q ->
  (Qabs (B - inject_Z ct * (1 # 100)) <= Qabs B * (1 # 9007199254740992))%Q ->
  (Qabs (inject_Z n * A - B) <=
   inject_Z (n + 1) * (5 # 1000) + (Qabs T + 1) * (1 # 2251799813685248))%Q.
Proof.
  intros Hn Hu Ht Hd HA HB.
  apply Qabs_Qle_condition in Hu, Ht, Hd, HA, HB.
  generalize dependent (inject_Z cu). generalize dependent (inject_Z ct).
  intros qt Ht HB qu Hu HA.
  assert (Hcases : n = 1 \/ n = 2 \/ n = 3 \/ n = 4 \/ n = 5 \/ n = 6 \/
                   n = 7 \/ n = 8 \/ n = 9 \/ n = 10 \/ n = 11 \/ n = 12) by lia.
  clear Hn.
  revert Hd HA HB.
  apply (Qabs_case U); intros HU; apply (Qabs_case A); intros HA';
    apply (Qabs_case B); intros HB'; apply (Qabs_case T); intros HT';
    intros Hd HA HB; apply Qabs_Qle_condition;
    repeat (destruct Hcases as [-> | Hcases]); try subst n;
    (match goal with |- context [inject_Z (?a + ?b)] =>
       let v := eval vm_compute in (a + b) in change (a + b) with v in * end;
     unfold inject_Z in *; split; lra).
Qed.

End RoundingFacts.

Section InstallmentSumClaims.
Import DateTime Spec Samples RepaymentCalculator PyFloat.

Lemma exact_sum_scheduled (now : datetime) (amount : float) (range : list Z) :
  (exact_sum (scheduled now amount <$> range) ==
   inject_Z (Z.of_nat (length range)) * exact amount)%Q.
Proof.
  induction range as [|i range IH].
  - unfold exact_sum. simpl. ring.
  - change (exact_sum (scheduled now amount <$> i :: range))
      with (exact (amount_of (scheduled now amount i)) +
            exact_sum (scheduled now amount <$> range))%Q.
    change (amount_of (scheduled now amount i)) with amount.
    rewrite IH. cbn [length]. rewrite Nat2Z.inj_succ. unfold Z.succ.
    rewrite inject_Z_plus. ring.
Qed.

(** C6, as stated, fails: for an approved amount of 2.25 in 3
    installments the plan holds three amounts of 0.77 (2.31 in all)
    against a [total_to_repay] of 2.29; the exact sum of the amounts is
    further than 3 * 0.005 from the total, and further than 4 * 0.005
    too, by what the doubles add to the decimals. *)
Lemma C6_tolerance_counterexample :
  exists plan,
    calculate_repayment_plan sample_now 2.25 3 = Ok plan /\
    ~ (Qabs (exact_sum (schedule plan) - exact (total_to_repay plan)) <=
       inject_Z 3 * (5 # 1000))%Q /\
    ~ (Qabs (exact_sum (schedule plan) - exact (total_to_repay plan)) <=
       inject_Z 4 * (5 # 1000))%Q.
Proof.
  eexists. split.
  - apply calculate_repayment_plan_ok; unfold valid, MAXYEAR; cbn; lia.
  - split; intros H; vm_compute in H; apply H; reflexivity.
Qed.

(** C6, amended.  For every plan returned for a valid count [n] and an
    amount to repay between 0.01 and [10 ^ 15] in size: the schedule
    holds [n] entries, each of the amount
    [round(approved_amount * 1.02 / n, 2)], the plan's
    [installment_amount].  The sum of the amounts stored differs from
    the [total_to_repay] stored by at most [(n + 1) * 0.005],
    [total_to_repay] being rounded on its own, plus what binary
    arithmetic adds (the rounding of the division and of the two
    decimals read back as doubles): at most [(|t| + 1) * 2 ^ -51], for
    [t] the double [approved_amount * 1.02].  The [i]-th due date is the
    request time advanced by [i] calendar months, so due dates increase
    strictly by one calendar month per installment and the first one is
    one month after the request time. *)
Theorem C6_installment_sum_and_due_dates (now : datetime) (a : float) (n : Z) :
  valid (date_of now) -> year (date_of now) < MAXYEAR -> 1 <= n <= 12 ->
  let t := (a * lit_1_02)%float in
  let u := (t / of_small_int n)%float in
  (1 # 100 <= Qabs (exact t))%Q ->
  (Qabs (exact t) <= 1000000000000000)%Q ->
  exists plan,
    calculate_repayment_plan now a n = Ok plan /\
    total_to_repay plan = round2 t /\
    installment_amount plan = round2 u /\
    length (schedule plan) = Z.to_nat n /\
    Forall (fun inst => inst !! "amount" = Some (VFloat (installment_amount plan)))
           (schedule plan) /\
    (Qabs (exact_sum (schedule plan) - exact (total_to_repay plan)) <=
     inject_Z (n + 1) * (5 # 1000) +
     (Qabs (exact t) + 1) * (1 # 2251799813685248))%Q /\
    (forall i, 1 <= i <= n ->
       exists inst,
         schedule plan !! Z.to_nat (i - 1) = Some inst /\
         inst !! "due_date" =
           Some (VStr (strftime_ymd (advance_months (date_of now) i)))) /\
    (forall i,
       month_index (advance_months (date_of now) i) = month_index (date_of now) + i /\
       ltb (advance_months (date_of now) i) (advance_months (date_of now) (i + 1)) = true) /\
    first_due_date plan = VStr (strftime_ymd (advance_months (date_of now) 1)).
Proof.
  intros Hv Hy Hn t u Hlo Hhi. eexists. split.
  { apply calculate_repayment_plan_ok; assumption. }
  cbn [total_to_repay installment_amount schedule first_due_date].
  fold t. fold u.
  split; [reflexivity|]. split; [reflexivity|]. split.
  { rewrite length_fmap, length_seqZ. reflexivity. }
  split.
  { apply Forall_fmap, Forall_forall. intros i _. reflexivity. }
  split.
  { rewrite exact_sum_scheduled, length_seqZ, Z2Nat.id by lia.
    pose proof (div_near t n Hn Hlo Hhi) as Hdiv. fold u in Hdiv.
    apply (stored_sum_near n (cents u) (cents t) _ _ (exact u) (exact t)).
    - exact Hn.
    - apply cents_near_exact.
    - apply cents_near_exact.
    - exact Hdiv.
    - apply round2_near, cents_bound, (quotient_bound n _ (exact t)); assumption.
    - apply round2_near, cents_bound.
      apply Qle_trans with (1 := Hhi). discriminate. }
  split.
  { intros i Hi. eexists. split.
    - rewrite list_lookup_fmap, lookup_seqZ_lt by lia. simpl. reflexivity.
    - rewrite scheduled_due_date.
      replace (1 + Z.of_nat (Z.to_nat (i - 1))) with i by lia. reflexivity. }
  split; [|reflexivity].
  intros i. split; [apply advance_months_index|].
  apply ltb_of_month_index; try apply advance_months_month.
  rewrite !advance_months_index. lia.
Qed.

Lemma C6_installment_sum_and_due_dates_witness :
  let t := (2.25 * lit_1_02)%float in
  let u := (t / of_small_int 3)%float in
  exists plan,
    calculate_repayment_plan sample_now 2.25 3 = Ok plan /\
    total_to_repay plan = round2 t /\
    installment_amount plan = round2 u /\
    length (schedule plan) = Z.to_nat 3 /\
    Forall (fun inst => inst !! "amount" = Some (VFloat (installment_amount plan)))
           (schedule plan) /\
    (Qabs (exact_sum (schedule plan) - exact (total_to_repay plan)) <=
     inject_Z (3 + 1) * (5 # 1000) +
     (Qabs (exact t) + 1) * (1 # 2251799813685248))%Q /\
    (forall i, 1 <= i <= 3 ->
       exists inst,
         schedule plan !! Z.to_nat (i - 1) = Some inst /\
         inst !! "due_date" =
           Some (VStr (strftime_ymd (advance_months (date_of sample_now) i)))) /\
    (forall i,
       month_index (advance_months (date_of sample_now) i) =
         month_index (date_of sample_now) + i /\
       ltb (advance_months (date_of sample_now) i)
           (advance_months (date_of sample_now) (i + 1)) = true) /\
    first_due_date plan = VStr (strftime_ymd (advance_months (date_of sample_now) 1)).
Proof.
  apply (C6_installment_sum_and_due_dates sample_now 2.25 3).
  - unfold valid, MAXYEAR; cbn; lia.
  - unfold MAXYEAR; cbn; lia.
  - lia.
  - vm_compute. discriminate.
  - vm_compute. discriminate.
Defined.

End InstallmentSumClaims.

(* ===================================================================== *)
(** ** Overdue installments *)
(* ===================================================================== *)

Section OverdueFacts.
Import DateTime Spec RepaymentCalculator.

(** The loop keeps what it has collected and appends, in order, the
    entry of every overdue installment. *)
Lemma scan_filter today insts acc :
  Forall installment_record insts ->
  scan today insts acc =
  Ok (acc ++ (reported today <$> filter (fun inst => is_overdue today inst = true) insts)).
Proof.
  intros Hrec. revert acc.
  induction Hrec as [|inst insts Hinst Hrec IH]; intros acc.
  - simpl. rewrite app_nil_r. reflexivity.
  - simpl. destruct (is_overdue today inst) eqn:Eo.
    + rewrite filter_cons_True by exact Eo.
      unfold is_overdue in Eo. apply andb_true_iff in Eo as [Ep Ed]. rewrite Ep.
      destruct (Hinst Ep) as [[due Hdue] _]. rewrite Hdue in Ed |- *. simpl. rewrite Ed.
      rewrite IH, <- app_assoc. simpl.
      unfold reported at 2. unfold overdue_entry, days_between. rewrite Hdue. reflexivity.
    + rewrite filter_cons_False by (rewrite Eo; discriminate).
      unfold is_overdue in Eo. destruct (is_pending inst) eqn:Ep; [|apply IH].
      destruct (Hinst Ep) as [[due Hdue] _]. rewrite Hdue in Eo |- *.
      simpl in *. rewrite Eo. apply IH.
Qed.


(** [sum] over floats returns: only mixed or non-numeric operands raise. *)
Lemma sum_from_floats acc xs :
  (acc = VInt 0 \/ exists f, acc = VFloat f) ->
  Forall (fun v => exists f, v = VFloat f) xs ->
  exists total, Py.sum_from acc xs = Ok total.
Proof.
  intros Hacc Hxs. revert acc Hacc.
  induction Hxs as [|x xs [f ->] Hxs IH]; intros acc Hacc; simpl.
  - eexists; reflexivity.
  - destruct Hacc as [-> | [g ->]]; simpl.
    + apply IH. right. eexists; reflexivity.
    + apply IH. right. eexists; reflexivity.
Qed.

End OverdueFacts.

Section OverdueClaims.
Import DateTime Spec Samples RepaymentCalculator.



(** The spec's example evaluated: exactly one overdue entry, ten days
    overdue. *)
Example check_overdue_installments_example :
  check_overdue_installments sample_today sample_installments =
  Ok {| has_overdue := true;
        overdue_count := 1;
        overdue_installments :=
          [ {[ "installment_number" := VInt 2; "amount" := VFloat 85;
               "due_date" := VStr "2024-03-05"; "days_overdue" := VInt 10 ]} ];
        total_overdue_amount := VFloat 85 |}.
Proof. vm_compute. reflexivity. Qed.

End OverdueClaims.

(* ===================================================================== *)
(** ** Tables, queries and updates *)
(* ===================================================================== *)

(** An option shown to be [Some] by evaluation. *)
Lemma is_Some_true {A} (o : option A) :
  match o with Some _ => true | None => false end = true -> o <> None.
Proof. destruct o; [discriminate | intros H; discriminate H]. Qed.

Section TableFacts.
Import Service.

Lemma id_is_CInt uid r : id_is (CInt uid) r = true <-> r !! "id" = Some (CInt uid).
Proof.
  unfold id_is. simpl. split.
  - destruct (r !! "id") as [[| |z|]|]; simpl; try discriminate.
    intros H. apply Z.eqb_eq in H. subst. reflexivity.
  - intros ->. simpl. apply Z.eqb_refl.
Qed.

Lemma id_is_row_id uid r : id_is (CInt uid) r = true -> row_id r = uid.
Proof. intros H. apply id_is_CInt in H. unfold row_id. rewrite H. reflexivity. Qed.

(** Rows of a table with distinct keys are told apart by their key. *)
Lemma same_id_same_row (rows : list obj) r u :
  NoDup (row_id <$> rows) -> r ∈ rows -> u ∈ rows -> row_id r = row_id u -> r = u.
Proof.
  intros Hnd Hr Hu Hid.
  apply list_elem_of_lookup in Hr as [i Hi]. apply list_elem_of_lookup in Hu as [j Hj].
  assert (Hi' : (row_id <$> rows) !! i = Some (row_id r)) by (rewrite list_lookup_fmap, Hi; reflexivity).
  assert (Hj' : (row_id <$> rows) !! j = Some (row_id r)) by (rewrite list_lookup_fmap, Hj, Hid; reflexivity).
  pose proof (NoDup_lookup _ _ _ _ Hnd Hi' Hj') as ->. congruence.
Qed.

Lemma filter_none (P : obj -> bool) (rows : list obj) :
  (forall r, r ∈ rows -> P r = false) -> filter (fun r => P r = true) rows = [].
Proof.
  induction rows as [|x rows IH]; intros Hnone; [reflexivity|].
  rewrite filter_cons_False.
  - apply IH. intros r Hr. apply Hnone. right. assumption.
  - rewrite Hnone by left. discriminate.
Qed.

(** A query that only the row [u] of the table answers returns [u]. *)
Lemma filter_only (P : obj -> bool) (rows : list obj) u :
  NoDup rows -> u ∈ rows -> P u = true ->
  (forall r, r ∈ rows -> P r = true -> r = u) ->
  filter (fun r => P r = true) rows = [u].
Proof.
  intros Hnd Hu HP Honly.
  induction rows as [|x rows IH]; [inversion Hu|].
  apply NoDup_cons in Hnd as [Hx Hnd].
  destruct (P x) eqn:Ex.
  - assert (x = u) by (apply Honly; [left | assumption]). subst x.
    rewrite filter_cons_True by assumption. f_equal.
    apply filter_none. intros r Hr.
    destruct (P r) eqn:Er; [|reflexivity].
    assert (r = u) by (apply Honly; [right; assumption | assumption]).
    subst r. contradiction.
  - rewrite filter_cons_False by (rewrite Ex; discriminate).
    apply IH; try assumption.
    + apply elem_of_cons in Hu as [->|Hu]; [congruence | assumption].
    + intros r Hr. apply Honly. right. assumption.
Qed.

Lemma filter_fmap_same (P : obj -> bool) (f : obj -> obj) (rows : list obj) :
  Forall (fun r => P (f r) = P r) rows ->
  filter (fun r => P r = true) (f <$> rows) = f <$> filter (fun r => P r = true) rows.
Proof.
  induction 1 as [|x rows Hx Hrows IH]; [reflexivity|].
  rewrite fmap_cons. destruct (P x) eqn:Ex.
  - rewrite !filter_cons_True by congruence. rewrite fmap_cons, IH. reflexivity.
  - rewrite !filter_cons_False by (intros ?; congruence). exact IH.
Qed.

Lemma insert_desc_fmap (f : obj -> obj) r rows :
  (forall x, row_id (f x) = row_id x) ->
  insert_desc (f r) (f <$> rows) = f <$> insert_desc r rows.
Proof.
  intros Hf. induction rows as [|x rows IH]; [reflexivity|].
  simpl. rewrite !Hf. destruct (row_id x <=? row_id r); [reflexivity|].
  rewrite fmap_cons, <- IH. reflexivity.
Qed.

Lemma order_by_id_desc_fmap (f : obj -> obj) rows :
  (forall x, row_id (f x) = row_id x) ->
  order_by_id_desc (f <$> rows) = f <$> order_by_id_desc rows.
Proof.
  intros Hf. induction rows as [|x rows IH]; [reflexivity|].
  change (order_by_id_desc (f <$> x :: rows))
    with (insert_desc (f x) (order_by_id_desc (f <$> rows))).
  change (order_by_id_desc (x :: rows)) with (insert_desc x (order_by_id_desc rows)).
  rewrite IH. apply insert_desc_fmap, Hf.
Qed.

Lemma insert_desc_perm r rows : insert_desc r rows ≡ₚ r :: rows.
Proof.
  induction rows as [|x rows IH]; [reflexivity|].
  simpl. destruct (row_id x <=? row_id r); [reflexivity|].
  rewrite IH. apply Permutation_swap.
Qed.

Lemma order_by_id_desc_perm rows : order_by_id_desc rows ≡ₚ rows.
Proof.
  induction rows as [|x rows IH]; [reflexivity|].
  change (order_by_id_desc (x :: rows)) with (insert_desc x (order_by_id_desc rows)).
  rewrite insert_desc_perm, IH. reflexivity.
Qed.

End TableFacts.

Section ServiceFacts.
Import Service Spec.
Variable M : Model.

Lemma items_get_list db skip limit user_id query_dict :
  items (get_list M db skip limit user_id query_dict) =
  take limit (drop skip (order_by_id_desc
    (filter (fun r => selected M user_id query_dict r = true) (table M db)))).
Proof. reflexivity. Qed.

(** What [get_list] returns is in the table and answers the query. *)
Lemma get_list_elem db skip limit user_id query_dict r :
  r ∈ items (get_list M db skip limit user_id query_dict) ->
  r ∈ table M db /\ selected M user_id query_dict r = true.
Proof.
  rewrite items_get_list. intros Hr.
  apply subseteq_take, subseteq_drop in Hr.
  rewrite order_by_id_desc_perm in Hr.
  apply list_elem_of_filter in Hr as [Hsel Hr]. split; assumption.
Qed.

(** [get_by_id] finds the row of the table with the key, when the caller
    owns it. *)
Lemma get_by_id_found db uid user_id u :
  NoDup (row_id <$> table M db) ->
  u ∈ table M db -> u !! "id" = Some (CInt uid) -> owned_by user_id u = true ->
  get_by_id M db (CInt uid) user_id = Ok (Some u).
Proof.
  intros Hnd Hu Hid Hown. unfold get_by_id.
  rewrite (filter_only (selects (CInt uid) user_id) (table M db) u); try assumption.
  - reflexivity.
  - eapply NoDup_fmap_1, Hnd.
  - unfold selects. rewrite (proj2 (id_is_CInt uid u) Hid), Hown. reflexivity.
  - intros r Hr Hsel. unfold selects in Hsel. apply andb_true_iff in Hsel as [Hsel _].
    apply (same_id_same_row (table M db)); try assumption.
    rewrite (id_is_row_id uid r Hsel).
    symmetry. apply id_is_row_id, id_is_CInt, Hid.
Qed.

(** [update], once the object is found, stages the assignments and
    commits them. *)
Lemma update_found db obj_id update_data user_id o :
  get_by_id M db obj_id user_id = Ok (Some o) ->
  update M obj_id update_data user_id db =
  if fails_at 0 db then (Raise DBAPIError, attempted db)
  else (Ok (Some (assign o update_data)),
        with_table M (flush obj_id (assign o update_data) (table M db)) (attempted db)).
Proof.
  intros Hget. unfold update. rewrite Hget.
  unfold mbind, io_mbind, io_bind, commit.
  destruct (fails_at 0 db); reflexivity.
Qed.

Lemma assign_one o key value :
  is_Some (o !! key) -> key <> "user_id" ->
  assign o [(key, value)] = <[key := value]> o.
Proof.
  intros Hk Hne. simpl. unfold hasattr.
  rewrite bool_decide_true by assumption.
  destruct (String.eqb key "user_id") eqn:E; [apply String.eqb_eq in E; contradiction|].
  reflexivity.
Qed.

Lemma assign_two o k1 v1 k2 v2 :
  is_Some (o !! k1) -> is_Some (o !! k2) -> k1 <> "user_id" -> k2 <> "user_id" ->
  assign o [(k1, v1); (k2, v2)] = <[k2 := v2]> (<[k1 := v1]> o).
Proof.
  intros H1 H2 Hn1 Hn2. simpl. unfold hasattr, setattr.
  rewrite bool_decide_true by assumption.
  destruct (String.eqb k1 "user_id") eqn:E1; [apply String.eqb_eq in E1; contradiction|].
  simpl. rewrite bool_decide_true.
  2:{ destruct (decide (k1 = k2)) as [->|Hne].
      - rewrite lookup_insert_eq. eexists; reflexivity.
      - rewrite lookup_insert_ne by assumption. assumption. }
  destruct (String.eqb k2 "user_id") eqn:E2; [apply String.eqb_eq in E2; contradiction|].
  reflexivity.
Qed.

(** Flushing twice for the same key keeps the last object. *)
Lemma flush_flush uid o1 o2 rows :
  o1 !! "id" = Some (CInt uid) ->
  flush (CInt uid) o2 (flush (CInt uid) o1 rows) = flush (CInt uid) o2 rows.
Proof.
  intros Hid. unfold flush. rewrite <- list_fmap_compose.
  apply list_fmap_ext. intros i r _. simpl.
  destruct (id_is (CInt uid) r) eqn:E; [|rewrite E; reflexivity].
  rewrite (proj2 (id_is_CInt uid o1) Hid). reflexivity.
Qed.

Lemma flush_row_ids uid o' rows :
  o' !! "id" = Some (CInt uid) ->
  row_id <$> flush (CInt uid) o' rows = row_id <$> rows.
Proof.
  intros Hid. unfold flush. rewrite <- list_fmap_compose.
  apply list_fmap_ext. intros i r _. simpl.
  destruct (id_is (CInt uid) r) eqn:E; [|reflexivity].
  rewrite (id_is_row_id uid r E). apply id_is_row_id, id_is_CInt, Hid.
Qed.

(** Flushing an object of the model keeps the table well formed. *)
Lemma flush_well_formed uid o' rows :
  well_formed M rows -> Models.instance_of M o' -> o' !! "id" = Some (CInt uid) ->
  well_formed M (flush (CInt uid) o' rows).
Proof.
  intros (Hinst & Hids & Hnd) Ho' Hid. repeat split.
  - unfold flush. apply Forall_fmap. eapply Forall_impl; [exact Hinst|].
    intros r Hr. simpl. destruct (id_is (CInt uid) r); assumption.
  - unfold flush. apply Forall_fmap. eapply Forall_impl; [exact Hids|].
    intros r Hr. simpl. destruct (id_is (CInt uid) r); [eexists; exact Hid | assumption].
  - rewrite flush_row_ids by assumption. exact Hnd.
Qed.

(** After the row [u] is replaced by [u'], which answers the query as
    [u] did, [get_list] returns what it returned, with [u'] for [u]. *)
Lemma get_list_flush db db' uid u u' skip limit user_id query_dict :
  NoDup (row_id <$> table M db) ->
  u ∈ table M db -> u !! "id" = Some (CInt uid) -> u' !! "id" = Some (CInt uid) ->
  selected M user_id query_dict u' = selected M user_id query_dict u ->
  table M db' = flush (CInt uid) u' (table M db) ->
  items (get_list M db' skip limit user_id query_dict) =
  (fun r => if id_is (CInt uid) r then u' else r) <$>
    items (get_list M db skip limit user_id query_dict).
Proof.
  intros Hnd Hu Hid Hid' Hsel Htable.
  rewrite !items_get_list, Htable. unfold flush.
  rewrite fmap_take, fmap_drop. f_equal. f_equal.
  rewrite filter_fmap_same.
  - apply order_by_id_desc_fmap. intros x.
    destruct (id_is (CInt uid) x) eqn:E; [|reflexivity].
    rewrite (id_is_row_id uid x E). apply id_is_row_id, id_is_CInt, Hid'.
  - apply Forall_forall. intros r Hr.
    destruct (id_is (CInt uid) r) eqn:E; [|reflexivity].
    assert (r = u) as ->; [|exact Hsel].
    apply (same_id_same_row (table M db)); try assumption.
    rewrite (id_is_row_id uid r E). symmetry. apply id_is_row_id, id_is_CInt, Hid.
Qed.

End ServiceFacts.

(* ===================================================================== *)
(** ** Monthly payments and pending upgrades *)
(* ===================================================================== *)

(** Membership of a column name in the columns of a model. *)
Ltac in_columns := simpl; repeat (first [apply list_elem_of_here | apply list_elem_of_further]).

Section MembershipFacts.
Import Service MembershipService DateTime Spec.

Lemma fails_at_attempted k db : fails_at k (attempted db) = fails_at (S k) db.
Proof. unfold fails_at, attempted. simpl. destruct (commit_faults db); [destruct k|]; reflexivity. Qed.

Lemma instance_has (M : Model) o name :
  Models.instance_of M o -> name ∈ columns M -> is_Some (o !! name).
Proof. intros H Hin. apply H, Hin. Qed.

(** What [process_monthly_payment] does for a member with a profile and a
    pending upgrade, by the outcomes of its two commits. *)
Lemma process_monthly_payment_pending now user_id db u v :
  well_formed Models.Class_upgrades (class_upgrades db) ->
  profile_of db user_id <> None ->
  pending_upgrade db user_id = Some u ->
  u !! "payments_in_new_class" = Some v ->
  exists uid to_class,
    u !! "id" = Some (CInt uid) /\ u !! "to_class" = Some to_class /\
    process_monthly_payment now user_id db =
    match as_int (or_else v (CInt 0)) with
    | Raise e => (Raise e, db)
    | Ok c =>
        let u1 := counted u (c + 1) in
        if fails_at 0 db then (Raise DBAPIError, attempted db)
        else
          let db1 := with_table Models.Class_upgrades
                       (flush (CInt uid) u1 (class_upgrades db)) (attempted db) in
          if 3 <=? c + 1 then
            if fails_at 1 db then (Raise DBAPIError, attempted db1)
            else (Ok (upgrade_activated to_class),
                  with_table Models.Class_upgrades
                    (flush (CInt uid) (activated u1 now) (class_upgrades db)) (attempted db1))
          else (Ok normal_success, db1)
    end.
Proof.
  intros (Hinst & Hids & Hnd) Hprof Hpend Hv.
  unfold pending_upgrade in Hpend. unfold profile_of in Hprof.
  destruct (items (Class_upgradesService.get_list db 0 20 user_id pending_query))
    as [|u0 rest] eqn:Eitems; [discriminate|]. simpl in Hpend. injection Hpend as ->.
  assert (Hu : u ∈ items (Class_upgradesService.get_list db 0 20 user_id pending_query))
    by (rewrite Eitems; left).
  apply get_list_elem in Hu as [Hu Hsel]. simpl in Hu.
  rewrite Forall_forall in Hinst, Hids.
  destruct (Hids u Hu) as [uid Hid].
  pose proof (Hinst u Hu) as Hui.
  destruct (instance_has _ u "to_class" Hui ltac:(in_columns)) as [to_class Hto].
  exists uid, to_class. split; [exact Hid|]. split; [exact Hto|].
  unfold process_monthly_payment.
  destruct (items (ProfilesService.get_list db 0 1 user_id [])) as [|profile ?]; [contradiction|].
  rewrite Eitems.
  unfold mbind, io_mbind, io_bind, lift, getattr.
  rewrite Hv. cbn [fst snd].
  destruct (as_int (or_else v (CInt 0))) as [c|e]; [|reflexivity].
  rewrite Hid.
  assert (Hown : owned_by user_id u = true).
  { unfold selected in Hsel. apply andb_true_iff in Hsel. tauto. }
  assert (Hpay : is_Some (u !! "payments_in_new_class")) by (eexists; exact Hv).
  assert (Hst : is_Some (u !! "status")) by (apply (instance_has _ u _ Hui); in_columns).
  assert (Hact : is_Some (u !! "activated_at")) by (apply (instance_has _ u _ Hui); in_columns).
  unfold Class_upgradesService.update.
  rewrite (update_found Models.Class_upgrades db (CInt uid) _ user_id u)
    by (apply get_by_id_found; assumption).
  rewrite assign_one by (assumption || discriminate).
  fold (counted u (c + 1)). set (u1 := counted u (c + 1)).
  destruct (fails_at 0 db) eqn:E0; [reflexivity|].
  cbn [table with_table Models.Class_upgrades].
  set (db1 := with_table Models.Class_upgrades (flush (CInt uid) u1 (class_upgrades db)) (attempted db)).
  destruct (3 <=? c + 1) eqn:E3; [|reflexivity].
  assert (Hid1 : u1 !! "id" = Some (CInt uid)).
  { unfold u1, counted. rewrite lookup_insert_ne by discriminate. exact Hid. }
  rewrite (update_found Models.Class_upgrades db1 (CInt uid) _ user_id u1).
  2:{ apply get_by_id_found.
      - simpl. rewrite flush_row_ids by exact Hid1. exact Hnd.
      - simpl. unfold flush. eapply list_elem_of_fmap_2'; [exact Hu|].
        rewrite (proj2 (id_is_CInt uid u) Hid). reflexivity.
      - exact Hid1.
      - unfold owned_by in *. unfold u1, counted.
        rewrite lookup_insert_ne by discriminate. exact Hown. }
  rewrite assign_two; try discriminate.
  2,3: unfold u1, counted; rewrite lookup_insert_ne by discriminate; assumption.
  fold (activated u1 now).
  replace (fails_at 0 db1) with (fails_at 1 db)
    by (unfold db1; symmetry; apply fails_at_attempted).
  destruct (fails_at 1 db) eqn:E1; [reflexivity|].
  rewrite Hto. unfold mret, io_mret, io_ret. simpl table.
  rewrite flush_flush by exact Hid1. reflexivity.
Qed.


Lemma instance_insert (M : Model) o name value :
  Models.instance_of M o -> is_Some (o !! name) ->
  Models.instance_of M (<[name := value]> o).
Proof.
  intros Hinst Hname key. destruct (decide (name = key)) as [<-|Hne].
  - rewrite lookup_insert_eq. split; [intros _; apply Hinst, Hname | intros _; eexists; reflexivity].
  - rewrite lookup_insert_ne by assumption. apply Hinst.
Qed.

Lemma get_list_same_table (M : Model) db db' skip limit user_id query_dict :
  table M db' = table M db ->
  get_list M db' skip limit user_id query_dict = get_list M db skip limit user_id query_dict.
Proof. intros H. unfold get_list. rewrite H. reflexivity. Qed.

Lemma selected_pending user_id (u : obj) :
  selected Models.Class_upgrades user_id pending_query u = true ->
  owned_by user_id u = true /\ u !! "status" = Some (CStr "pending").
Proof.
  unfold selected, pending_query. intros H. apply andb_true_iff in H as [Hown Hq].
  split; [exact Hown|]. simpl in Hq. rewrite ?andb_true_r in Hq.
  destruct (u !! "status") as [[| | |s]|]; simpl in Hq; try discriminate.
  apply String.eqb_eq in Hq. subst. reflexivity.
Qed.

Lemma selected_counted user_id (u : obj) k :
  selected Models.Class_upgrades user_id pending_query (counted u k) =
  selected Models.Class_upgrades user_id pending_query u.
Proof.
  unfold selected, owned_by, pending_query, counted. simpl.
  rewrite !lookup_insert_ne by discriminate. reflexivity.
Qed.

Lemma counted_counted (u : obj) j k : counted (counted u j) k = counted u k.
Proof. unfold counted. apply insert_insert_eq. Qed.

Lemma as_int_count c : as_int (or_else (CInt c) (CInt 0)) = Ok c.
Proof.
  unfold or_else. simpl. destruct (c =? 0) eqn:E; simpl; [apply Z.eqb_eq in E; subst|]; reflexivity.
Qed.

(** A payment below the third: normal success, one more payment counted on
    the pending upgrade, which stays pending. *)
Lemma payment_counted now user_id db u c :
  well_formed Models.Class_upgrades (class_upgrades db) -> commits_succeed db ->
  profile_of db user_id <> None ->
  pending_upgrade db user_id = Some u ->
  u !! "payments_in_new_class" = Some (CInt c) -> c + 1 < 3 ->
  exists uid db1,
    u !! "id" = Some (CInt uid) /\
    process_monthly_payment now user_id db = (Ok normal_success, db1) /\
    class_upgrades db1 = flush (CInt uid) (counted u (c + 1)) (class_upgrades db) /\
    well_formed Models.Class_upgrades (class_upgrades db1) /\ commits_succeed db1 /\
    profile_of db1 user_id <> None /\
    pending_upgrade db1 user_id = Some (counted u (c + 1)).
Proof.
  intros Hwf Hok Hprof Hpend Hpay Hc.
  destruct (process_monthly_payment_pending now user_id db u (CInt c) Hwf Hprof Hpend Hpay)
    as (uid & to_class & Hid & Hto & Hrun).
  rewrite as_int_count in Hrun.
  exists uid. eexists. split; [exact Hid|].
  rewrite Hrun. cbn zeta. rewrite (Hok 0%nat).
  destruct (3 <=? c + 1) eqn:E3; [apply Z.leb_le in E3; lia|].
  split; [reflexivity|]. simpl class_upgrades. split; [reflexivity|].
  assert (Hu : u ∈ class_upgrades db).
  { unfold pending_upgrade in Hpend. apply head_Some_elem_of in Hpend.
    apply get_list_elem in Hpend. tauto. }
  assert (Hid1 : counted u (c + 1) !! "id" = Some (CInt uid)).
  { unfold counted. rewrite lookup_insert_ne by discriminate. exact Hid. }
  split.
  { apply flush_well_formed; try assumption.
    apply instance_insert; [|eexists; exact Hpay].
    destruct Hwf as (Hinst & _). rewrite Forall_forall in Hinst. apply Hinst, Hu. }
  split.
  { intros k. change (fails_at k (attempted db) = false).
    rewrite fails_at_attempted. apply Hok. }
  split.
  { exact Hprof. }
  unfold pending_upgrade, Class_upgradesService.get_list.
  erewrite (get_list_flush Models.Class_upgrades db _ uid u (counted u (c + 1)));
    try eassumption; try reflexivity.
  - unfold pending_upgrade, Class_upgradesService.get_list in Hpend.
    destruct (items (get_list Models.Class_upgrades db 0 20 user_id pending_query)) as [|x rest];
      [discriminate|].
    simpl in Hpend. injection Hpend as ->. simpl.
    rewrite (proj2 (id_is_CInt uid u) Hid). reflexivity.
  - destruct Hwf as (_ & _ & Hnd). exact Hnd.
  - apply selected_counted.
Qed.

(** The payment that brings the count to three: the upgrade is activated
    and stamped. *)
Lemma payment_activates now user_id db u c :
  well_formed Models.Class_upgrades (class_upgrades db) -> commits_succeed db ->
  profile_of db user_id <> None ->
  pending_upgrade db user_id = Some u ->
  u !! "payments_in_new_class" = Some (CInt c) -> 3 <= c + 1 ->
  exists uid to_class db',
    u !! "id" = Some (CInt uid) /\ u !! "to_class" = Some to_class /\
    process_monthly_payment now user_id db = (Ok (upgrade_activated to_class), db') /\
    class_upgrades db' =
      flush (CInt uid) (activated (counted u (c + 1)) now) (class_upgrades db) /\
    activated (counted u (c + 1)) now ∈ class_upgrades db'.
Proof.
  intros Hwf Hok Hprof Hpend Hpay Hc.
  destruct (process_monthly_payment_pending now user_id db u (CInt c) Hwf Hprof Hpend Hpay)
    as (uid & to_class & Hid & Hto & Hrun).
  rewrite as_int_count in Hrun.
  exists uid, to_class. eexists. split; [exact Hid|]. split; [exact Hto|].
  rewrite Hrun. cbn zeta. rewrite (Hok 0%nat), (Hok 1%nat).
  rewrite (proj2 (Z.leb_le 3 (c + 1)) Hc).
  split; [reflexivity|]. simpl class_upgrades. split; [reflexivity|].
  assert (Hu : u ∈ class_upgrades db).
  { unfold pending_upgrade in Hpend. apply head_Some_elem_of in Hpend.
    apply get_list_elem in Hpend. tauto. }
  unfold flush. eapply list_elem_of_fmap_2'; [exact Hu|].
  rewrite (proj2 (id_is_CInt uid u) Hid). reflexivity.
Qed.

End MembershipFacts.

Section SampleFacts.
Import Service Spec Samples.

(** An object with exactly the columns of a model is an instance of it. *)
Lemma instance_of_dom (M : Model) (o : obj) :
  dom o = list_to_set (columns M) -> Models.instance_of M o.
Proof.
  intros Hdom name. rewrite <- elem_of_dom, Hdom, elem_of_list_to_set. reflexivity.
Qed.

Lemma sample_profiles_well_formed : well_formed Models.Profiles [sample_profile].
Proof.
  split; [|split].
  - apply Forall_cons_2; [|apply Forall_nil_2]. apply instance_of_dom. reflexivity.
  - apply Forall_cons_2; [|apply Forall_nil_2]. eexists; reflexivity.
  - apply NoDup_singleton.
Qed.

Lemma sample_upgrades_well_formed : well_formed Models.Class_upgrades [sample_upgrade].
Proof.
  split; [|split].
  - apply Forall_cons_2; [|apply Forall_nil_2]. apply instance_of_dom. reflexivity.
  - apply Forall_cons_2; [|apply Forall_nil_2]. eexists; reflexivity.
  - apply NoDup_singleton.
Qed.

Lemma sample_commits_succeed profiles class_upgrades :
  commits_succeed {| profiles := profiles; class_upgrades := class_upgrades;
                     commit_faults := [] |}.
Proof. intros [|k]; reflexivity. Qed.

End SampleFacts.

Section MonthlyPaymentClaims.
Import Service MembershipService DateTime Spec Samples.



End MonthlyPaymentClaims.

Section MonthlyPaymentFrame.
Import Service MembershipService DateTime Spec Samples.

Lemma update_upgrade_keeps_profiles obj_id update_data user_id db :
  profiles (snd (Class_upgradesService.update obj_id update_data user_id db)) = profiles db.
Proof.
  unfold Class_upgradesService.update, update.
  destruct (get_by_id Models.Class_upgrades db obj_id user_id) as [[o|]|e]; try reflexivity.
  unfold mbind, io_mbind, io_bind, commit. destruct (fails_at 0 db); reflexivity.
Qed.

(** [process_monthly_payment] writes to the upgrades table only. *)
Lemma process_monthly_payment_keeps_profiles now user_id db :
  profiles (snd (process_monthly_payment now user_id db)) = profiles db.
Proof.
  unfold process_monthly_payment.
  destruct (items (ProfilesService.get_list db 0 1 user_id [])) as [|profile ?]; [reflexivity|].
  destruct (items (Class_upgradesService.get_list db 0 20 user_id pending_query))
    as [|upgrade ?]; [reflexivity|].
  unfold mbind, io_mbind, io_bind, lift, mret, io_mret, io_ret.
  destruct (getattr upgrade "payments_in_new_class") as [payments|]; [|reflexivity].
  destruct (as_int (or_else payments (CInt 0))) as [count|]; [|reflexivity].
  destruct (getattr upgrade "id") as [upgrade_id|]; [|reflexivity].
  pose proof (update_upgrade_keeps_profiles upgrade_id
                [("payments_in_new_class", CInt (count + 1))] user_id db) as H1.
  destruct (Class_upgradesService.update upgrade_id
              [("payments_in_new_class", CInt (count + 1))] user_id db) as [[r1|e1] db1];
    simpl in H1; [|exact H1].
  destruct (3 <=? count + 1); [|exact H1].
  pose proof (update_upgrade_keeps_profiles upgrade_id
                [("status", CStr "active");
                 ("activated_at", CStr (strftime_ymd_hms now))] user_id db1) as H2.
  destruct (Class_upgradesService.update upgrade_id
              [("status", CStr "active");
               ("activated_at", CStr (strftime_ymd_hms now))] user_id db1) as [[r2|e2] db2];
    simpl in H2; [|simpl; congruence].
  destruct (getattr upgrade "to_class"); simpl; congruence.
Qed.

Lemma differs_counted (u : obj) k : differs_in_payment_fields u (counted u k).
Proof. intros name H1 H2 H3. unfold counted. rewrite lookup_insert_ne by congruence. reflexivity. Qed.

Lemma differs_activated (u : obj) k now :
  differs_in_payment_fields u (activated (counted u k) now).
Proof.
  intros name H1 H2 H3. unfold activated, counted.
  rewrite !lookup_insert_ne by congruence. reflexivity.
Qed.

(** Flushing the changed pending upgrade leaves every other row as it was. *)
Lemma flush_frame user_id db uid (u u' : obj) :
  NoDup (row_id <$> class_upgrades db) -> u ∈ class_upgrades db ->
  u !! "id" = Some (CInt uid) -> pending_upgrade db user_id = Some u ->
  differs_in_payment_fields u u' ->
  Forall2 (fun row row' =>
             row' = row \/
             (pending_upgrade db user_id = Some row /\ differs_in_payment_fields row row'))
          (class_upgrades db) (flush (CInt uid) u' (class_upgrades db)).
Proof.
  intros Hnd Hu Hid Hpend Hdiff. unfold flush.
  apply Forall2_fmap_r, Forall_Forall2_diag, Forall_forall. intros row Hrow.
  destruct (id_is (CInt uid) row) eqn:E; simpl; rewrite E; [|left; reflexivity].
  right. assert (row = u) as ->; [|split; assumption].
  apply (same_id_same_row (class_upgrades db)); try assumption.
  rewrite (id_is_row_id uid row E). symmetry. apply id_is_row_id, id_is_CInt, Hid.
Qed.

Lemma unchanged_frame (P : obj -> obj -> Prop) (rows : list obj) :
  Forall2 (fun row row' => row' = row \/ P row row') rows rows.
Proof. apply Forall_Forall2_diag, Forall_forall. intros; left; reflexivity. Qed.

(** C10.  [process_monthly_payment] never modifies the member's profile
    record, nor any other profile, whatever it returns and whether or not
    its commits succeed, including on the call that activates an upgrade.
    In the upgrades table no row is added or removed, and the only row
    that can change is the member's pending upgrade, in its
    [payments_in_new_class], [status] and [activated_at] only. *)
Theorem C10_monthly_payment_frame (now : datetime) (user_id : string) (db : Session) :
  profiles (snd (process_monthly_payment now user_id db)) = profiles db /\
  (well_formed Models.Class_upgrades (class_upgrades db) ->
   Forall2 (fun row row' =>
              row' = row \/
              (pending_upgrade db user_id = Some row /\ differs_in_payment_fields row row'))
           (class_upgrades db)
           (class_upgrades (snd (process_monthly_payment now user_id db)))).
Proof.
  split; [apply process_monthly_payment_keeps_profiles|].
  intros Hwf.
  destruct (profile_of db user_id) as [profile|] eqn:Eprof.
  2:{ unfold profile_of in Eprof. unfold process_monthly_payment.
      destruct (items (ProfilesService.get_list db 0 1 user_id [])); [|discriminate].
      apply unchanged_frame. }
  assert (Hcases : (exists u, pending_upgrade db user_id = Some u) \/
                   pending_upgrade db user_id = None).
  { destruct (pending_upgrade db user_id); [left; eexists; reflexivity | right; reflexivity]. }
  destruct Hcases as [[u Epend] | Epend].
  2:{ unfold pending_upgrade in Epend. unfold process_monthly_payment.
      destruct (items (ProfilesService.get_list db 0 1 user_id [])); [apply unchanged_frame|].
      destruct (items (Class_upgradesService.get_list db 0 20 user_id pending_query));
        [|discriminate].
      apply unchanged_frame. }
  assert (Hu : u ∈ class_upgrades db).
  { unfold pending_upgrade in Epend. apply head_Some_elem_of in Epend.
    apply get_list_elem in Epend. tauto. }
  pose proof Hwf as (Hinst & _ & Hnd).
  rewrite Forall_forall in Hinst.
  destruct (instance_has _ u "payments_in_new_class" (Hinst u Hu) ltac:(in_columns)) as [v Hv].
  destruct (process_monthly_payment_pending now user_id db u v Hwf) as (uid & to_class & Hid & _ & Hrun);
    [rewrite Eprof; discriminate | assumption | assumption |].
  rewrite Hrun.
  destruct (as_int (or_else v (CInt 0))) as [c|e]; [|apply unchanged_frame].
  cbn zeta.
  destruct (fails_at 0 db); [apply unchanged_frame|].
  destruct (3 <=? c + 1).
  - destruct (fails_at 1 db); simpl.
    + apply (flush_frame user_id db uid u); try assumption. apply differs_counted.
    + apply (flush_frame user_id db uid u); try assumption. apply differs_activated.
  - simpl. apply (flush_frame user_id db uid u); try assumption. apply differs_counted.
Qed.

Lemma C10_monthly_payment_frame_witness :
  profiles (snd (process_monthly_payment sample_now "u1" sample_db_pending)) =
    profiles sample_db_pending /\
  Forall2 (fun row row' =>
             row' = row \/
             (pending_upgrade sample_db_pending "u1" = Some row /\
              differs_in_payment_fields row row'))
          (class_upgrades sample_db_pending)
          (class_upgrades (snd (process_monthly_payment sample_now "u1" sample_db_pending))).
Proof.
  split.
  - apply (proj1 (C10_monthly_payment_frame sample_now "u1" sample_db_pending)).
  - apply (proj2 (C10_monthly_payment_frame sample_now "u1" sample_db_pending)).
    apply sample_upgrades_well_formed.
Defined.

End MonthlyPaymentFrame.

(* ===================================================================== *)
(** ** Requesting an upgrade *)
(* ===================================================================== *)

Section UpgradeRequestFacts.
Import Service MembershipService DateTime Spec.

Lemma next_id_above (rows : list obj) r : r ∈ rows -> row_id r < next_id rows.
Proof.
  unfold next_id. induction rows as [|x rows IH]; intros Hr; [inversion Hr|].
  rewrite fmap_cons. simpl. apply elem_of_cons in Hr as [->|Hr]; [lia|].
  specialize (IH Hr). lia.
Qed.

Lemma next_id_fresh (rows : list obj) (o : obj) :
  row_id o = next_id rows -> existsb (fun r => row_id r =? row_id o) rows = false.
Proof.
  intros Ho. destruct (existsb _ rows) eqn:E; [|reflexivity].
  apply existsb_exists in E as (r & Hr & Heq).
  apply Z.eqb_eq in Heq. apply list_elem_of_In in Hr. apply next_id_above in Hr. lia.
Qed.

(** [create] for the data of an upgrade request: the record gets the next
    key and is appended, unless the commit fails. *)
Lemma create_requested_upgrade user_id profile_id from_class to_class requested_at db :
  Class_upgradesService.create
    [("user_id", CStr user_id); ("profile_id", profile_id); ("from_class", from_class);
     ("to_class", CStr to_class); ("status", CStr "pending");
     ("payments_in_new_class", CInt 0); ("requested_at", CStr requested_at)]
    user_id db =
  let new := requested_upgrade (next_id (class_upgrades db)) user_id profile_id from_class
               to_class requested_at in
  if fails_at 0 db then (Raise DBAPIError, attempted db)
  else (Ok new, with_table Models.Class_upgrades (class_upgrades db ++ [new]) (attempted db)).
Proof.
  unfold Class_upgradesService.create, create.
  set (data := [("user_id", CStr user_id); ("profile_id", profile_id);
                ("from_class", from_class); ("to_class", CStr to_class);
                ("status", CStr "pending"); ("payments_in_new_class", CInt 0);
                ("requested_at", CStr requested_at)]).
  assert (Hdata : (if negb (String.eqb user_id "")
                   then dict_set data "user_id" (CStr user_id) else data) = data)
    by (destruct (negb (String.eqb user_id "")); reflexivity).
  rewrite Hdata.
  assert (Hcons : construct Models.Class_upgrades data (blank Models.Class_upgrades) =
                  Ok (<["id" := Null]> (requested_upgrade 0 user_id profile_id from_class
                                          to_class requested_at))) by reflexivity.
  rewrite Hcons. rewrite lookup_insert_eq. simpl colval_eqb. cbn iota.
  unfold setattr. rewrite insert_insert_eq.
  assert (Hnew : <["id" := CInt (next_id (class_upgrades db))]>
                   (requested_upgrade 0 user_id profile_id from_class to_class requested_at) =
                 requested_upgrade (next_id (class_upgrades db)) user_id profile_id from_class
                   to_class requested_at) by reflexivity.
  simpl table. rewrite Hnew.
  rewrite next_id_fresh by reflexivity.
  unfold mbind, io_mbind, io_bind, commit, mret, io_mret, io_ret.
  destruct (fails_at 0 db); reflexivity.
Qed.

(** A valid request, by the outcomes of its two commits: the record is
    created and committed first, the profile's class is changed and
    committed second. *)
Lemma request_class_upgrade_valid requested updated user_id to_class db profile from_class :
  well_formed Models.Profiles (profiles db) ->
  profile_of db user_id = Some profile ->
  profile !! "membership_class" = Some from_class ->
  class_order from_class < class_order (CStr to_class) ->
  pending_upgrade db user_id = None ->
  exists pid,
    profile !! "id" = Some (CInt pid) /\
    request_class_upgrade requested updated user_id to_class db =
    let upgrade_id := next_id (class_upgrades db) in
    let new := requested_upgrade upgrade_id user_id (CInt pid) from_class to_class
                 (strftime_ymd_hms requested) in
    if fails_at 0 db then (Raise DBAPIError, attempted db)
    else
      let db1 := with_table Models.Class_upgrades (class_upgrades db ++ [new]) (attempted db) in
      if fails_at 1 db then (Raise DBAPIError, attempted db1)
      else (Ok (upgrade_requested from_class to_class upgrade_id),
            with_table Models.Profiles
              (flush (CInt pid) (reclassified profile to_class updated) (profiles db))
              (attempted db1)).
Proof.
  intros (Hinst & Hids & Hnd) Hprof Hclass Horder Hpend.
  unfold profile_of in Hprof. unfold pending_upgrade in Hpend.
  assert (Hp : profile ∈ items (ProfilesService.get_list db 0 1 user_id []))
    by (apply head_Some_elem_of, Hprof).
  apply get_list_elem in Hp as [Hp Hsel]. simpl in Hp.
  rewrite Forall_forall in Hinst, Hids.
  destruct (Hids profile Hp) as [pid Hid].
  exists pid. split; [exact Hid|].
  unfold request_class_upgrade.
  destruct (items (ProfilesService.get_list db 0 1 user_id [])) as [|p0 ?]; [discriminate|].
  simpl in Hprof. injection Hprof as ->.
  unfold mbind, io_mbind, io_bind, lift, getattr.
  rewrite Hclass.
  destruct (class_order (CStr to_class) <=? class_order from_class) eqn:E;
    [apply Z.leb_le in E; lia|].
  apply head_None in Hpend. rewrite Hpend. rewrite Hid.
  rewrite create_requested_upgrade. cbn zeta.
  destruct (fails_at 0 db) eqn:E0; [reflexivity|].
  set (new := requested_upgrade _ _ _ _ _ _).
  set (db1 := with_table Models.Class_upgrades (class_upgrades db ++ [new]) (attempted db)).
  assert (Hown : owned_by user_id profile = true).
  { unfold selected in Hsel. apply andb_true_iff in Hsel. tauto. }
  unfold ProfilesService.update.
  rewrite (update_found Models.Profiles db1 (CInt pid) _ user_id profile)
    by (apply get_by_id_found; assumption).
  rewrite assign_two; try discriminate.
  2,3: apply (instance_has _ profile _ (Hinst profile Hp)); in_columns.
  fold (reclassified profile to_class updated).
  replace (fails_at 0 db1) with (fails_at 1 db)
    by (unfold db1; symmetry; apply fails_at_attempted).
  destruct (fails_at 1 db) eqn:E1; [reflexivity|].
  reflexivity.
Qed.

Lemma update_profile_keeps_upgrades obj_id update_data user_id db :
  class_upgrades (snd (ProfilesService.update obj_id update_data user_id db)) =
  class_upgrades db.
Proof.
  unfold ProfilesService.update, update.
  destruct (get_by_id Models.Profiles db obj_id user_id) as [[o|]|e]; try reflexivity.
  unfold mbind, io_mbind, io_bind, commit. destruct (fails_at 0 db); reflexivity.
Qed.

(** Once a pending record of the member is appended, the member has a
    pending upgrade. *)
Lemma pending_after_append db user_id (new : obj) rows :
  new !! "user_id" = Some (CStr user_id) -> new !! "status" = Some (CStr "pending") ->
  class_upgrades db = rows ++ [new] ->
  pending_upgrade db user_id <> None.
Proof.
  intros Huser Hstatus Hrows. unfold pending_upgrade, Class_upgradesService.get_list.
  rewrite items_get_list. simpl table. rewrite Hrows, filter_app.
  rewrite (filter_cons_True _ new []).
  2:{ unfold selected, owned_by, pending_query. simpl.
      rewrite Huser, Hstatus. simpl. rewrite String.eqb_refl, orb_true_r. reflexivity. }
  rewrite filter_nil.
  set (found := filter _ rows ++ [new]).
  assert (Hlen : length (order_by_id_desc found) = length found)
    by (rewrite order_by_id_desc_perm; reflexivity).
  unfold found in Hlen at 2. rewrite length_app in Hlen. simpl in Hlen.
  destruct (order_by_id_desc found); simpl in *; [lia | discriminate].
Qed.

End UpgradeRequestFacts.

Section UpgradeRequestClaims.
Import Service MembershipService DateTime Spec Samples.

(** C7.  For a member with a profile, [request_class_upgrade] raises the
    downgrade error whenever [to_class] does not rank strictly higher than
    the member's class in the order A < B < C < D (a class outside the
    order ranks below A): every same-class request and every downgrade
    fails; the session is left as it was, so no upgrade record is created
    and the profile's class is unchanged. *)
Theorem C7_no_downgrade (requested updated : datetime) (user_id to_class : string)
    (db : Session) (profile : obj) (from_class : colval) :
  profile_of db user_id = Some profile ->
  profile !! "membership_class" = Some from_class ->
  class_order (CStr to_class) <= class_order from_class ->
  request_class_upgrade requested updated user_id to_class db = (Raise InvalidUpgrade, db) /\
  class_order (CStr "A") = 1 /\ class_order (CStr "B") = 2 /\
  class_order (CStr "C") = 3 /\ class_order (CStr "D") = 4.
Proof.
  intros Hprof Hclass Horder. split; [|repeat split].
  unfold profile_of in Hprof. unfold request_class_upgrade.
  destruct (items (ProfilesService.get_list db 0 1 user_id [])) as [|p0 ?]; [discriminate|].
  simpl in Hprof. injection Hprof as ->.
  unfold mbind, io_mbind, io_bind, lift, getattr. rewrite Hclass.
  rewrite (proj2 (Z.leb_le _ _) Horder). reflexivity.
Qed.

Lemma C7_no_downgrade_witness :
  request_class_upgrade sample_now sample_now "u1" "A" sample_db = (Raise InvalidUpgrade, sample_db) /\
  class_order (CStr "A") = 1 /\ class_order (CStr "B") = 2 /\
  class_order (CStr "C") = 3 /\ class_order (CStr "D") = 4.
Proof.
  apply (C7_no_downgrade sample_now sample_now "u1" "A" sample_db sample_profile (CStr "A")).
  - reflexivity.
  - reflexivity.
  - vm_compute. discriminate.
Defined.

(** C8, as stated, fails: a request is refused for its class before the
    pending upgrades are looked at.  After a first request for class B,
    the profile is of class B already, and the same request repeated is
    refused as a downgrade, not as a conflict, although the member has a
    pending upgrade. *)
Lemma C8_conflict_counterexample :
  let first := request_class_upgrade sample_now sample_now "u1" "B" sample_db in
  fst first = Ok (upgrade_requested (CStr "A") "B" 1) /\
  pending_upgrade (snd first) "u1" <> None /\
  request_class_upgrade sample_now sample_now "u1" "B" (snd first) =
    (Raise InvalidUpgrade, snd first) /\
  InvalidUpgrade <> Conflict.
Proof.
  split; [reflexivity|].
  split; [apply is_Some_true; reflexivity|].
  split; [reflexivity | discriminate].
Qed.

(** C8, amended.  A request that passes the checks made first (the member
    has a profile, and [to_class] ranks strictly higher than the profile's
    current class) raises the conflict error whenever the member has a
    pending upgrade, and leaves the session as it was.  Every request
    that succeeds leaves the member with a pending upgrade, so a second
    request that passes those checks fails with the conflict error until
    the first upgrade is activated. *)
Theorem C8_pending_upgrade_conflict (requested updated : datetime)
    (user_id to_class : string) (db : Session) :
  (forall profile from_class,
     profile_of db user_id = Some profile ->
     profile !! "membership_class" = Some from_class ->
     class_order from_class < class_order (CStr to_class) ->
     pending_upgrade db user_id <> None ->
     request_class_upgrade requested updated user_id to_class db = (Raise Conflict, db)) /\
  (forall result db1,
     request_class_upgrade requested updated user_id to_class db = (Ok result, db1) ->
     pending_upgrade db1 user_id <> None).
Proof.
  split.
  - intros profile from_class Hprof Hclass Horder Hpend.
    unfold profile_of in Hprof. unfold pending_upgrade in Hpend.
    unfold request_class_upgrade.
    destruct (items (ProfilesService.get_list db 0 1 user_id [])) as [|p0 ?]; [discriminate|].
    simpl in Hprof. injection Hprof as ->.
    unfold mbind, io_mbind, io_bind, lift, getattr. rewrite Hclass.
    destruct (class_order (CStr to_class) <=? class_order from_class) eqn:E;
      [apply Z.leb_le in E; lia|].
    destruct (items (Class_upgradesService.get_list db 0 20 user_id pending_query));
      [contradiction | reflexivity].
  - intros result db1. unfold request_class_upgrade.
    destruct (items (ProfilesService.get_list db 0 1 user_id [])) as [|profile ?];
      [discriminate|].
    unfold mbind, io_mbind, io_bind, lift.
    destruct (getattr profile "membership_class") as [from_class|]; [|discriminate].
    destruct (class_order (CStr to_class) <=? class_order from_class); [discriminate|].
    destruct (items (Class_upgradesService.get_list db 0 20 user_id pending_query));
      [|discriminate].
    destruct (getattr profile "id") as [profile_id|]; [|discriminate].
    rewrite create_requested_upgrade. cbn zeta.
    destruct (fails_at 0 db); [discriminate|].
    set (new := requested_upgrade _ _ _ _ _ _).
    set (db2 := with_table Models.Class_upgrades (class_upgrades db ++ [new]) (attempted db)).
    pose proof (update_profile_keeps_upgrades profile_id
                  [("membership_class", CStr to_class);
                   ("updated_at", CStr (strftime_ymd_hms updated))] user_id db2) as Hkeep.
    destruct (ProfilesService.update profile_id
                [("membership_class", CStr to_class);
                 ("updated_at", CStr (strftime_ymd_hms updated))] user_id db2)
      as [[updated_profile|e] db3]; [|discriminate].
    simpl in Hkeep.
    destruct (getattr new "id"); [|discriminate].
    unfold mret, io_mret, io_ret. intros Heq. injection Heq as _ <-.
    apply (pending_after_append db3 user_id new (class_upgrades db)); try reflexivity.
    exact Hkeep.
Qed.

Lemma C8_pending_upgrade_conflict_witness :
  request_class_upgrade sample_now sample_now "u1" "C" sample_db_pending =
    (Raise Conflict, sample_db_pending) /\
  pending_upgrade
    (snd (request_class_upgrade sample_now sample_now "u1" "B" sample_db)) "u1" <> None.
Proof.
  split.
  - apply (proj1 (C8_pending_upgrade_conflict sample_now sample_now "u1" "C" sample_db_pending)
             sample_profile (CStr "A")).
    + reflexivity.
    + reflexivity.
    + reflexivity.
    + apply is_Some_true. reflexivity.
  - apply (proj2 (C8_pending_upgrade_conflict sample_now sample_now "u1" "B" sample_db)
             (upgrade_requested (CStr "A") "B" 1)).
    reflexivity.
Defined.

End UpgradeRequestClaims.

Section UpgradeAtomicityClaims.
Import Service MembershipService DateTime Spec Samples.

(** C2, as stated, fails: the upgrade record and the change of class are
    committed one after the other.  When the first commit succeeds and the
    second fails, the request raises, the member is left with a pending
    upgrade record that was not there before, and the profile is still of
    class A. *)
Lemma C2_atomicity_counterexample :
  let run := request_class_upgrade sample_now sample_now "u1" "B"
               sample_db_second_commit_fails in
  pending_upgrade sample_db_second_commit_fails "u1" = None /\
  fst run = Raise DBAPIError /\
  pending_upgrade (snd run) "u1" <> None /\
  profile_of (snd run) "u1" = Some sample_profile /\
  sample_profile !! "membership_class" = Some (CStr "A").
Proof.
  split; [reflexivity|].
  split; [reflexivity|].
  split; [apply is_Some_true; reflexivity|].
  split; reflexivity.
Qed.

(** C2, amended.  A valid request (the member has a profile, [to_class]
    ranks strictly higher, no upgrade is pending) applies its two effects
    as two separately committed steps, the record first.  The record
    created is pending with [payments_in_new_class = 0].  If the commit of
    the record fails, the request raises and neither effect takes place.
    If both commits succeed, the record is stored and the profile's class
    is [to_class].  If the commit of the record succeeds and the commit of
    the profile fails, the request raises with the record stored and the
    profiles as they were. *)
Theorem C2_upgrade_request_effects (requested updated : datetime)
    (user_id to_class : string) (db : Session) (profile : obj) (from_class : colval) :
  well_formed Models.Profiles (profiles db) ->
  profile_of db user_id = Some profile ->
  profile !! "membership_class" = Some from_class ->
  class_order from_class < class_order (CStr to_class) ->
  pending_upgrade db user_id = None ->
  exists pid,
    profile !! "id" = Some (CInt pid) /\
    let run := request_class_upgrade requested updated user_id to_class db in
    let upgrade_id := next_id (class_upgrades db) in
    let new := requested_upgrade upgrade_id user_id (CInt pid) from_class to_class
                 (strftime_ymd_hms requested) in
    let profile' := reclassified profile to_class updated in
    new !! "status" = Some (CStr "pending") /\
    new !! "payments_in_new_class" = Some (CInt 0) /\
    new !! "to_class" = Some (CStr to_class) /\
    profile' !! "membership_class" = Some (CStr to_class) /\
    (fails_at 0 db = true ->
       fst run = Raise DBAPIError /\
       class_upgrades (snd run) = class_upgrades db /\
       profiles (snd run) = profiles db) /\
    (fails_at 0 db = false -> fails_at 1 db = true ->
       fst run = Raise DBAPIError /\
       class_upgrades (snd run) = class_upgrades db ++ [new] /\
       profiles (snd run) = profiles db) /\
    (fails_at 0 db = false -> fails_at 1 db = false ->
       fst run = Ok (upgrade_requested from_class to_class upgrade_id) /\
       class_upgrades (snd run) = class_upgrades db ++ [new] /\
       profiles (snd run) = flush (CInt pid) profile' (profiles db) /\
       profile' ∈ profiles (snd run)).
Proof.
  intros Hwf Hprof Hclass Horder Hpend.
  destruct (request_class_upgrade_valid requested updated user_id to_class db profile
              from_class Hwf Hprof Hclass Horder Hpend) as (pid & Hid & Hrun).
  exists pid. split; [exact Hid|]. cbn zeta. rewrite Hrun. cbn zeta.
  split; [reflexivity|]. split; [reflexivity|]. split; [reflexivity|].
  split; [unfold reclassified; rewrite lookup_insert_ne by discriminate; apply lookup_insert_eq|].
  split; [|split].
  - intros ->. repeat split.
  - intros -> ->. repeat split.
  - intros -> ->. repeat split.
    assert (Hp : profile ∈ profiles db).
    { unfold profile_of in Hprof. apply head_Some_elem_of in Hprof.
      apply get_list_elem in Hprof. tauto. }
    simpl. unfold flush. eapply list_elem_of_fmap_2'; [exact Hp|].
    rewrite (proj2 (id_is_CInt pid profile) Hid). reflexivity.
Qed.

Lemma C2_upgrade_request_effects_witness :
  exists pid,
    sample_profile !! "id" = Some (CInt pid) /\
    let run := request_class_upgrade sample_now sample_now "u1" "B" sample_db in
    let upgrade_id := next_id (class_upgrades sample_db) in
    let new := requested_upgrade upgrade_id "u1" (CInt pid) (CStr "A") "B"
                 (strftime_ymd_hms sample_now) in
    let profile' := reclassified sample_profile "B" sample_now in
    new !! "status" = Some (CStr "pending") /\
    new !! "payments_in_new_class" = Some (CInt 0) /\
    new !! "to_class" = Some (CStr "B") /\
    profile' !! "membership_class" = Some (CStr "B") /\
    (fails_at 0 sample_db = true ->
       fst run = Raise DBAPIError /\
       class_upgrades (snd run) = class_upgrades sample_db /\
       profiles (snd run) = profiles sample_db) /\
    (fails_at 0 sample_db = false -> fails_at 1 sample_db = true ->
       fst run = Raise DBAPIError /\
       class_upgrades (snd run) = class_upgrades sample_db ++ [new] /\
       profiles (snd run) = profiles sample_db) /\
    (fails_at 0 sample_db = false -> fails_at 1 sample_db = false ->
       fst run = Ok (upgrade_requested (CStr "A") "B" upgrade_id) /\
       class_upgrades (snd run) = class_upgrades sample_db ++ [new] /\
       profiles (snd run) = flush (CInt pid) profile' (profiles sample_db) /\
       profile' ∈ profiles (snd run)).
Proof.
  apply (C2_upgrade_request_effects sample_now sample_now "u1" "B" sample_db
           sample_profile (CStr "A")).
  - apply sample_profiles_well_formed.
  - reflexivity.
  - reflexivity.
  - reflexivity.
  - reflexivity.
Defined.

End UpgradeAtomicityClaims.

(* ===================================================================== *)
(** ** Eligibility *)
(* ===================================================================== *)

Section EligibilityFacts.
Import Service MembershipService DateTime Spec Samples.

(** [check_eligibility] on an object that carries the attributes it
    reads: refused, with a reason, as soon as one check fails; a member
    without a profile is refused too. *)
Lemma check_eligibility_fails_closed db user_id :
  (profile_of db user_id = None ->
   check_eligibility db user_id = Ok (ineligible "Perfil não encontrado")) /\
  (forall profile fee,
     profile_of db user_id = Some profile ->
     profile !! "join_fee_paid" = Some fee -> truthy fee = false ->
     check_eligibility db user_id = Ok (ineligible "Taxa de adesão não paga")) /\
  (forall profile paid,
     profile_of db user_id = Some profile ->
     profile !! "join_fee_paid" = Some (CBool true) ->
     profile !! "paid_months_count" = Some (CInt paid) -> paid < 6 ->
     exists reason, check_eligibility db user_id = Ok (ineligible reason)) /\
  (forall profile paid arrears,
     profile_of db user_id = Some profile ->
     profile !! "join_fee_paid" = Some (CBool true) ->
     profile !! "paid_months_count" = Some (CInt paid) -> 6 <= paid ->
     profile !! "months_in_arrears" = Some (CInt arrears) -> 2 < arrears ->
     exists reason, check_eligibility db user_id = Ok (ineligible reason)) /\
  (forall profile paid arrears status,
     profile_of db user_id = Some profile ->
     profile !! "join_fee_paid" = Some (CBool true) ->
     profile !! "paid_months_count" = Some (CInt paid) -> 6 <= paid ->
     profile !! "months_in_arrears" = Some (CInt arrears) -> arrears <= 2 ->
     profile !! "membership_status" = Some status -> status <> CStr "active" ->
     exists reason, check_eligibility db user_id = Ok (ineligible reason)).
Proof.
  unfold profile_of, check_eligibility.
  destruct (items (ProfilesService.get_list db 0 1 user_id [])) as [|p0 ?]; simpl.
  { split; [reflexivity|]. repeat split; intros; discriminate. }
  split; [discriminate|]. unfold getattr. split; [|split; [|split]].
  - intros profile fee [= ->] Hfee Hfalse. rewrite Hfee. simpl. rewrite Hfalse. reflexivity.
  - intros profile paid [= ->] Hfee Hpaid Hlt. rewrite Hfee, Hpaid. simpl.
    rewrite as_int_count. simpl. rewrite (proj2 (Z.ltb_lt _ _) Hlt). eexists; reflexivity.
  - intros profile paid arrears [= ->] Hfee Hpaid Hge Harr Hlt. rewrite Hfee, Hpaid. simpl.
    rewrite as_int_count. simpl. rewrite (proj2 (Z.ltb_ge _ _) Hge).
    rewrite Harr. simpl. rewrite as_int_count. simpl.
    rewrite (proj2 (Z.ltb_lt _ _) Hlt). eexists; reflexivity.
  - intros profile paid arrears status [= ->] Hfee Hpaid Hge Harr Hle Hstat Hne.
    rewrite Hfee, Hpaid. simpl.
    rewrite as_int_count. simpl. rewrite (proj2 (Z.ltb_ge _ _) Hge).
    rewrite Harr. simpl. rewrite as_int_count. simpl.
    rewrite (proj2 (Z.ltb_ge _ _) Hle). rewrite Hstat. simpl.
    assert (Hcmp : colval_eqb status (CStr "active") = false).
    { destruct status as [| | |st]; try reflexivity. simpl.
      destruct (String.eqb st "active") eqn:E; [|reflexivity].
      apply String.eqb_eq in E. congruence. }
    rewrite Hcmp. simpl. eexists; reflexivity.
Qed.

(** On a row of [profiles] as the model declares it, the first attribute
    [check_eligibility] reads is missing. *)
Lemma check_eligibility_profiles_row db user_id profile :
  profile_of db user_id = Some profile ->
  Models.instance_of Models.Profiles profile ->
  check_eligibility db user_id = Raise (AttributeError "join_fee_paid").
Proof.
  intros Hprof Hinst. unfold profile_of in Hprof. unfold check_eligibility.
  destruct (items (ProfilesService.get_list db 0 1 user_id [])) as [|p0 ?]; [discriminate|].
  simpl in Hprof. injection Hprof as ->.
  unfold getattr. destruct (profile !! "join_fee_paid") as [fee|] eqn:E; [|reflexivity].
  assert (Hin : "join_fee_paid" ∈ columns Models.Profiles) by (apply Hinst; eexists; exact E).
  exfalso. simpl in Hin.
  repeat (apply elem_of_cons in Hin as [Hin|Hin]; [discriminate Hin|]).
  inversion Hin.
Qed.

End EligibilityFacts.

Section EligibilityClaims.
Import Service MembershipService DateTime Spec Samples.

(** C3 fails on the code, by the defect of C4: [check_eligibility] reads
    [join_fee_paid] first, which [models/profiles.py] does not declare.
    For a member whose row has eight months paid, none late and the
    status ["active"], of class A, the call raises [AttributeError] and
    returns no result, where the claim has [eligible = True] with the
    limit and the monthly due of class A. *)
Lemma C3_eligible_profile_raises :
  Models.instance_of Models.Profiles sample_profile /\
  sample_profile !! "consecutive_months_paid" = Some (CInt 8) /\
  sample_profile !! "months_late" = Some (CInt 0) /\
  sample_profile !! "account_status" = Some (CStr "active") /\
  sample_profile !! "membership_class" = Some (CStr "A") /\
  get_class_limits (CStr "A") = {[ "monthly" := VFloat 25; "limit" := VFloat 2000 ]} /\
  check_eligibility sample_db "u1" = Raise (AttributeError "join_fee_paid") /\
  (forall result, check_eligibility sample_db "u1" <> Ok result).
Proof.
  split; [apply instance_of_dom; reflexivity|].
  do 5 (split; [reflexivity|]).
  assert (H : check_eligibility sample_db "u1" = Raise (AttributeError "join_fee_paid"))
    by reflexivity.
  split; [exact H|]. intros result Hres. rewrite H in Hres. discriminate Hres.
Qed.

(** C4 fails on the code: [check_eligibility] reads [join_fee_paid],
    [paid_months_count], [months_in_arrears] and [membership_status], and
    [models/profiles.py] declares none of them (it has [account_status],
    [consecutive_months_paid], [months_late]).  For a member whose row
    has three months paid the call raises [AttributeError] where the claim
    has a result with [eligible = False] and a reason. *)
Lemma C4_profiles_row_raises :
  let db := {| profiles := [sample_new_member]; class_upgrades := []; commit_faults := [] |} in
  Models.instance_of Models.Profiles sample_new_member /\
  sample_new_member !! "consecutive_months_paid" = Some (CInt 3) /\
  check_eligibility db "u1" = Raise (AttributeError "join_fee_paid").
Proof.
  cbn zeta. split; [apply instance_of_dom; reflexivity|].
  split; [reflexivity|]. reflexivity.
Qed.

End EligibilityClaims.

(* ===================================================================== *)
(** ** The generated service: pages, round trips and ownership *)
(* ===================================================================== *)

Section QueryFacts.
Import Service Spec.

Lemma colval_eqb_eq a b : colval_eqb a b = true <-> a = b.
Proof.
  destruct a as [|x|x|x], b as [|y|y|y]; simpl; split; intros H;
    try discriminate H; try reflexivity.
  - f_equal. apply Bool.eqb_prop, H.
  - injection H as ->. apply Bool.eqb_reflx.
  - f_equal. apply Z.eqb_eq, H.
  - injection H as ->. apply Z.eqb_refl.
  - f_equal. apply String.eqb_eq, H.
  - injection H as ->. apply String.eqb_refl.
Qed.

(** A row that answers [Model.field == value] holds the value. *)
Lemma field_is_lookup field value (r : obj) :
  value <> Null -> field_is field value r = true -> r !! field = Some value.
Proof.
  unfold field_is. intros Hne H. apply colval_eqb_eq in H.
  destruct (r !! field); simpl in H; congruence.
Qed.

Lemma owned_by_user user_id (r : obj) :
  user_id <> EmptyString -> owned_by user_id r = true -> r !! "user_id" = Some (CStr user_id).
Proof.
  unfold owned_by. intros Hne H.
  destruct (String.eqb user_id EmptyString) eqn:E; [apply String.eqb_eq in E; contradiction|].
  simpl in H. apply (field_is_lookup "user_id"); [discriminate | exact H].
Qed.

Lemma owned_by_iff user_id (r : obj) :
  owned_by user_id r = true <->
  (user_id <> EmptyString -> r !! "user_id" = Some (CStr user_id)).
Proof.
  split.
  - intros H Hne. apply owned_by_user; assumption.
  - intros H. unfold owned_by.
    destruct (String.eqb user_id EmptyString) eqn:E; [reflexivity|].
    apply String.eqb_neq in E. rewrite (H E). simpl. apply String.eqb_refl.
Qed.

Lemma is_column_elem (M : Model) field : is_column M field = true <-> field ∈ columns M.
Proof.
  unfold is_column. rewrite existsb_exists. split.
  - intros (x & Hx & Heq). apply String.eqb_eq in Heq. subst. apply list_elem_of_In, Hx.
  - intros H. exists field. split; [apply list_elem_of_In, H | apply String.eqb_refl].
Qed.

(** One condition of a query, by the kind of attribute it names. *)
Lemma matches_true (M : Model) field value (r : obj) :
  matches M (field, value) r = true <->
  (field ∈ columns M -> default Null (r !! field) = value) /\
  (forall a, field ∉ columns M -> class_attribute M field = Some a ->
             attribute_eq a value = true).
Proof.
  unfold matches, has_attribute, equals, field_is.
  destruct (is_column M field) eqn:E.
  - apply is_column_elem in E. cbn [orb]. rewrite colval_eqb_eq. split.
    + intros H. split; [intros _; exact H | intros a Hn; contradiction].
    + intros [H _]. apply H, E.
  - assert (Hn : field ∉ columns M).
    { intros H. apply is_column_elem in H. congruence. }
    cbn [orb]. destruct (class_attribute M field) as [a|].
    + rewrite bool_decide_true by (eexists; reflexivity). split.
      * intros H. split; [intros Hc; contradiction|]. intros a' _ [= <-]. exact H.
      * intros [_ H]. apply (H a); [exact Hn | reflexivity].
    + rewrite bool_decide_false by (intros [x Hx]; discriminate Hx). split; [|reflexivity].
      intros _. split; [intros Hc; contradiction | intros a _ Ha; discriminate Ha].
Qed.

Lemma selected_answers (M : Model) user_id query_dict (r : obj) :
  selected M user_id query_dict r = true <-> answers M user_id query_dict r.
Proof.
  unfold selected, answers. rewrite andb_true_iff, owned_by_iff, forallb_forall.
  split; intros [Hown Hq]; (split; [exact Hown|]).
  - intros field value Hin. apply matches_true, Hq, list_elem_of_In, Hin.
  - intros [field value] Hin. apply matches_true, Hq, list_elem_of_In, Hin.
Qed.

Lemma insert_desc_sorted r rows :
  StronglySorted id_desc rows -> StronglySorted id_desc (insert_desc r rows).
Proof.
  induction 1 as [|x rows Hs IH Hx]; simpl.
  - apply SSorted_cons; [apply SSorted_nil | apply Forall_nil_2].
  - destruct (row_id x <=? row_id r) eqn:E.
    + apply Z.leb_le in E. apply SSorted_cons; [apply SSorted_cons; assumption|].
      apply Forall_cons_2; [exact E|].
      eapply Forall_impl; [exact Hx|]. unfold id_desc. intros y Hy. lia.
    + apply Z.leb_gt in E. apply SSorted_cons; [exact IH|].
      rewrite insert_desc_perm. apply Forall_cons_2; [unfold id_desc; lia | exact Hx].
Qed.

Lemma order_by_id_desc_sorted rows : StronglySorted id_desc (order_by_id_desc rows).
Proof.
  induction rows as [|x rows IH]; [apply SSorted_nil|].
  change (order_by_id_desc (x :: rows)) with (insert_desc x (order_by_id_desc rows)).
  apply insert_desc_sorted, IH.
Qed.

Lemma take_take_drop {A} (l : list A) n m :
  take n l ++ take m (drop n l) = take (n + m) l.
Proof.
  revert l. induction n as [|n IH]; intros [|x l]; simpl; try reflexivity.
  - destruct m; reflexivity.
  - rewrite IH. reflexivity.
Qed.

Lemma StronglySorted_take {A} (R : A -> A -> Prop) (l : list A) n :
  StronglySorted R l -> StronglySorted R (take n l).
Proof.
  intros Hs. revert n. induction Hs as [|x l Hs IH Hx]; intros [|n]; simpl;
    try apply SSorted_nil.
  apply SSorted_cons; [apply IH|].
  apply Forall_forall. intros y Hy. rewrite Forall_forall in Hx.
  apply Hx. eapply subseteq_take, Hy.
Qed.

Lemma StronglySorted_drop {A} (R : A -> A -> Prop) (l : list A) n :
  StronglySorted R l -> StronglySorted R (drop n l).
Proof.
  intros Hs. revert n. induction Hs as [|x l Hs IH Hx]; intros [|n]; simpl;
    try apply SSorted_nil; [apply SSorted_cons; assumption | apply IH].
Qed.

End QueryFacts.

Section QueryProperties.
Import Service Spec Samples.
Variable M : Model.

(** X1.  What a page of [get_list] holds and what [total] counts, for
    any model class and a query whose fields are attributes listed for
    the class, columns or not, or are no identifiers.  The rows found
    are the rows of the table that answer the query, each once: the
    caller's rows when a [user_id] is given, that hold the asked value
    in every field of [query_dict] that is a column; a field that names
    another attribute of the class is a condition every row answers or
    none, and a field that is no identifier is no condition.
    [total] is the number of rows found, whatever [skip] and [limit]
    are; a page holds rows found, at most [limit] of them.  When the
    query asks an attribute that is no column for a value it does not
    equal, the page is empty and [total] is 0. *)
Theorem get_list_page (db : Session) (skip limit : nat) (user_id : string)
    (query_dict : list (string * colval)) :
  (forall field value, (field, value) ∈ query_dict ->
     has_attribute M field = true \/ identifier field = false) ->
  let page := get_list M db skip limit user_id query_dict in
  let found := filter (fun r => selected M user_id query_dict r = true) (table M db) in
  (forall r, r ∈ found <-> r ∈ table M db /\ answers M user_id query_dict r) /\
  found `sublist_of` table M db /\
  total page = Z.of_nat (length found) /\
  Z.of_nat (length (items page)) <= Z.of_nat limit /\
  (forall r, r ∈ items page -> r ∈ found) /\
  (forall field value a,
     (field, value) ∈ query_dict -> field ∉ columns M ->
     class_attribute M field = Some a -> attribute_eq a value = false ->
     items page = [] /\ total page = 0).
Proof.
  intros _. cbn zeta. rewrite items_get_list.
  set (found := filter (fun r => selected M user_id query_dict r = true) (table M db)).
  assert (Hfound : forall r, r ∈ found <-> r ∈ table M db /\ answers M user_id query_dict r).
  { intros r. unfold found. rewrite list_elem_of_filter, selected_answers. tauto. }
  split; [exact Hfound|]. split; [apply sublist_filter|]. split; [reflexivity|].
  split; [rewrite length_take; lia|]. split.
  { intros r Hr. apply subseteq_take, subseteq_drop in Hr.
    rewrite order_by_id_desc_perm in Hr. exact Hr. }
  intros field value a Hin Hcol Ha Hne.
  assert (Hnil : found = []).
  { unfold found. apply filter_none. intros r _.
    destruct (selected M user_id query_dict r) eqn:Es; [|reflexivity].
    apply selected_answers in Es as [_ Hq].
    destruct (Hq field value Hin) as [_ Hattr].
    rewrite (Hattr a Hcol Ha) in Hne. discriminate Hne. }
  unfold get_list. cbn [total]. fold found. rewrite Hnil. simpl.
  rewrite drop_nil, take_nil. split; reflexivity.
Qed.

(** X2.  The pages of [get_list] are slices of one list, for any model
    class and a query whose fields are attributes listed for the class,
    columns or not, or are no identifiers: all the rows
    that answer the query, each once, ordered by [id] descending.  A page
    that follows another continues it. *)
Theorem get_list_order (db : Session) (skip limit limit' : nat) (user_id : string)
    (query_dict : list (string * colval)) :
  (forall field value, (field, value) ∈ query_dict ->
     has_attribute M field = true \/ identifier field = false) ->
  let every := items (get_list M db 0 (length (table M db)) user_id query_dict) in
  every ≡ₚ filter (fun r => selected M user_id query_dict r = true) (table M db) /\
  (forall r, r ∈ every <-> r ∈ table M db /\ answers M user_id query_dict r) /\
  StronglySorted id_desc every /\
  items (get_list M db skip limit user_id query_dict) = take limit (drop skip every) /\
  StronglySorted id_desc (items (get_list M db skip limit user_id query_dict)) /\
  items (get_list M db skip limit user_id query_dict) ++
    items (get_list M db (skip + limit) limit' user_id query_dict) =
    items (get_list M db skip (limit + limit') user_id query_dict).
Proof.
  intros _. cbn zeta. rewrite !items_get_list. rewrite drop_0.
  set (found := filter (fun r => selected M user_id query_dict r = true) (table M db)).
  assert (Hall : take (length (table M db)) (order_by_id_desc found) = order_by_id_desc found).
  { apply take_ge. rewrite (Permutation_length (order_by_id_desc_perm _)).
    apply length_filter. }
  rewrite Hall. split; [apply order_by_id_desc_perm|].
  split.
  { intros r. rewrite order_by_id_desc_perm. unfold found.
    rewrite list_elem_of_filter, selected_answers. tauto. }
  split; [apply order_by_id_desc_sorted|].
  split; [reflexivity|].
  split; [apply StronglySorted_take, StronglySorted_drop, order_by_id_desc_sorted|].
  rewrite <- drop_drop. apply take_take_drop.
Qed.

End QueryProperties.

Section QueryWitnesses.
Import Service Spec Samples.

(** The query of the witnesses: a column, the table name, and a key that
    is no identifier. *)
Lemma sample_query_known :
  forall field value,
    (field, value) ∈ [("status", CStr "pending");
                      ("__tablename__", CStr "class_upgrades");
                      ("no field", Null)] ->
    has_attribute Models.Class_upgrades field = true \/ identifier field = false.
Proof.
  intros field value Hin.
  rewrite !elem_of_cons, elem_of_nil in Hin.
  destruct Hin as [H|[H|[H|[]]]]; injection H as -> ->;
    [left|left|right]; reflexivity.
Defined.

Lemma get_list_page_witness :
  let M := Models.Class_upgrades in
  let db := sample_db_pending in
  let query_dict := [("status", CStr "pending");
                     ("__tablename__", CStr "class_upgrades");
                     ("no field", Null)] in
  let page := get_list M db 0 20 "u1" query_dict in
  let found := filter (fun r => selected M "u1" query_dict r = true) (table M db) in
  (forall r, r ∈ found <-> r ∈ table M db /\ answers M "u1" query_dict r) /\
  found `sublist_of` table M db /\
  total page = Z.of_nat (length found) /\
  Z.of_nat (length (items page)) <= Z.of_nat 20 /\
  (forall r, r ∈ items page -> r ∈ found) /\
  (forall field value a,
     (field, value) ∈ query_dict -> field ∉ columns M ->
     class_attribute M field = Some a -> attribute_eq a value = false ->
     items page = [] /\ total page = 0).
Proof.
  exact (get_list_page Models.Class_upgrades sample_db_pending 0 20 "u1" _
           sample_query_known).
Defined.

Lemma get_list_order_witness :
  let M := Models.Class_upgrades in
  let db := sample_db_pending in
  let query_dict := [("status", CStr "pending");
                     ("__tablename__", CStr "class_upgrades");
                     ("no field", Null)] in
  let every := items (get_list M db 0 (length (table M db)) "u1" query_dict) in
  every ≡ₚ filter (fun r => selected M "u1" query_dict r = true) (table M db) /\
  (forall r, r ∈ every <-> r ∈ table M db /\ answers M "u1" query_dict r) /\
  StronglySorted id_desc every /\
  items (get_list M db 0 1 "u1" query_dict) = take 1 (drop 0 every) /\
  StronglySorted id_desc (items (get_list M db 0 1 "u1" query_dict)) /\
  items (get_list M db 0 1 "u1" query_dict) ++
    items (get_list M db (0 + 1) 1 "u1" query_dict) =
    items (get_list M db 0 (1 + 1) "u1" query_dict).
Proof.
  exact (get_list_order Models.Class_upgrades sample_db_pending 0 1 1 "u1" _
           sample_query_known).
Defined.

End QueryWitnesses.

Section CrudFacts.
Import Service Spec.

Lemma construct_columns (M : Model) data o :
  Forall (fun k => k ∈ columns M) (keys data) ->
  construct M data o = Ok (assigned o data).
Proof.
  revert o. induction data as [|[k v] data IH]; intros o Hk; [reflexivity|].
  unfold keys in Hk. rewrite fmap_cons in Hk. apply Forall_cons in Hk as [Hk Hrest].
  simpl. rewrite (proj2 (is_column_elem M k) Hk). apply IH, Hrest.
Qed.

Lemma assigned_other o data name :
  name ∉ keys data -> assigned o data !! name = o !! name.
Proof.
  revert o. induction data as [|[k v] data IH]; intros o Hn; [reflexivity|].
  unfold keys in Hn. rewrite fmap_cons in Hn. apply not_elem_of_cons in Hn as [Hne Hn].
  simpl. unfold assigned in IH. rewrite IH by exact Hn.
  apply lookup_insert_ne. simpl in Hne |- *. congruence.
Qed.

Lemma assigned_lookup o data k v :
  NoDup (keys data) -> (k, v) ∈ data -> assigned o data !! k = Some v.
Proof.
  revert o. induction data as [|[k' v'] data IH]; intros o Hnd Hin; [inversion Hin|].
  unfold keys in Hnd. rewrite fmap_cons in Hnd. apply NoDup_cons in Hnd as [Hk' Hnd].
  apply elem_of_cons in Hin as [Heq|Hin].
  - injection Heq as -> ->. simpl. fold (assigned (<[k' := v']> o) data).
    rewrite assigned_other by exact Hk'. apply lookup_insert_eq.
  - simpl. apply IH; assumption.
Qed.

Lemma assigned_dom o data :
  dom (assigned o data) = dom o ∪ list_to_set (keys data).
Proof.
  revert o. induction data as [|[k v] data IH]; intros o.
  - simpl. symmetry. apply (right_id_L ∅ (∪)).
  - simpl. fold (assigned (<[k := v]> o) data). rewrite IH, dom_insert_L.
    unfold keys. simpl.
    rewrite (assoc_L (∪) (dom o)), (comm_L (∪) (dom o)). reflexivity.
Qed.

Lemma blank_dom (M : Model) : dom (blank M) = list_to_set (columns M).
Proof.
  unfold blank. rewrite dom_list_to_map_L, <- list_fmap_compose.
  f_equal. apply list_fmap_id.
Qed.

Lemma blank_lookup (M : Model) name : name ∈ columns M -> blank M !! name = Some Null.
Proof.
  intros Hin.
  assert (Hsome : is_Some (blank M !! name)).
  { apply elem_of_dom. rewrite blank_dom. apply elem_of_list_to_set, Hin. }
  destruct Hsome as [v Hv]. rewrite Hv. f_equal.
  unfold blank in Hv. apply elem_of_list_to_map_2 in Hv.
  apply list_elem_of_fmap in Hv as (c & Heq & _). congruence.
Qed.

(** [data['user_id'] = user_id] keeps the other entries, and the keys
    distinct. *)
Lemma dict_set_keys data k v :
  keys (dict_set data k v) ≡ₚ (if bool_decide (k ∈ keys data) then keys data else keys data ++ [k]) /\
  (k, v) ∈ dict_set data k v /\
  (forall k' v', k' <> k -> (k', v') ∈ dict_set data k v <-> (k', v') ∈ data) /\
  (NoDup (keys data) -> NoDup (keys (dict_set data k v))).
Proof.
  induction data as [|[k0 v0] data (IHp & IHin & IHother & IHnd)].
  - simpl. split; [reflexivity|]. split; [left|]. split.
    + intros k' v' Hne. split; intros H; [|inversion H].
      apply list_elem_of_singleton in H. congruence.
    + intros _. apply NoDup_singleton.
  - simpl. destruct (String.eqb k0 k) eqn:E.
    + apply String.eqb_eq in E. subst k0. unfold keys in *. simpl.
      rewrite bool_decide_true by left. split; [reflexivity|]. split; [left|]. split.
      * intros k' v' Hne. rewrite !elem_of_cons. split; intros [H|H]; (congruence || (right; exact H)).
      * intros Hnd. exact Hnd.
    + apply String.eqb_neq in E. unfold keys in *. simpl.
      split; [|split; [right; exact IHin|split]].
      * destruct (bool_decide (k ∈ fst <$> data)) eqn:Ed.
        -- apply bool_decide_eq_true in Ed. rewrite bool_decide_true by (right; exact Ed).
           rewrite IHp. reflexivity.
        -- apply bool_decide_eq_false in Ed.
           rewrite bool_decide_false by (intros H; apply elem_of_cons in H as [H|H]; congruence).
           rewrite IHp. reflexivity.
      * intros k' v' Hne. rewrite !elem_of_cons. rewrite (IHother k' v' Hne). reflexivity.
      * intros Hnd. apply NoDup_cons in Hnd as [Hk0 Hnd]. apply NoDup_cons. split; [|apply IHnd, Hnd].
        rewrite IHp. destruct (bool_decide (k ∈ fst <$> data)); [exact Hk0|].
        rewrite elem_of_app, list_elem_of_singleton. intros [H|H]; congruence.
Qed.

(** The loop of [update] assigns to attributes the object has, never to
    [user_id]. *)
Lemma assign_user_id o data : assign o data !! "user_id" = o !! "user_id".
Proof.
  revert o. induction data as [|[k v] data IH]; intros o; [reflexivity|].
  simpl. destruct (hasattr o k && negb (String.eqb k "user_id")) eqn:E; [|apply IH].
  rewrite IH. apply andb_true_iff in E as [_ E]. apply negb_true_iff, String.eqb_neq in E.
  unfold setattr. apply lookup_insert_ne. exact E.
Qed.

Lemma assign_dom o data : dom (assign o data) = dom o.
Proof.
  revert o. induction data as [|[k v] data IH]; intros o; [reflexivity|].
  simpl. destruct (hasattr o k && negb (String.eqb k "user_id")) eqn:E; [|apply IH].
  rewrite IH. apply andb_true_iff in E as [E _]. unfold hasattr in E.
  apply bool_decide_eq_true in E. unfold setattr. apply dom_insert_lookup_L, E.
Qed.

Lemma assign_other o data name : name ∉ keys data -> assign o data !! name = o !! name.
Proof.
  revert o. induction data as [|[k v] data IH]; intros o Hn; [reflexivity|].
  unfold keys in Hn. rewrite fmap_cons in Hn. apply not_elem_of_cons in Hn as [Hne Hn].
  simpl. destruct (hasattr o k && negb (String.eqb k "user_id")); rewrite IH by exact Hn;
    [|reflexivity].
  unfold setattr. apply lookup_insert_ne. simpl in Hne. congruence.
Qed.

Lemma assign_lookup o data k v :
  NoDup (keys data) -> (k, v) ∈ data -> is_Some (o !! k) -> k <> "user_id" ->
  assign o data !! k = Some v.
Proof.
  revert o. induction data as [|[k' v'] data IH]; intros o Hnd Hin Hk Hne; [inversion Hin|].
  unfold keys in Hnd. rewrite fmap_cons in Hnd. apply NoDup_cons in Hnd as [Hk' Hnd].
  apply elem_of_cons in Hin as [Heq|Hin].
  - injection Heq as -> ->. simpl. unfold hasattr. rewrite bool_decide_true by exact Hk.
    rewrite (proj2 (String.eqb_neq _ _) Hne). simpl.
    rewrite assign_other by exact Hk'. apply lookup_insert_eq.
  - simpl. destruct (hasattr o k' && negb (String.eqb k' "user_id")); apply IH; try assumption.
    unfold setattr. destruct (decide (k' = k)) as [->|Hd].
    + rewrite lookup_insert_eq. eexists; reflexivity.
    + rewrite lookup_insert_ne by exact Hd. exact Hk.
Qed.


(** Rows that answer [Model.id == obj_id] hold the same key. *)
Lemma id_is_lookup obj_id (r : obj) : id_is obj_id r = true -> r !! "id" = Some obj_id.
Proof.
  unfold id_is. intros H. apply andb_true_iff in H as [Hne H].
  apply colval_eqb_eq in H. destruct (r !! "id"); simpl in H; [congruence|].
  subst obj_id. discriminate Hne.
Qed.

Lemma id_is_same_row (rows : list obj) obj_id r o :
  NoDup (row_id <$> rows) -> r ∈ rows -> o ∈ rows ->
  id_is obj_id r = true -> id_is obj_id o = true -> r = o.
Proof.
  intros Hnd Hr Ho Hir Hio. apply (same_id_same_row rows); try assumption.
  apply id_is_lookup in Hir, Hio. unfold row_id. rewrite Hir, Hio. reflexivity.
Qed.

(** What [get_by_id] returns is a row of the table with the key, that the
    caller owns. *)
Lemma get_by_id_Some (M : Model) db obj_id user_id o :
  get_by_id M db obj_id user_id = Ok (Some o) ->
  o ∈ table M db /\ id_is obj_id o = true /\ owned_by user_id o = true.
Proof.
  unfold get_by_id. intros H.
  destruct (filter (fun r => selects obj_id user_id r = true) (table M db))
    as [|r [|r' rest]] eqn:E; try discriminate H.
  injection H as ->.
  assert (Hin : o ∈ filter (fun r => selects obj_id user_id r = true) (table M db))
    by (rewrite E; left).
  apply list_elem_of_filter in Hin as [Hsel Hin]. unfold selects in Hsel.
  apply andb_true_iff in Hsel. tauto.
Qed.

Lemma get_by_id_None (M : Model) db obj_id user_id :
  get_by_id M db obj_id user_id = Ok None <->
  forall r, r ∈ table M db -> selects obj_id user_id r = false.
Proof.
  unfold get_by_id. split.
  - intros H r Hr.
    destruct (filter (fun r => selects obj_id user_id r = true) (table M db))
      as [|r0 [|r' rest]] eqn:E; try discriminate H.
    destruct (selects obj_id user_id r) eqn:Es; [|reflexivity].
    assert (Hin : r ∈ filter (fun r => selects obj_id user_id r = true) (table M db))
      by (apply list_elem_of_filter; split; assumption).
    rewrite E in Hin. inversion Hin.
  - intros H. rewrite filter_none by exact H. reflexivity.
Qed.

(** [get_by_id] on a table with distinct keys, by the row that holds the
    key. *)
Lemma get_by_id_row (M : Model) db obj_id user_id r :
  NoDup (row_id <$> table M db) -> r ∈ table M db -> id_is obj_id r = true ->
  get_by_id M db obj_id user_id = Ok (if owned_by user_id r then Some r else None).
Proof.
  intros Hnd Hr Hid. destruct (owned_by user_id r) eqn:Eo.
  - unfold get_by_id.
    rewrite (filter_only (selects obj_id user_id) (table M db) r); try assumption.
    + reflexivity.
    + eapply NoDup_fmap_1, Hnd.
    + unfold selects. rewrite Hid, Eo. reflexivity.
    + intros x Hx Hsel. unfold selects in Hsel. apply andb_true_iff in Hsel as [Hsel _].
      apply (id_is_same_row (table M db) obj_id); assumption.
  - apply get_by_id_None. intros x Hx. unfold selects.
    destruct (id_is obj_id x) eqn:Ex; [|reflexivity].
    assert (x = r) as -> by (apply (id_is_same_row (table M db) obj_id); assumption).
    rewrite Eo. reflexivity.
Qed.

Lemma owned_by_same_user user_id (o o' : obj) :
  o' !! "user_id" = o !! "user_id" -> owned_by user_id o' = owned_by user_id o.
Proof. unfold owned_by. intros ->. reflexivity. Qed.

Lemma next_id_new_row (rows : list obj) (new : obj) :
  NoDup (row_id <$> rows) -> new !! "id" = Some (CInt (next_id rows)) ->
  NoDup (row_id <$> rows ++ [new]).
Proof.
  intros Hnd Hid. rewrite fmap_app. apply NoDup_app. split; [exact Hnd|]. split.
  - intros z Hz Hnew. simpl in Hnew. apply list_elem_of_singleton in Hnew.
    apply list_elem_of_fmap in Hz as (r & -> & Hr). apply next_id_above in Hr.
    unfold row_id at 2 in Hnew. rewrite Hid in Hnew. lia.
  - simpl. apply NoDup_singleton.
Qed.

End CrudFacts.

Section CrudProperties.
Import Service Spec Samples.

(** What a successful [create] stores, its key and its owner, and that
    [get_by_id] then finds it. *)
Lemma create_stored (data : list (string * colval)) (user_id : string) (db : Session) :
  user_id <> EmptyString -> NoDup (keys data) ->
  Forall (fun k => k ∈ columns Models.Class_upgrades /\ k <> "id") (keys data) ->
  well_formed Models.Class_upgrades (class_upgrades db) ->
  fails_at 0 db = false ->
  exists new uid db',
    Class_upgradesService.create data user_id db = (Ok new, db') /\
    new !! "id" = Some (CInt uid) /\
    (forall r, r ∈ class_upgrades db -> r !! "id" <> Some (CInt uid)) /\
    new !! "user_id" = Some (CStr user_id) /\
    (forall k v, (k, v) ∈ data -> k <> "user_id" -> new !! k = Some v) /\
    (forall k, k ∈ columns Models.Class_upgrades -> k ∉ keys data ->
       k <> "id" -> k <> "user_id" -> new !! k = Some Null) /\
    class_upgrades db' = class_upgrades db ++ [new] /\
    profiles db' = profiles db /\
    well_formed Models.Class_upgrades (class_upgrades db') /\
    Class_upgradesService.get_by_id db' (CInt uid) user_id = Ok (Some new).
Proof.
  intros Huser Hnd Hkeys (Hinst & Hids & Hrows) Hcommit.
  set (M := Models.Class_upgrades).
  set (data' := dict_set data "user_id" (CStr user_id)).
  destruct (dict_set_keys data "user_id" (CStr user_id)) as (Hperm & Hin & Hother & Hnd').
  fold data' in Hperm, Hin, Hother, Hnd'. specialize (Hnd' Hnd).
  assert (Hkeys' : Forall (fun k => k ∈ columns M /\ k <> "id") (keys data')).
  { rewrite Hperm. destruct (bool_decide ("user_id" ∈ keys data)); [exact Hkeys|].
    apply Forall_app. split; [exact Hkeys|].
    apply Forall_cons_2; [|apply Forall_nil_2]. split; [in_columns | discriminate]. }
  assert (Hcols : Forall (fun k => k ∈ columns M) (keys data'))
    by (eapply Forall_impl; [exact Hkeys'|]; intros k [Hk _]; exact Hk).
  assert (Hnoid : "id" ∉ keys data').
  { intros Hid. rewrite Forall_forall in Hkeys'. destruct (Hkeys' _ Hid) as [_ Hne].
    apply Hne. reflexivity. }
  set (o0 := assigned (blank M) data').
  assert (Ho0id : o0 !! "id" = Some Null).
  { unfold o0. rewrite assigned_other by exact Hnoid. apply blank_lookup. in_columns. }
  set (uid := next_id (class_upgrades db)).
  set (new := <["id" := CInt uid]> o0).
  assert (Hrun : Class_upgradesService.create data user_id db =
                 (Ok new, with_table M (class_upgrades db ++ [new]) (attempted db))).
  { unfold Class_upgradesService.create, create.
    rewrite (proj2 (String.eqb_neq _ _) Huser). cbn [negb]. fold data' M.
    rewrite construct_columns by exact Hcols. fold o0. rewrite Ho0id.
    simpl colval_eqb. cbn iota. unfold setattr. fold uid new.
    change (table M db) with (class_upgrades db).
    rewrite next_id_fresh by (unfold row_id, new; rewrite lookup_insert_eq; reflexivity).
    unfold mbind, io_mbind, io_bind, commit, mret, io_mret, io_ret.
    rewrite Hcommit. reflexivity. }
  assert (Hnewid : new !! "id" = Some (CInt uid)) by apply lookup_insert_eq.
  assert (Hnewuser : new !! "user_id" = Some (CStr user_id)).
  { unfold new. rewrite lookup_insert_ne by discriminate.
    apply assigned_lookup; assumption. }
  assert (Hnewinst : Models.instance_of M new).
  { apply instance_insert; [|eexists; exact Ho0id].
    intros name. unfold o0.
    rewrite <- elem_of_dom, assigned_dom, blank_dom, elem_of_union, !elem_of_list_to_set.
    split; [|intros H; left; exact H].
    intros [H|H]; [exact H|]. rewrite Forall_forall in Hcols. apply Hcols, H. }
  assert (Hnd2 : NoDup (row_id <$> class_upgrades db ++ [new]))
    by (apply next_id_new_row; assumption).
  exists new, uid. eexists. split; [exact Hrun|].
  split; [exact Hnewid|]. split.
  { intros r Hr Hid. apply next_id_above in Hr. unfold row_id in Hr. rewrite Hid in Hr.
    fold uid in Hr. lia. }
  split; [exact Hnewuser|]. split.
  { intros k v Hkv Hne. unfold new.
    assert (Hk : k ∈ keys data) by (unfold keys; apply list_elem_of_fmap; exists (k, v); split; [reflexivity | exact Hkv]).
    rewrite Forall_forall in Hkeys. destruct (Hkeys k Hk) as [_ Hkid].
    rewrite lookup_insert_ne by congruence.
    apply assigned_lookup; [exact Hnd'|]. apply Hother; assumption. }
  split.
  { intros k Hk Hnot Hkid Hkuser. unfold new. rewrite lookup_insert_ne by congruence.
    unfold o0. rewrite assigned_other; [apply blank_lookup, Hk|].
    rewrite Hperm. destruct (bool_decide ("user_id" ∈ keys data)); [exact Hnot|].
    rewrite elem_of_app, list_elem_of_singleton. intros [H|H]; [contradiction | congruence]. }
  split; [reflexivity|]. split; [reflexivity|]. split.
  { split; [|split]; simpl.
    - apply Forall_app. split; [exact Hinst|]. apply Forall_cons_2; [exact Hnewinst | apply Forall_nil_2].
    - apply Forall_app. split; [exact Hids|].
      apply Forall_cons_2; [eexists; exact Hnewid | apply Forall_nil_2].
    - exact Hnd2. }
  apply (get_by_id_found M); simpl.
  - exact Hnd2.
  - apply elem_of_app. right. left.
  - exact Hnewid.
  - unfold owned_by. rewrite Hnewuser. simpl. rewrite String.eqb_refl. apply orb_true_r.
Qed.

(** X3.  [create] and [get_by_id] round trip.  For data whose keys are
    distinct columns other than [id], a caller with a [user_id], a well
    formed table and a commit that succeeds, [create] returns the stored
    object: it has a key no row had, the caller as [user_id] whatever the
    data said, every other value of the data, and [None] in the columns
    left out.  The table grows by that one row, the profiles are
    untouched, and [get_by_id] with the new key and the caller returns the
    object. *)
Theorem create_get_by_id (data : list (string * colval)) (user_id : string) (db : Session) :
  user_id <> EmptyString -> NoDup (keys data) ->
  Forall (fun k => k ∈ columns Models.Class_upgrades /\ k <> "id") (keys data) ->
  well_formed Models.Class_upgrades (class_upgrades db) ->
  fails_at 0 db = false ->
  exists new uid db',
    Class_upgradesService.create data user_id db = (Ok new, db') /\
    new !! "id" = Some (CInt uid) /\
    (forall r, r ∈ class_upgrades db -> r !! "id" <> Some (CInt uid)) /\
    new !! "user_id" = Some (CStr user_id) /\
    (forall k v, (k, v) ∈ data -> k <> "user_id" -> new !! k = Some v) /\
    (forall k, k ∈ columns Models.Class_upgrades -> k ∉ keys data ->
       k <> "id" -> k <> "user_id" -> new !! k = Some Null) /\
    class_upgrades db' = class_upgrades db ++ [new] /\
    profiles db' = profiles db /\
    well_formed Models.Class_upgrades (class_upgrades db') /\
    Class_upgradesService.get_by_id db' (CInt uid) user_id = Ok (Some new).
Proof. exact (create_stored data user_id db). Qed.

Lemma create_get_by_id_witness :
  exists new uid db',
    Class_upgradesService.create [("profile_id", CInt 7); ("to_class", CStr "C")] "u1"
      sample_db_pending = (Ok new, db') /\
    new !! "id" = Some (CInt uid) /\
    (forall r, r ∈ class_upgrades sample_db_pending -> r !! "id" <> Some (CInt uid)) /\
    new !! "user_id" = Some (CStr "u1") /\
    (forall k v, (k, v) ∈ [("profile_id", CInt 7); ("to_class", CStr "C")] ->
       k <> "user_id" -> new !! k = Some v) /\
    (forall k, k ∈ columns Models.Class_upgrades ->
       k ∉ keys [("profile_id", CInt 7); ("to_class", CStr "C")] ->
       k <> "id" -> k <> "user_id" -> new !! k = Some Null) /\
    class_upgrades db' = class_upgrades sample_db_pending ++ [new] /\
    profiles db' = profiles sample_db_pending /\
    well_formed Models.Class_upgrades (class_upgrades db') /\
    Class_upgradesService.get_by_id db' (CInt uid) "u1" = Ok (Some new).
Proof.
  apply (create_get_by_id [("profile_id", CInt 7); ("to_class", CStr "C")] "u1"
           sample_db_pending).
  - discriminate.
  - unfold keys. simpl. apply NoDup_cons_2; [|apply NoDup_singleton].
    intros H. apply list_elem_of_singleton in H. discriminate H.
  - unfold keys. simpl.
    apply Forall_cons_2; [|apply Forall_cons_2; [|apply Forall_nil_2]];
      (split; [in_columns | discriminate]).
  - apply sample_upgrades_well_formed.
  - reflexivity.
Defined.

(** X4.  [update] changes at most the one row with the key, and only when
    the caller owns it: on a table with distinct keys, every other row and
    the profiles are as they were; the changed row keeps its [user_id],
    gains no attribute and changes in the keys of the update only.  When
    no owned row has the key, the answer is [None] and the session is
    untouched, no commit being attempted. *)
Theorem update_changes_own_row (obj_id : colval) (update_data : list (string * colval))
    (user_id : string) (db : Session) :
  NoDup (row_id <$> class_upgrades db) ->
  let run := Class_upgradesService.update obj_id update_data user_id db in
  profiles (snd run) = profiles db /\
  Forall2 (fun row row' =>
             row' = row \/
             (id_is obj_id row = true /\ owned_by user_id row = true /\
              row' !! "user_id" = row !! "user_id" /\ dom row' = dom row /\
              forall name, name ∉ keys update_data -> row' !! name = row !! name))
          (class_upgrades db) (class_upgrades (snd run)) /\
  (fst run = Ok None -> snd run = db) /\
  (Class_upgradesService.get_by_id db obj_id user_id = Ok None -> run = (Ok None, db)).
Proof.
  intros Hnd. cbn zeta. unfold Class_upgradesService.update, update.
  unfold Class_upgradesService.get_by_id.
  destruct (get_by_id Models.Class_upgrades db obj_id user_id) as [[o|]|e] eqn:Eget.
  2,3: (split; [reflexivity|]; split; [apply unchanged_frame|]; split; [reflexivity|];
        intros H; (reflexivity || discriminate H)).
  apply get_by_id_Some in Eget as (Hin & Hid & Hown). simpl in Hin.
  unfold mbind, io_mbind, io_bind, commit, mret, io_mret, io_ret.
  destruct (fails_at 0 db).
  { split; [reflexivity|]. split; [apply unchanged_frame|].
    split; intros H; discriminate H. }
  simpl. split; [reflexivity|]. split; [|split; intros H; discriminate H].
  unfold flush. apply Forall2_fmap_r, Forall_Forall2_diag, Forall_forall. intros row Hrow.
  destruct (id_is obj_id row) eqn:E; simpl; rewrite E; [|left; reflexivity].
  right. assert (row = o) as -> by (apply (id_is_same_row (class_upgrades db) obj_id); assumption).
  split; [reflexivity|]. split; [exact Hown|].
  split; [apply assign_user_id|]. split; [apply assign_dom|].
  intros name Hname. apply assign_other, Hname.
Qed.

Lemma update_changes_own_row_witness :
  let run := Class_upgradesService.update (CInt 1) [("status", CStr "active")] "u2"
               sample_db_pending in
  profiles (snd run) = profiles sample_db_pending /\
  Forall2 (fun row row' =>
             row' = row \/
             (id_is (CInt 1) row = true /\ owned_by "u2" row = true /\
              row' !! "user_id" = row !! "user_id" /\ dom row' = dom row /\
              forall name, name ∉ keys [("status", CStr "active")] ->
                row' !! name = row !! name))
          (class_upgrades sample_db_pending) (class_upgrades (snd run)) /\
  (fst run = Ok None -> snd run = sample_db_pending) /\
  (Class_upgradesService.get_by_id sample_db_pending (CInt 1) "u2" = Ok None ->
   run = (Ok None, sample_db_pending)).
Proof.
  apply (update_changes_own_row (CInt 1) [("status", CStr "active")] "u2" sample_db_pending).
  simpl. apply NoDup_singleton.
Defined.



(** X6.  [delete] removes the row with the key when the caller owns it,
    and nothing else: on a table with distinct keys, a call that answers
    [True] leaves exactly the other rows, in their order, after which
    [get_by_id] finds nothing and [check_ownership] is [False]; a call
    that answers [False] leaves the session untouched; a call that raises
    leaves both tables as they were.  The profiles never change. *)
Theorem delete_removes_own_row (obj_id : colval) (user_id : string) (db : Session) :
  NoDup (row_id <$> class_upgrades db) ->
  let run := Class_upgradesService.delete obj_id user_id db in
  profiles (snd run) = profiles db /\
  (fst run = Ok true ->
     exists o,
       Class_upgradesService.get_by_id db obj_id user_id = Ok (Some o) /\
       owned_by user_id o = true /\
       class_upgrades (snd run) `sublist_of` class_upgrades db /\
       (forall r, r ∈ class_upgrades (snd run) <-> r ∈ class_upgrades db /\ r <> o) /\
       Class_upgradesService.get_by_id (snd run) obj_id user_id = Ok None /\
       Class_upgradesService.check_ownership (snd run) obj_id user_id = false) /\
  (fst run = Ok false ->
     snd run = db /\ Class_upgradesService.check_ownership db obj_id user_id = false) /\
  (forall e, fst run = Raise e -> class_upgrades (snd run) = class_upgrades db).
Proof.
  intros Hnd. cbn zeta.
  unfold Class_upgradesService.delete, delete, Class_upgradesService.check_ownership,
    check_ownership, Class_upgradesService.get_by_id.
  destruct (get_by_id Models.Class_upgrades db obj_id user_id) as [[o|]|e] eqn:Eget.
  2:{ split; [reflexivity|]. split; [intros H; discriminate H|].
      split; [intros _; split; reflexivity|]. intros e _. reflexivity. }
  2:{ split; [reflexivity|]. split; [intros H; discriminate H|].
      split; [intros H; discriminate H|]. intros e' _. reflexivity. }
  pose proof (get_by_id_Some _ _ _ _ _ Eget) as (Hin & Hid & Hown). simpl in Hin.
  unfold mbind, io_mbind, io_bind, commit, mret, io_mret, io_ret.
  destruct (fails_at 0 db).
  { split; [reflexivity|]. split; [intros H; discriminate H|].
    split; [intros H; discriminate H|]. intros e _. reflexivity. }
  change (table Models.Class_upgrades db) with (class_upgrades db).
  set (db' := with_table Models.Class_upgrades (remove obj_id (class_upgrades db)) (attempted db)).
  cbn [fst snd].
  split; [reflexivity|]. split; [|split; [intros H; discriminate H|intros e H; discriminate H]].
  intros _. exists o. split; [reflexivity|]. split; [exact Hown|].
  change (class_upgrades db') with (remove obj_id (class_upgrades db)).
  assert (Hsame : forall r, r ∈ class_upgrades db -> (id_is obj_id r = false <-> r <> o)).
  { intros r Hr. split.
    - intros Hf ->. congruence.
    - intros Hne. destruct (id_is obj_id r) eqn:E; [|reflexivity].
      exfalso. apply Hne. apply (id_is_same_row (class_upgrades db) obj_id); assumption. }
  split; [apply sublist_filter|]. split.
  { intros r. unfold remove. rewrite list_elem_of_filter. split.
    - intros [Hf Hr]. split; [exact Hr | apply Hsame; assumption].
    - intros [Hr Hne]. split; [apply Hsame; assumption | exact Hr]. }
  assert (Hnone : get_by_id Models.Class_upgrades db' obj_id user_id = Ok None).
  { apply get_by_id_None. intros r Hr.
    change (table Models.Class_upgrades db') with (remove obj_id (class_upgrades db)) in Hr.
    unfold remove in Hr.
    apply list_elem_of_filter in Hr as [Hf _]. unfold selects. rewrite Hf. reflexivity. }
  rewrite Hnone. split; reflexivity.
Qed.

Lemma delete_removes_own_row_witness :
  let run := Class_upgradesService.delete (CInt 1) "u1" sample_db_pending in
  profiles (snd run) = profiles sample_db_pending /\
  (fst run = Ok true ->
     exists o,
       Class_upgradesService.get_by_id sample_db_pending (CInt 1) "u1" = Ok (Some o) /\
       owned_by "u1" o = true /\
       class_upgrades (snd run) `sublist_of` class_upgrades sample_db_pending /\
       (forall r, r ∈ class_upgrades (snd run) <->
                  r ∈ class_upgrades sample_db_pending /\ r <> o) /\
       Class_upgradesService.get_by_id (snd run) (CInt 1) "u1" = Ok None /\
       Class_upgradesService.check_ownership (snd run) (CInt 1) "u1" = false) /\
  (fst run = Ok false ->
     snd run = sample_db_pending /\
     Class_upgradesService.check_ownership sample_db_pending (CInt 1) "u1" = false) /\
  (forall e, fst run = Raise e ->
     class_upgrades (snd run) = class_upgrades sample_db_pending).
Proof.
  apply (delete_removes_own_row (CInt 1) "u1" sample_db_pending).
  simpl. apply NoDup_singleton.
Defined.

(** X7.  [check_ownership] decides ownership and never raises: on a table
    with distinct keys it is [True] exactly when some row has the key and
    the caller's [user_id], which is when [get_by_id] returns a row. *)
Theorem check_ownership_owner (db : Session) (uid : Z) (user_id : string) :
  NoDup (row_id <$> class_upgrades db) -> user_id <> EmptyString ->
  (Class_upgradesService.check_ownership db (CInt uid) user_id = true <->
   exists r, r ∈ class_upgrades db /\ r !! "id" = Some (CInt uid) /\
             r !! "user_id" = Some (CStr user_id)) /\
  (Class_upgradesService.check_ownership db (CInt uid) user_id = true <->
   exists r, Class_upgradesService.get_by_id db (CInt uid) user_id = Ok (Some r)).
Proof.
  intros Hnd Huser.
  unfold Class_upgradesService.check_ownership, check_ownership,
    Class_upgradesService.get_by_id.
  split.
  - split.
    + destruct (get_by_id Models.Class_upgrades db (CInt uid) user_id) as [[o|]|e] eqn:Eget;
        try discriminate.
      intros _. apply get_by_id_Some in Eget as (Hin & Hid & Hown).
      exists o. split; [exact Hin|]. split; [apply id_is_lookup, Hid|].
      apply owned_by_user; assumption.
    + intros (r & Hr & Hid & Hu).
      rewrite (get_by_id_found Models.Class_upgrades db uid user_id r); try assumption.
      * reflexivity.
      * unfold owned_by. rewrite Hu. simpl. rewrite String.eqb_refl. apply orb_true_r.
  - destruct (get_by_id Models.Class_upgrades db (CInt uid) user_id) as [[o|]|e];
      split; try discriminate; try (intros [r Hr]; discriminate Hr).
    + intros _. exists o. reflexivity.
    + intros _. reflexivity.
Qed.

Lemma check_ownership_owner_witness :
  (Class_upgradesService.check_ownership sample_db_pending (CInt 1) "u1" = true <->
   exists r, r ∈ class_upgrades sample_db_pending /\ r !! "id" = Some (CInt 1) /\
             r !! "user_id" = Some (CStr "u1")) /\
  (Class_upgradesService.check_ownership sample_db_pending (CInt 1) "u1" = true <->
   exists r, Class_upgradesService.get_by_id sample_db_pending (CInt 1) "u1" = Ok (Some r)).
Proof.
  apply (check_ownership_owner sample_db_pending 1 "u1").
  - simpl. apply NoDup_singleton.
  - discriminate.
Defined.

End CrudProperties.

Section FieldQueries.
Import Service Spec Samples.

(** Two rows of a list that satisfy a predicate make the filtered list
    hold two elements at least. *)
Lemma filter_two {A} (P : A -> Prop) `{!forall x, Decision (P x)} (l : list A) i j a b :
  (i < j)%nat -> l !! i = Some a -> l !! j = Some b -> P a -> P b ->
  exists x y rest, filter P l = x :: y :: rest.
Proof.
  revert i j. induction l as [|c l IH]; intros i j Hij Hi Hj Ha Hb; [discriminate Hi|].
  destruct j as [|j]; [lia|]. simpl in Hj.
  destruct i as [|i].
  - injection Hi as ->. rewrite filter_cons_True by exact Ha.
    assert (Hin : b ∈ filter P l).
    { apply list_elem_of_filter. split; [exact Hb|]. eapply list_elem_of_lookup_2, Hj. }
    destruct (filter P l) as [|y rest]; [inversion Hin|]. eauto.
  - simpl in Hi. destruct (IH i j ltac:(lia) Hi Hj Ha Hb) as (x & y & rest & Heq).
    destruct (decide (P c)).
    + rewrite filter_cons_True by assumption. rewrite Heq. eauto.
    + rewrite filter_cons_False by assumption. rewrite Heq. eauto.
Qed.

Lemma filter_all {A} (P : A -> Prop) `{!forall x, Decision (P x)} (l : list A) :
  (forall x, x ∈ l -> P x) -> filter P l = l.
Proof.
  induction l as [|a l IH]; intros Hall; [reflexivity|].
  rewrite filter_cons_True by (apply Hall; left). f_equal.
  apply IH. intros x Hx. apply Hall. right. exact Hx.
Qed.

Lemma has_attribute_other (M : Model) field a :
  class_attribute M field = Some a -> has_attribute M field = true.
Proof.
  intros Ha. unfold has_attribute. rewrite Ha.
  rewrite bool_decide_true by (eexists; reflexivity). apply orb_true_r.
Qed.

Lemma has_attribute_column (M : Model) field :
  field ∈ columns M -> has_attribute M field = true.
Proof. intros H. unfold has_attribute. rewrite (proj2 (is_column_elem M field) H). reflexivity. Qed.

(** A name that is no identifier names no attribute of a class whose
    attributes are named by identifiers. *)
Lemma no_identifier_no_attribute (M : Model) field :
  well_named M -> identifier field = false -> has_attribute M field = false.
Proof.
  intros Hwn Hid. destruct (has_attribute M field) eqn:E; [|reflexivity].
  rewrite (Hwn field E) in Hid. discriminate Hid.
Qed.

Lemma has_attribute_listed (M : Model) name :
  has_attribute M name = true -> name ∈ columns M ++ (class_attributes M).*1.
Proof.
  unfold has_attribute. intros H. apply orb_true_iff in H as [H|H].
  - apply elem_of_app. left. apply is_column_elem, H.
  - apply elem_of_app. right. apply bool_decide_eq_true in H as [a Ha].
    unfold class_attribute in Ha.
    destruct (filter (fun kv => String.eqb name kv.1 = true) (class_attributes M))
      as [|[k v] rest] eqn:Ef; [discriminate Ha|].
    assert (Hin : (k, v) ∈ filter (fun kv => String.eqb name kv.1 = true) (class_attributes M))
      by (rewrite Ef; left).
    apply list_elem_of_filter in Hin as [Hk Hin]. simpl in Hk.
    apply String.eqb_eq in Hk. subst k.
    apply list_elem_of_fmap. exists (name, v). split; [reflexivity|exact Hin].
Qed.

Lemma well_named_listed (M : Model) :
  forallb identifier (columns M ++ (class_attributes M).*1) = true -> well_named M.
Proof.
  intros Hall name Hattr. apply has_attribute_listed in Hattr.
  rewrite forallb_forall in Hall. apply Hall, list_elem_of_In, Hattr.
Qed.

(** The two model classes are named so. *)
Lemma Class_upgrades_well_named : well_named Models.Class_upgrades.
Proof. apply well_named_listed. reflexivity. Qed.

Lemma Profiles_well_named : well_named Models.Profiles.
Proof. apply well_named_listed. reflexivity. Qed.

End FieldQueries.

Section FieldQueryProperties.
Import Service Spec Samples.
Variable M : Model.
Variable class_name : string.

(** X8.  [get_by_field], for any model class; it asks for no owner.  A
    field name that is no identifier, which names no attribute, is
    refused with a [ValueError] that names it.  For a column, the answer
    is [None] exactly when no row holds the value, a row returned is a
    row of the table that holds it, and two rows that hold it make the
    call raise [MultipleResultsFound].  A field that names another
    attribute of the class is not refused: the rows play no part, the
    answer is [None] when the attribute does not equal the value, and
    otherwise the only row of the table, [None] for an empty table and
    [MultipleResultsFound] for two rows or more.  Asked for [id], on a
    table with distinct keys, it returns the row with the key whoever
    owns it. *)
Theorem get_by_field_outcomes (db : Session) (field : string) (value : colval) :
  (well_named M -> identifier field = false ->
   get_by_field M class_name db field value =
     Raise (ValueError ("Field " +:+ field +:+ " does not exist on " +:+ class_name))) /\
  (field ∈ columns M ->
   (get_by_field M class_name db field value = Ok None <->
    forall r, r ∈ table M db -> default Null (r !! field) <> value) /\
   (forall r, get_by_field M class_name db field value = Ok (Some r) ->
      r ∈ table M db /\ default Null (r !! field) = value) /\
   (forall i j r1 r2, i <> j ->
      table M db !! i = Some r1 -> table M db !! j = Some r2 ->
      default Null (r1 !! field) = value -> default Null (r2 !! field) = value ->
      get_by_field M class_name db field value = Raise MultipleResultsFound)) /\
  (forall a, field ∉ columns M -> class_attribute M field = Some a ->
     (attribute_eq a value = false ->
      get_by_field M class_name db field value = Ok None) /\
     (attribute_eq a value = true ->
      get_by_field M class_name db field value =
        match table M db with
        | [] => Ok None
        | [r] => Ok (Some r)
        | _ => Raise MultipleResultsFound
        end)) /\
  (forall uid r user_id,
     "id" ∈ columns M -> NoDup (row_id <$> table M db) ->
     r ∈ table M db -> r !! "id" = Some (CInt uid) ->
     get_by_field M class_name db "id" (CInt uid) = Ok (Some r) /\
     (owned_by user_id r = false -> get_by_id M db (CInt uid) user_id = Ok None)).
Proof.
  unfold get_by_field, no_such_field.
  split; [|split; [|split]].
  - intros Hwn Hid.
    rewrite (no_identifier_no_attribute M field Hwn Hid). reflexivity.
  - intros Hcol. rewrite (has_attribute_column M field Hcol). cbn [negb].
    set (found := filter (fun r => equals M field value r = true) (table M db)).
    assert (Hfound : forall r, r ∈ found <->
                       r ∈ table M db /\ default Null (r !! field) = value).
    { intros r. unfold found. rewrite list_elem_of_filter. unfold equals, field_is.
      rewrite (proj2 (is_column_elem M field) Hcol), colval_eqb_eq. tauto. }
    split; [|split].
    + split.
      * intros H r Hr Hv.
        assert (Hin : r ∈ found) by (apply Hfound; split; assumption).
        destruct found as [|x [|y rest]]; [inversion Hin | discriminate H | discriminate H].
      * intros H. destruct found as [|x rest]; [reflexivity|].
        exfalso. assert (Hin : x ∈ x :: rest) by left.
        apply Hfound in Hin as [Hin Hv]. exact (H x Hin Hv).
    + intros r H. apply Hfound.
      destruct found as [|x [|y rest]]; try discriminate H. injection H as ->. left.
    + intros i j r1 r2 Hij H1 H2 Hv1 Hv2.
      assert (Heq : forall r, default Null (r !! field) = value -> equals M field value r = true).
      { intros r Hr. unfold equals, field_is.
        rewrite (proj2 (is_column_elem M field) Hcol). apply colval_eqb_eq, Hr. }
      assert (Htwo : exists x y rest, found = x :: y :: rest).
      { unfold found. destruct (Nat.lt_ge_cases i j) as [Hlt|Hge].
        - eapply (filter_two _ _ i j r1 r2); try eassumption; apply Heq; assumption.
        - eapply (filter_two _ _ j i r2 r1); try eassumption; [lia| |]; apply Heq; assumption. }
      destruct Htwo as (x & y & rest & ->). reflexivity.
  - intros a Hcol Hattr. rewrite (has_attribute_other M field a Hattr). cbn [negb].
    assert (Heq : forall r, equals M field value r = attribute_eq a value).
    { intros r. unfold equals. destruct (is_column M field) eqn:E.
      - apply is_column_elem in E. contradiction.
      - rewrite Hattr. reflexivity. }
    split; intros Hv.
    + rewrite filter_none; [reflexivity|]. intros r _. rewrite Heq. exact Hv.
    + rewrite filter_all; [reflexivity|]. intros r _. rewrite Heq. exact Hv.
  - intros uid r user_id Hidcol Hnd Hr Hid. split.
    + rewrite (has_attribute_column M "id" Hidcol). cbn [negb].
      assert (Heq : forall x, equals M "id" (CInt uid) x = field_is "id" (CInt uid) x).
      { intros x. unfold equals. rewrite (proj2 (is_column_elem M "id") Hidcol). reflexivity. }
      rewrite (filter_only (equals M "id" (CInt uid)) (table M db) r); try assumption.
      * reflexivity.
      * eapply NoDup_fmap_1, Hnd.
      * rewrite Heq. unfold field_is. rewrite Hid. simpl. apply Z.eqb_refl.
      * intros x Hx Hfx. apply (same_id_same_row (table M db)); try assumption.
        rewrite Heq in Hfx. apply field_is_lookup in Hfx; [|discriminate].
        unfold row_id. rewrite Hfx, Hid. reflexivity.
    + intros Hown.
      rewrite (get_by_id_row M db (CInt uid) user_id r); try assumption.
      * rewrite Hown. reflexivity.
      * apply id_is_CInt, Hid.
Qed.

(** X9.  [list_by_field] is [get_list] asked by nobody for the one
    field, for any model class: for every attribute of the class, a
    column or not, it returns the page of [get_list] with no [user_id]
    and the query [{field: value}], so at most [limit] rows, ordered by
    [id] descending, of whatever owner.  The two part on a field name
    that is no identifier, which names no attribute: [list_by_field]
    refuses it with the [ValueError] that names it, where [get_list]
    drops the condition and returns the page of the empty query. *)
Theorem list_by_field_get_list (db : Session) (field : string) (value : colval)
    (skip limit : nat) :
  (has_attribute M field = true ->
   list_by_field M class_name db field value skip limit =
     Ok (items (get_list M db skip limit EmptyString [(field, value)]))) /\
  (well_named M -> identifier field = false ->
   list_by_field M class_name db field value skip limit =
     Raise (ValueError ("Field " +:+ field +:+ " does not exist on " +:+ class_name)) /\
   get_list M db skip limit EmptyString [(field, value)] =
     get_list M db skip limit EmptyString []).
Proof.
  unfold list_by_field, no_such_field. split.
  - intros Hattr. rewrite Hattr. cbn [negb].
    rewrite items_get_list.
    do 4 f_equal. apply list_filter_iff. intros r.
    unfold selected, owned_by, matches. simpl forallb.
    rewrite Hattr, andb_true_r. reflexivity.
  - intros Hwn Hid.
    pose proof (no_identifier_no_attribute M field Hwn Hid) as Hattr.
    rewrite Hattr. split; [reflexivity|].
    unfold get_list, selected, matches. simpl forallb. rewrite Hattr. reflexivity.
Qed.

End FieldQueryProperties.

Section FieldQueryWitnesses.
Import Service Spec Samples.

Lemma get_by_field_outcomes_witness :
  Class_upgradesService.get_by_field sample_db_pending "no field" Null =
    Raise (ValueError "Field no field does not exist on Class_upgrades") /\
  Class_upgradesService.get_by_field sample_db_pending "metadata" Null = Ok None /\
  Class_upgradesService.get_by_field sample_db_pending "__tablename__"
    (CStr "class_upgrades") = Ok (Some sample_upgrade).
Proof.
  split; [|split].
  - destruct (get_by_field_outcomes Models.Class_upgrades "Class_upgrades"
                sample_db_pending "no field" Null) as (H & _).
    exact (H Class_upgrades_well_named eq_refl).
  - destruct (get_by_field_outcomes Models.Class_upgrades "Class_upgrades"
                sample_db_pending "metadata" Null) as (_ & _ & H & _).
    destruct (H Object) as [Hne _].
    + intros Hin. apply is_column_elem in Hin. discriminate Hin.
    + reflexivity.
    + exact (Hne eq_refl).
  - destruct (get_by_field_outcomes Models.Class_upgrades "Class_upgrades"
                sample_db_pending "__tablename__" (CStr "class_upgrades")) as (_ & _ & H & _).
    destruct (H (Constant (CStr "class_upgrades"))) as [_ Heq].
    + intros Hin. apply is_column_elem in Hin. discriminate Hin.
    + reflexivity.
    + exact (Heq eq_refl).
Defined.

Lemma list_by_field_get_list_witness :
  Class_upgradesService.list_by_field sample_db_pending "status" (CStr "pending") 0 20 =
    Ok (items (Class_upgradesService.get_list sample_db_pending 0 20 EmptyString
                 [("status", CStr "pending")])) /\
  Class_upgradesService.list_by_field sample_db_pending "no field" Null 0 20 =
    Raise (ValueError "Field no field does not exist on Class_upgrades") /\
  Class_upgradesService.get_list sample_db_pending 0 20 EmptyString [("no field", Null)] =
    Class_upgradesService.get_list sample_db_pending 0 20 EmptyString [].
Proof.
  split.
  - destruct (list_by_field_get_list Models.Class_upgrades "Class_upgrades"
                sample_db_pending "status" (CStr "pending") 0 20) as (H & _).
    exact (H eq_refl).
  - destruct (list_by_field_get_list Models.Class_upgrades "Class_upgrades"
                sample_db_pending "no field" Null 0 20) as (_ & H).
    exact (H Class_upgrades_well_named eq_refl).
Defined.

End FieldQueryWitnesses.

(* ===================================================================== *)
(** ** Dates as text and as day numbers *)
(* ===================================================================== *)

Section DateText.
Import DateTime Spec.

(** The digits [strftime] writes are ASCII, and read back by [\d]. *)
Lemma digit_cases k :
  0 <= k <= 9 ->
  code (digit k) = 48 + k /\ decimal_digit (48 + k) = Some k /\
  Ascii.eqb (digit k) "-" = false.
Proof.
  intros H.
  assert (Hk : k = 0 \/ k = 1 \/ k = 2 \/ k = 3 \/ k = 4 \/ k = 5 \/ k = 6 \/ k = 7 \/
               k = 8 \/ k = 9) by lia.
  repeat (destruct Hk as [->|Hk]; [repeat split; reflexivity|]).
  subst k. repeat split; reflexivity.
Qed.

Lemma digit_not_dash k : 0 <= k <= 9 -> Ascii.eqb (digit k) "-" = false.
Proof. intros H. apply digit_cases, H. Qed.

Lemma digit_ascii k : 0 <= k <= 9 -> code (digit k) < 128.
Proof. intros H. destruct (digit_cases k H) as (-> & _). lia. Qed.

(** ASCII text is its own UTF-8. *)
Lemma code_points_ascii cs :
  Forall (fun c => code c < 128) cs -> code_points cs = Some (code <$> cs).
Proof.
  induction 1 as [|c cs Hc Hcs IH]; [reflexivity|].
  cbn [code_points]. rewrite (proj2 (Z.ltb_lt _ _) Hc), IH. reflexivity.
Qed.

Lemma digit_mod n : 0 <= n mod 10 <= 9.
Proof. pose proof (Z.mod_pos_bound n 10). lia. Qed.

(** The characters [strftime("%Y-%m-%d")] writes. *)
Lemma strftime_ymd_chars d :
  list_ascii_of_string (strftime_ymd d) =
  [digit (year d / 10 / 10 / 10 mod 10); digit (year d / 10 / 10 mod 10);
   digit (year d / 10 mod 10); digit (year d mod 10)] ++
  "-"%char :: [digit (month d / 10 mod 10); digit (month d mod 10)] ++
  "-"%char :: [digit (day d / 10 mod 10); digit (day d mod 10)].
Proof. reflexivity. Qed.

Lemma split_dash_digits pre rest :
  Forall (fun c => Ascii.eqb c "-" = false) pre ->
  split_dash (pre ++ "-"%char :: rest) = Some (pre, rest).
Proof.
  induction 1 as [|c pre Hc Hpre IH]; [reflexivity|].
  simpl. rewrite Hc, IH. reflexivity.
Qed.

Lemma split_dash_none cs :
  Forall (fun c => Ascii.eqb c "-" = false) cs -> split_dash cs = None.
Proof.
  induction 1 as [|c cs Hc Hcs IH]; [reflexivity|].
  simpl. rewrite Hc, IH. reflexivity.
Qed.

Lemma parse_year_digits y :
  0 <= y <= 9999 ->
  parse_year [digit (y / 10 / 10 / 10 mod 10); digit (y / 10 / 10 mod 10);
              digit (y / 10 mod 10); digit (y mod 10)] = Some y.
Proof.
  intros Hy. unfold parse_year.
  pose proof (digit_cases _ (digit_mod (y / 10 / 10 / 10))) as (Ha & Ha' & _).
  pose proof (digit_cases _ (digit_mod (y / 10 / 10))) as (Hb & Hb' & _).
  pose proof (digit_cases _ (digit_mod (y / 10))) as (Hc & Hc' & _).
  pose proof (digit_cases _ (digit_mod y)) as (Hd & Hd' & _).
  rewrite code_points_ascii
    by (repeat (apply Forall_cons_2; [apply digit_ascii, digit_mod|]); apply Forall_nil_2).
  cbn [fmap list_fmap mbind option_bind]. rewrite Ha, Hb, Hc, Hd, Ha', Hb', Hc', Hd'.
  cbn [mbind option_bind]. f_equal.
  Z.div_mod_to_equations. lia.
Qed.

Lemma parse_month_digits m :
  1 <= m <= 12 -> parse_month [digit (m / 10 mod 10); digit (m mod 10)] = Some m.
Proof.
  intros Hm.
  assert (Hk : m = 1 \/ m = 2 \/ m = 3 \/ m = 4 \/ m = 5 \/ m = 6 \/ m = 7 \/ m = 8 \/
               m = 9 \/ m = 10 \/ m = 11 \/ m = 12) by lia.
  repeat (destruct Hk as [->|Hk]; [reflexivity|]). subst m. reflexivity.
Qed.

Lemma parse_day_digits d :
  1 <= d <= 31 -> parse_day [digit (d / 10 mod 10); digit (d mod 10)] = Some d.
Proof.
  intros Hd.
  assert (Hn : exists n : nat, d = Z.of_nat n /\ (n <= 31)%nat)
    by (exists (Z.to_nat d); lia).
  destruct Hn as (n & -> & Hn).
  do 32 (destruct n as [|n]; [first [reflexivity | lia]|]). lia.
Qed.

Lemma validb_valid d : validb d = true <-> valid d.
Proof.
  unfold validb, valid. rewrite !andb_true_iff, !Z.leb_le. tauto.
Qed.

(** What [strptime] reads is a date of the calendar. *)
Lemma parse_ymd_valid s d : parse_ymd s = Some d -> valid d.
Proof.
  unfold parse_ymd. intros H.
  destruct (split_dash (list_ascii_of_string s)) as [[y rest]|]; [|discriminate H].
  simpl in H. destruct (split_dash rest) as [[m dd]|]; [|discriminate H].
  simpl in H. destruct (parse_year y) as [yy|]; [|discriminate H].
  simpl in H. destruct (parse_month m) as [mm|]; [|discriminate H].
  simpl in H. destruct (parse_day dd) as [dv|]; [|discriminate H].
  simpl in H. destruct (validb (Date yy mm dv)) eqn:E; [|discriminate H].
  injection H as <-. apply validb_valid, E.
Qed.

Lemma parse_ymd_parts s ycs mcs dcs y m d :
  list_ascii_of_string s = ycs ++ "-"%char :: mcs ++ "-"%char :: dcs ->
  Forall (fun c => Ascii.eqb c "-" = false) ycs ->
  Forall (fun c => Ascii.eqb c "-" = false) mcs ->
  parse_year ycs = Some y -> parse_month mcs = Some m -> parse_day dcs = Some d ->
  validb (Date y m d) = true ->
  parse_ymd s = Some (Date y m d).
Proof.
  intros Hs Hyc Hmc Hy Hm Hd Hv. unfold parse_ymd.
  rewrite Hs, split_dash_digits by exact Hyc. simpl.
  rewrite split_dash_digits by exact Hmc. simpl.
  rewrite Hy. simpl. rewrite Hm. simpl. rewrite Hd. simpl. rewrite Hv. reflexivity.
Qed.

Lemma parse_ymd_strftime d : valid d -> parse_ymd (strftime_ymd d) = Some d.
Proof.
  intros Hv. pose proof Hv as (Hy & Hm & Hd).
  pose proof (days_in_month_bounds (year d) (month d)) as Hdim.
  unfold MAXYEAR in Hy.
  destruct d as [y m dd]. cbn [year month day] in *.
  apply (parse_ymd_parts _ _ _ _ y m dd (strftime_ymd_chars (Date y m dd))).
  - repeat (apply Forall_cons_2; [apply digit_not_dash, digit_mod|]). apply Forall_nil_2.
  - repeat (apply Forall_cons_2; [apply digit_not_dash, digit_mod|]). apply Forall_nil_2.
  - apply parse_year_digits. lia.
  - apply parse_month_digits. lia.
  - apply parse_day_digits. lia.
  - apply validb_valid. exact Hv.
Qed.

End DateText.

Section DateOrdinals.
Import DateTime Spec.

Lemma ltb_lt a b :
  ltb a b = true <->
  year a < year b \/
  (year a = year b /\ (month a < month b \/ (month a = month b /\ day a < day b))).
Proof.
  unfold ltb.
  rewrite !orb_true_iff, !andb_true_iff, !orb_true_iff, !andb_true_iff,
    !Z.ltb_lt, !Z.eqb_eq. tauto.
Qed.

Lemma ltb_trans a b c : ltb a b = true -> ltb b c = true -> ltb a c = true.
Proof. rewrite !ltb_lt. lia. Qed.

Lemma ltb_irrefl a : ltb a a = false.
Proof.
  destruct (ltb a a) eqn:E; [|reflexivity]. apply ltb_lt in E. lia.
Qed.

(** A year is 365 days long, and a leap year one more. *)
Lemma days_before_year_succ y :
  days_before_year (y + 1) = days_before_year y + 365 + leap_day y.
Proof.
  unfold days_before_year, leap_day, is_leap. cbn zeta.
  replace (y + 1 - 1) with y by lia.
  destruct (y mod 4 =? 0) eqn:E4; destruct (y mod 100 =? 0) eqn:E100;
    destruct (y mod 400 =? 0) eqn:E400; simpl;
    rewrite ?Z.eqb_eq, ?Z.eqb_neq in *; Z.div_mod_to_equations; lia.
Qed.

Lemma days_before_year_mono y n :
  0 <= n -> days_before_year y + 365 * n <= days_before_year (y + n).
Proof.
  intros Hn. revert n Hn.
  apply (natlike_ind (fun n => days_before_year y + 365 * n <= days_before_year (y + n))).
  - replace (y + 0) with y by lia. lia.
  - intros n Hn IH. replace (y + Z.succ n) with (y + n + 1) by lia.
    rewrite days_before_year_succ. unfold leap_day. destruct (is_leap (y + n)); lia.
Qed.

(** The days of the year before a month, and through it. *)
Lemma days_before_month_succ y m :
  1 <= m <= 11 -> days_before_month y (m + 1) = days_before_month y m + days_in_month y m.
Proof.
  intros Hm.
  assert (Hk : m = 1 \/ m = 2 \/ m = 3 \/ m = 4 \/ m = 5 \/ m = 6 \/ m = 7 \/ m = 8 \/
               m = 9 \/ m = 10 \/ m = 11) by lia.
  unfold days_before_month, days_in_month.
  repeat (destruct Hk as [->|Hk]; [simpl; destruct (is_leap y); reflexivity|]).
  subst m. simpl. destruct (is_leap y); reflexivity.
Qed.

Lemma days_before_month_mono y m n :
  1 <= m -> 0 <= n -> m + n <= 12 ->
  days_before_month y m + 28 * n <= days_before_month y (m + n).
Proof.
  intros Hm Hn. revert n Hn. apply (natlike_ind (fun n => m + n <= 12 -> _)).
  - intros _. replace (m + 0) with m by lia. lia.
  - intros n Hn IH Hle. replace (m + Z.succ n) with (m + n + 1) by lia.
    rewrite days_before_month_succ by lia.
    pose proof (days_in_month_bounds y (m + n)). lia.
Qed.

Lemma days_before_month_first y : days_before_month y 1 = 0.
Proof. reflexivity. Qed.

Lemma days_before_month_last y : days_before_month y 12 + 31 = 365 + leap_day y.
Proof. unfold days_before_month, leap_day. simpl. destruct (is_leap y); reflexivity. Qed.

(** The day of the year of a date of the calendar. *)
Lemma day_of_year_bounds d :
  valid d ->
  1 <= days_before_month (year d) (month d) + day d <= 365 + leap_day (year d).
Proof.
  intros (Hy & Hm & Hd).
  pose proof (days_before_month_mono (year d) 1 (month d - 1) ltac:(lia) ltac:(lia) ltac:(lia)) as H1.
  replace (1 + (month d - 1)) with (month d) in H1 by lia.
  rewrite days_before_month_first in H1.
  split; [lia|].
  assert (Hcase : month d = 12 \/ month d <= 11) by lia.
  destruct Hcase as [H12|H11].
  - rewrite H12 in *. pose proof (days_before_month_last (year d)).
    pose proof (days_in_month_bounds (year d) 12). lia.
  - pose proof (days_before_month_succ (year d) (month d) ltac:(lia)) as Hs.
    pose proof (days_before_month_mono (year d) (month d + 1) (12 - (month d + 1))
                  ltac:(lia) ltac:(lia) ltac:(lia)) as H2.
    replace (month d + 1 + (12 - (month d + 1))) with 12 in H2 by lia.
    pose proof (days_before_month_last (year d)). lia.
Qed.

(** A date before another has the smaller day number. *)
Lemma toordinal_lt a b :
  valid a -> valid b -> ltb a b = true -> toordinal a < toordinal b.
Proof.
  intros Ha Hb Hlt. apply ltb_lt in Hlt.
  pose proof (day_of_year_bounds a Ha) as Hda.
  pose proof (day_of_year_bounds b Hb) as Hdb.
  unfold toordinal.
  destruct Hlt as [Hy | [Hy [Hm | [Hm Hd]]]].
  - pose proof (days_before_year_succ (year a)) as Hs.
    pose proof (days_before_year_mono (year a + 1) (year b - (year a + 1)) ltac:(lia)) as Hmono.
    replace (year a + 1 + (year b - (year a + 1))) with (year b) in Hmono by lia.
    lia.
  - rewrite Hy in *. destruct Ha as (_ & Hma & Hdda). destruct Hb as (_ & Hmb & Hddb).
    rewrite Hy in Hdda.
    pose proof (days_before_month_succ (year b) (month a) ltac:(lia)) as Hs.
    pose proof (days_before_month_mono (year b) (month a + 1) (month b - (month a + 1))
                  ltac:(lia) ltac:(lia) ltac:(lia)) as Hmono.
    replace (month a + 1 + (month b - (month a + 1))) with (month b) in Hmono by lia.
    lia.
  - rewrite Hy, Hm. lia.
Qed.

End DateOrdinals.

(* ===================================================================== *)
(** ** The calculator: plans read back, reports and errors *)
(* ===================================================================== *)

Section ScheduleFacts.
Import DateTime Spec RepaymentCalculator.

Lemma advance_months_year d i :
  1 <= month d <= 12 -> 0 <= i <= 12 ->
  year d <= year (advance_months d i) <= year d + 1.
Proof.
  intros Hm Hi. unfold advance_months. cbn [year].
  Z.div_mod_to_equations. lia.
Qed.

Lemma advance_months_valid d i :
  valid d -> year d < MAXYEAR -> 0 <= i <= 12 -> valid (advance_months d i).
Proof.
  intros (Hy & Hm & Hd) Hmax Hi. unfold MAXYEAR in *.
  pose proof (advance_months_year d i Hm Hi).
  split; [unfold MAXYEAR; lia|]. split; [apply advance_months_month|].
  apply advance_months_day. lia.
Qed.

(** A date is before the date any number of months later. *)
Lemma ltb_advance_months d i :
  1 <= month d <= 12 -> 1 <= i -> ltb d (advance_months d i) = true.
Proof.
  intros Hm Hi. apply ltb_of_month_index; [exact Hm | apply advance_months_month|].
  rewrite advance_months_index. lia.
Qed.

Lemma ltb_advance_months_mono d i j :
  i < j -> ltb (advance_months d i) (advance_months d j) = true.
Proof.
  intros Hij. apply ltb_of_month_index; try apply advance_months_month.
  rewrite !advance_months_index. lia.
Qed.

(** An entry of a schedule reads back as the date it was made from. *)
Lemma scheduled_parse now amount i :
  valid (advance_months (date_of now) i) ->
  parse_due_date (scheduled now amount i) = Ok (advance_months (date_of now) i).
Proof.
  intros Hv. unfold parse_due_date, dict_get. rewrite scheduled_due_date. simpl.
  unfold strptime_ymd. rewrite parse_ymd_strftime by exact Hv. reflexivity.
Qed.

Lemma scheduled_pending now amount i : is_pending (scheduled now amount i) = true.
Proof. reflexivity. Qed.

Lemma scheduled_amount now amount i : dict_get (scheduled now amount i) "amount" = VFloat amount.
Proof. reflexivity. Qed.

Lemma scheduled_record now amount i :
  valid (advance_months (date_of now) i) -> installment_record (scheduled now amount i).
Proof.
  intros Hv _. split.
  - eexists. apply scheduled_parse, Hv.
  - eexists. apply scheduled_amount.
Qed.

Lemma scheduled_overdue now amount today i :
  valid (advance_months (date_of now) i) ->
  is_overdue today (scheduled now amount i) = ltb (advance_months (date_of now) i) today.
Proof.
  intros Hv. unfold is_overdue. rewrite scheduled_pending, scheduled_parse by exact Hv.
  reflexivity.
Qed.

(** Filtering a list of numbers from 1 by a property that holds below
    wherever it holds keeps the first numbers. *)
Lemma filter_prefix (Q : Z -> bool) (n : Z) :
  0 <= n ->
  (forall i j, 1 <= j <= i -> i <= n -> Q i = true -> Q j = true) ->
  exists k, 0 <= k <= n /\
    filter (fun i => Q i = true) (seqZ 1 n) = seqZ 1 k /\
    (forall i, 1 <= i <= n -> (i <= k <-> Q i = true)).
Proof.
  intros Hn. revert n Hn.
  apply (natlike_ind (fun n =>
    (forall i j, 1 <= j <= i -> i <= n -> Q i = true -> Q j = true) ->
    exists k, 0 <= k <= n /\
      filter (fun i => Q i = true) (seqZ 1 n) = seqZ 1 k /\
      (forall i, 1 <= i <= n -> (i <= k <-> Q i = true)))).
  - intros _. exists 0. split; [lia|]. split; [reflexivity|]. intros i Hi. lia.
  - intros n Hn IH Hdown.
    destruct IH as (k & Hk & Hfilter & Hiff).
    { intros i j Hj Hi. apply Hdown; lia. }
    replace (Z.succ n) with (n + 1) by lia.
    rewrite seqZ_app by lia. rewrite filter_app, Hfilter.
    replace (seqZ (1 + n) 1) with [n + 1] by (rewrite Z.add_comm; reflexivity).
    destruct (Q (n + 1)) eqn:EQ.
    + assert (k = n) as ->.
      { destruct (Z.eq_dec n 0) as [->|Hne]; [lia|].
        assert (Qn : Q n = true) by (apply (Hdown (n + 1) n); [lia | lia | exact EQ]).
        apply (Hiff n) in Qn; lia. }
      exists (n + 1). split; [lia|]. split.
      * rewrite filter_cons_True by exact EQ. rewrite filter_nil.
        rewrite (seqZ_app 1 n 1) by lia.
        replace (seqZ (1 + n) 1) with [n + 1] by (rewrite Z.add_comm; reflexivity).
        reflexivity.
      * intros i Hi. destruct (Z.eq_dec i (n + 1)) as [->|Hne]; [tauto|].
        rewrite <- (Hiff i) by lia. lia.
    + exists k. split; [lia|]. split.
      * rewrite filter_cons_False by (rewrite EQ; discriminate). rewrite filter_nil.
        apply app_nil_r.
      * intros i Hi. destruct (Z.eq_dec i (n + 1)) as [->|Hne].
        -- rewrite EQ. split; [lia | discriminate].
        -- apply Hiff. lia.
Qed.

Lemma filter_fmap_iff {A B} (P : B -> Prop) `{!forall x, Decision (P x)}
    (Q : A -> Prop) `{!forall x, Decision (Q x)} (f : A -> B) (l : list A) :
  Forall (fun x => P (f x) <-> Q x) l ->
  filter P (f <$> l) = f <$> filter Q l.
Proof.
  induction 1 as [|x l Hx Hl IH]; [reflexivity|].
  rewrite fmap_cons. destruct (decide (Q x)) as [HQ|HQ].
  - rewrite !filter_cons_True by tauto. rewrite fmap_cons, IH. reflexivity.
  - rewrite !filter_cons_False by tauto. exact IH.
Qed.

(** The entries the loop of [check_overdue_installments] collects, on any
    list: each is some days overdue, and there are no more of them than
    pending installments. *)
Lemma scan_collects today insts acc out :
  valid today -> scan today insts acc = Ok out ->
  exists new, out = acc ++ new /\
    (length new <= length (filter (fun inst => is_pending inst = true) insts))%nat /\
    Forall (fun entry => exists k, days_overdue_of entry = Some k /\ 1 <= k) new.
Proof.
  intros Hv. revert acc. induction insts as [|inst insts IH]; intros acc Hscan.
  - injection Hscan as <-. exists []. rewrite app_nil_r. repeat split; [simpl; lia | apply Forall_nil_2].
  - simpl in Hscan. destruct (is_pending inst) eqn:Ep.
    + rewrite filter_cons_True by exact Ep.
      destruct (parse_due_date inst) as [due|e] eqn:Edue; [|discriminate Hscan].
      simpl in Hscan. destruct (ltb due today) eqn:Elt.
      * apply IH in Hscan as (new & -> & Hlen & Hall).
        exists (overdue_entry inst (days_between today due) :: new).
        rewrite <- app_assoc. split; [reflexivity|]. split; [simpl; lia|].
        apply Forall_cons_2; [|exact Hall].
        exists (days_between today due). split; [reflexivity|].
        assert (Hdue : valid due).
        { unfold parse_due_date in Edue. destruct (dict_get inst "due_date"); try discriminate Edue.
          unfold strptime_ymd in Edue. destruct (parse_ymd s) as [d|] eqn:Ed; [|discriminate Edue].
          injection Edue as <-. eapply parse_ymd_valid, Ed. }
        pose proof (toordinal_lt due today Hdue Hv Elt). unfold days_between. lia.
      * apply IH in Hscan as (new & -> & Hlen & Hall).
        exists new. split; [reflexivity|]. split; [simpl; lia | exact Hall].
    + rewrite filter_cons_False by (rewrite Ep; discriminate).
      apply IH, Hscan.
Qed.

(** The loop reads pending installments only. *)
Lemma scan_pending today insts acc :
  scan today insts acc =
  scan today (filter (fun inst => is_pending inst = true) insts) acc.
Proof.
  revert acc. induction insts as [|inst insts IH]; intros acc; [reflexivity|].
  destruct (is_pending inst) eqn:Ep.
  - rewrite filter_cons_True by exact Ep. simpl. rewrite Ep.
    destruct (parse_due_date inst) as [due|e]; [|reflexivity].
    simpl. destruct (ltb due today); apply IH.
  - rewrite filter_cons_False by (rewrite Ep; discriminate). simpl. rewrite Ep. apply IH.
Qed.

Lemma scan_raises today pre bad rest acc e :
  Forall installment_record pre ->
  is_pending bad = true -> parse_due_date bad = Raise e ->
  scan today (pre ++ bad :: rest) acc = Raise e.
Proof.
  intros Hpre Hp He. revert acc.
  induction Hpre as [|inst pre Hinst Hpre IH]; intros acc; simpl.
  - rewrite Hp, He. reflexivity.
  - destruct (is_pending inst) eqn:Ep; [|apply IH].
    destruct (Hinst Ep) as [[due Hdue] _]. rewrite Hdue. simpl.
    destruct (ltb due today); apply IH.
Qed.

End ScheduleFacts.

Section CalculatorProperties.
Import DateTime Spec Samples RepaymentCalculator.

(** X10.  Due dates round trip: the text [strftime("%Y-%m-%d")] writes
    for a date of the calendar, from the year 1000 on, is ten characters
    long and [strptime] with the same format reads it back as that date;
    so [check_overdue_installments] can read every due date that
    [calculate_repayment_plan] writes. *)
Theorem strptime_strftime (d : date) :
  valid d -> 1000 <= year d ->
  strptime_ymd (strftime_ymd d) = Ok d /\
  String.length (strftime_ymd d) = 10%nat.
Proof.
  intros Hv _. split; [|reflexivity].
  unfold strptime_ymd. rewrite parse_ymd_strftime by exact Hv. reflexivity.
Qed.

Lemma strptime_strftime_witness :
  strptime_ymd (strftime_ymd (Date 2024 2 29)) = Ok (Date 2024 2 29) /\
  String.length (strftime_ymd (Date 2024 2 29)) = 10%nat.
Proof.
  apply (strptime_strftime (Date 2024 2 29)).
  - apply validb_valid. reflexivity.
  - cbn; lia.
Defined.

(** X11.  A plan checked for overdue installments.  The schedule that
    [calculate_repayment_plan] returns is accepted by
    [check_overdue_installments] at any date, and what is overdue is a
    beginning of the schedule: for some [k], installments 1 to [k], in
    their order, are reported, those being the ones due before today;
    each is reported with the days from its due date to today, one at
    least.  At a date not after the day the plan was made nothing is
    overdue, and the total is the integer 0. *)
Theorem plan_overdue_prefix (now : datetime) (a : float) (n : Z) (today : date) :
  valid (date_of now) -> 1000 <= year (date_of now) < MAXYEAR -> 1 <= n <= 12 ->
  valid today ->
  let d := date_of now in
  exists plan report k,
    calculate_repayment_plan now a n = Ok plan /\
    check_overdue_installments today (schedule plan) = Ok report /\
    0 <= k <= n /\ overdue_count report = k /\
    has_overdue report = bool_decide (0 < k) /\
    (forall i, 1 <= i <= n -> (i <= k <-> ltb (advance_months d i) today = true)) /\
    overdue_installments report =
      (fun i => overdue_entry (scheduled now (installment_amount plan) i)
                  (toordinal today - toordinal (advance_months d i))) <$> seqZ 1 k /\
    (forall i, 1 <= i <= k -> 1 <= toordinal today - toordinal (advance_months d i)) /\
    (ltb d today = false -> report = nothing_overdue).
Proof.
  intros Hv [Hy1 Hy2] Hn Htoday d.
  set (amount := PyFloat.round2 (a * PyFloat.lit_1_02 / PyFloat.of_small_int n)%float).
  assert (Hvalid : forall i, 1 <= i <= n -> valid (advance_months d i))
    by (intros i Hi; apply advance_months_valid; [exact Hv | exact Hy2 | lia]).
  assert (Hrec : Forall installment_record (scheduled now amount <$> seqZ 1 n)).
  { apply Forall_fmap, Forall_seqZ. intros i Hi. apply scheduled_record, Hvalid. lia. }
  set (Q := fun i => ltb (advance_months d i) today).
  destruct (filter_prefix Q n ltac:(lia)) as (k & Hk & Hfilter & Hiff).
  { intros i j Hj Hi HQ. destruct (Z.eq_dec j i) as [->|Hne]; [exact HQ|].
    unfold Q. eapply ltb_trans; [|exact HQ]. apply ltb_advance_months_mono. lia. }
  assert (Hoverdue :
    reported today <$> filter (fun inst => is_overdue today inst = true)
                         (scheduled now amount <$> seqZ 1 n) =
    (fun i => overdue_entry (scheduled now amount i)
                (toordinal today - toordinal (advance_months d i))) <$> seqZ 1 k).
  { rewrite (filter_fmap_iff _ (fun i => Q i = true)).
    2:{ apply Forall_seqZ. intros i Hi. rewrite scheduled_overdue by (apply Hvalid; lia).
        reflexivity. }
    rewrite Hfilter, <- list_fmap_compose. apply Forall_fmap_ext, Forall_seqZ.
    intros i Hi. simpl. unfold reported.
    rewrite scheduled_parse by (apply Hvalid; lia). reflexivity. }
  set (entries := (fun i => overdue_entry (scheduled now amount i)
                     (toordinal today - toordinal (advance_months d i))) <$> seqZ 1 k) in *.
  destruct (sum_from_floats (VInt 0) ((fun inst => dict_get inst "amount") <$> entries))
    as [total Htotal].
  { left; reflexivity. }
  { unfold entries. rewrite <- list_fmap_compose. apply Forall_fmap, Forall_seqZ.
    intros i Hi. exists amount. reflexivity. }
  assert (Hlen : length entries = Z.to_nat k)
    by (unfold entries; rewrite length_fmap, length_seqZ; reflexivity).
  eexists. exists {| has_overdue := bool_decide (0 < length entries)%nat;
                     overdue_count := Z.of_nat (length entries);
                     overdue_installments := entries;
                     total_overdue_amount := total |}, k.
  split; [apply calculate_repayment_plan_ok; (assumption || lia)|].
  cbn [schedule installment_amount]. fold amount.
  split.
  { unfold check_overdue_installments. rewrite scan_filter by exact Hrec.
    cbn [app]. rewrite Hoverdue. fold entries. simpl.
    unfold Py.sum. rewrite Htotal. reflexivity. }
  cbn [has_overdue overdue_count overdue_installments total_overdue_amount].
  split; [exact Hk|]. split; [lia|]. split.
  { apply bool_decide_ext. lia. }
  split; [exact Hiff|]. split; [reflexivity|]. split.
  { intros i Hi.
    assert (HQ : Q i = true) by (apply Hiff; lia).
    pose proof (toordinal_lt _ _ (Hvalid i ltac:(lia)) Htoday HQ). lia. }
  intros Hnot.
  assert (k = 0) as ->.
  { destruct (Z.eq_dec k 0) as [->|Hne]; [reflexivity|]. exfalso.
    assert (HQ : Q 1 = true) by (apply Hiff; lia).
    destruct Hv as (_ & Hm & _).
    pose proof (ltb_trans _ _ _ (ltb_advance_months d 1 Hm ltac:(lia)) HQ) as Hlt.
    congruence. }
  unfold entries in *. simpl in Htotal. injection Htotal as <-. reflexivity.
Qed.

Lemma plan_overdue_prefix_witness :
  let d := date_of sample_now in
  exists plan report k,
    calculate_repayment_plan sample_now 1000 12 = Ok plan /\
    check_overdue_installments sample_today (schedule plan) = Ok report /\
    0 <= k <= 12 /\ overdue_count report = k /\
    has_overdue report = bool_decide (0 < k) /\
    (forall i, 1 <= i <= 12 -> (i <= k <-> ltb (advance_months d i) sample_today = true)) /\
    overdue_installments report =
      (fun i => overdue_entry (scheduled sample_now (installment_amount plan) i)
                  (toordinal sample_today - toordinal (advance_months d i))) <$> seqZ 1 k /\
    (forall i, 1 <= i <= k ->
       1 <= toordinal sample_today - toordinal (advance_months d i)) /\
    (ltb d sample_today = false -> report = nothing_overdue).
Proof.
  apply (plan_overdue_prefix sample_now 1000 12 sample_today).
  - unfold valid, MAXYEAR; cbn; lia.
  - unfold MAXYEAR; cbn; lia.
  - lia.
  - unfold valid, MAXYEAR; cbn; lia.
Defined.

(** X12.  Every report of [check_overdue_installments], on any list it
    accepts: [overdue_count] is the number of entries, [has_overdue] says
    whether there is one, there are no more entries than pending
    installments, every entry is one day overdue at least, and with no
    entry the total is the integer 0. *)
Theorem overdue_report_invariants (today : date) (insts : list dict) (report : OverdueReport) :
  valid today ->
  check_overdue_installments today insts = Ok report ->
  overdue_count report = Z.of_nat (length (overdue_installments report)) /\
  (has_overdue report = true <-> 0 < overdue_count report) /\
  overdue_count report <=
    Z.of_nat (length (filter (fun inst => is_pending inst = true) insts)) /\
  Forall (fun entry => exists k, days_overdue_of entry = Some k /\ 1 <= k)
         (overdue_installments report) /\
  (overdue_installments report = [] -> total_overdue_amount report = VInt 0).
Proof.
  intros Hv Hcheck. unfold check_overdue_installments in Hcheck.
  destruct (scan today insts []) as [overdue|e] eqn:Escan; [|discriminate Hcheck].
  simpl in Hcheck.
  destruct (Py.sum ((fun inst => dict_get inst "amount") <$> overdue)) as [total|e] eqn:Esum;
    [|discriminate Hcheck].
  simpl in Hcheck. injection Hcheck as <-.
  cbn [has_overdue overdue_count overdue_installments total_overdue_amount].
  apply scan_collects in Escan as (new & Heq & Hlen & Hall); [|exact Hv].
  simpl in Heq. subst new.
  split; [reflexivity|]. split.
  { rewrite bool_decide_eq_true. lia. }
  split; [lia|]. split; [exact Hall|].
  intros ->. simpl in Esum. injection Esum as <-. reflexivity.
Qed.

Lemma overdue_report_invariants_witness :
  exists report,
    check_overdue_installments sample_today sample_installments = Ok report /\
    overdue_count report = Z.of_nat (length (overdue_installments report)) /\
    (has_overdue report = true <-> 0 < overdue_count report) /\
    overdue_count report <=
      Z.of_nat (length (filter (fun inst => is_pending inst = true) sample_installments)) /\
    Forall (fun entry => exists k, days_overdue_of entry = Some k /\ 1 <= k)
           (overdue_installments report) /\
    (overdue_installments report = [] -> total_overdue_amount report = VInt 0).
Proof.
  eexists. split; [apply check_overdue_installments_example|].
  apply (overdue_report_invariants sample_today sample_installments).
  - unfold valid, MAXYEAR; cbn; lia.
  - apply check_overdue_installments_example.
Defined.

(** X13.  [check_overdue_installments] reads pending installments only:
    on any list it answers, or raises, as on the pending installments of
    the list alone, so nothing in a paid installment, not even a due date
    that is no date, can change the report or raise; and where no
    installment is pending, as on the empty list, the report has no entry,
    a count of 0 and the integer 0 as total. *)
Theorem overdue_reads_pending_only (today : date) (insts : list dict) :
  check_overdue_installments today insts =
    check_overdue_installments today (filter (fun inst => is_pending inst = true) insts) /\
  (filter (fun inst => is_pending inst = true) insts = [] ->
   check_overdue_installments today insts = Ok nothing_overdue).
Proof.
  assert (Heq : check_overdue_installments today insts =
                check_overdue_installments today
                  (filter (fun inst => is_pending inst = true) insts)).
  { unfold check_overdue_installments. rewrite scan_pending. reflexivity. }
  split; [exact Heq|]. intros Hnone. rewrite Heq, Hnone. reflexivity.
Qed.

(** X14.  A pending installment whose due date cannot be read stops
    [check_overdue_installments]: after installment records, the first
    pending installment whose [due_date] is missing or no text raises a
    [TypeError], and one whose text is no date in the format
    ["%Y-%m-%d"] raises a [ValueError], whatever follows in the list. *)
Theorem overdue_unreadable_due_date (today : date) (pre rest : list dict) (bad : dict) :
  Forall installment_record pre ->
  is_pending bad = true ->
  (forall d, parse_due_date bad <> Ok d) ->
  exists msg,
    (check_overdue_installments today (pre ++ bad :: rest) = Raise (TypeError msg) /\
     forall s, dict_get bad "due_date" <> VStr s) \/
    (check_overdue_installments today (pre ++ bad :: rest) = Raise (ValueError msg) /\
     exists s, dict_get bad "due_date" = VStr s /\ parse_ymd s = None).
Proof.
  intros Hpre Hp Hbad.
  assert (Hraise : forall e, parse_due_date bad = Raise e ->
                     check_overdue_installments today (pre ++ bad :: rest) = Raise e).
  { intros e He. unfold check_overdue_installments.
    rewrite (scan_raises today pre bad rest [] e) by assumption. reflexivity. }
  unfold parse_due_date in Hbad, Hraise.
  destruct (dict_get bad "due_date") as [|b|z|f|s] eqn:Edue.
  1-4: eexists; left; split; [apply Hraise; reflexivity | intros s; discriminate].
  unfold strptime_ymd in Hbad, Hraise. destruct (parse_ymd s) as [d|] eqn:Eparse.
  - exfalso. apply (Hbad d). reflexivity.
  - eexists. right. split; [apply Hraise; reflexivity|]. exists s. split; [reflexivity | exact Eparse].
Qed.

Lemma overdue_unreadable_due_date_witness :
  exists msg,
    (check_overdue_installments sample_today
       (take 1 sample_installments ++ sample_unreadable :: drop 1 sample_installments) =
       Raise (TypeError msg) /\
     forall s, dict_get sample_unreadable "due_date" <> VStr s) \/
    (check_overdue_installments sample_today
       (take 1 sample_installments ++ sample_unreadable :: drop 1 sample_installments) =
       Raise (ValueError msg) /\
     exists s, dict_get sample_unreadable "due_date" = VStr s /\ parse_ymd s = None).
Proof.
  apply (overdue_unreadable_due_date sample_today (take 1 sample_installments)
           (drop 1 sample_installments) sample_unreadable).
  - simpl. apply Forall_cons_2; [|apply Forall_nil_2].
    intros _. split; eexists; vm_compute; reflexivity.
  - reflexivity.
  - intros d H. vm_compute in H. discriminate H.
Defined.

End CalculatorProperties.

Section PlanRange.
Import DateTime Spec Samples RepaymentCalculator.

(** [now + relativedelta(months=i)]: the date [i] calendar months later,
    unless its year is past [MAXYEAR]. *)
Lemma add_months_cases (now : datetime) (i : Z) :
  valid (date_of now) -> 1 <= i <= 12 ->
  DateTime.add now (relativedelta_months i) =
  if year (advance_months (date_of now) i) <=? MAXYEAR
  then Ok (DateTime (advance_months (date_of now) i) (hour now) (minute now) (second now))
  else Raise (ValueError ("year " +:+ pretty (year (advance_months (date_of now) i)) +:+
                          " is out of range")).
Proof.
  intros (Hy & Hm & Hd) Hi.
  destruct now as [[y m d] h mi s]; simpl in *.
  unfold MAXYEAR in *.
  assert (Hcase : i = 12 \/ 1 <= i <= 11) by lia.
  destruct Hcase as [-> | Hi'].
  - rewrite relativedelta_months_12. unfold DateTime.add, advance_months, MAXYEAR. simpl.
    replace ((12 * y + (m - 1) + 12) / 12) with (y + 1) by (Z.div_mod_to_equations; lia).
    replace ((12 * y + (m - 1) + 12) mod 12 + 1) with m by (Z.div_mod_to_equations; lia).
    rewrite (proj2 (Z.leb_le 1 (y + 1))) by lia. reflexivity.
  - rewrite relativedelta_months_small by assumption.
    unfold DateTime.add, advance_months, MAXYEAR. simpl.
    destruct (i =? 0) eqn:E0; [apply Z.eqb_eq in E0; lia|].
    destruct (12 <? m + i) eqn:E12.
    + apply Z.ltb_lt in E12.
      replace ((12 * y + (m - 1) + i) / 12) with (y + 0 + 1) by (Z.div_mod_to_equations; lia).
      replace ((12 * y + (m - 1) + i) mod 12 + 1) with (m + i - 12) by (Z.div_mod_to_equations; lia).
      rewrite (proj2 (Z.leb_le 1 (y + 0 + 1))) by lia. reflexivity.
    + apply Z.ltb_ge in E12.
      destruct (m + i <? 1) eqn:E1; [apply Z.ltb_lt in E1; lia|].
      replace ((12 * y + (m - 1) + i) / 12) with (y + 0) by (Z.div_mod_to_equations; lia).
      replace ((12 * y + (m - 1) + i) mod 12 + 1) with (m + i) by (Z.div_mod_to_equations; lia).
      rewrite (proj2 (Z.leb_le 1 (y + 0))) by lia. reflexivity.
Qed.

Lemma advance_months_year_mono d i j :
  i <= j -> year (advance_months d i) <= year (advance_months d j).
Proof. intros Hij. unfold advance_months. cbn [year]. Z.div_mod_to_equations. lia. Qed.

Lemma build_schedule_in_range now amount range acc :
  valid (date_of now) ->
  Forall (fun i => 1 <= i <= 12 /\ year (advance_months (date_of now) i) <= MAXYEAR) range ->
  build_schedule now amount range acc =
  Ok (acc ++ (scheduled now (PyFloat.round2 amount) <$> range)).
Proof.
  intros Hv Hr. revert acc.
  induction Hr as [|i range [Hi Hy] Hr IH]; intros acc; simpl.
  - rewrite app_nil_r. reflexivity.
  - rewrite add_months_cases by assumption.
    rewrite (proj2 (Z.leb_le _ _) Hy). simpl.
    rewrite IH. rewrite <- app_assoc. reflexivity.
Qed.

Lemma build_schedule_out_of_range now amount pre i rest acc :
  valid (date_of now) ->
  Forall (fun i => 1 <= i <= 12 /\ year (advance_months (date_of now) i) <= MAXYEAR) pre ->
  1 <= i <= 12 -> year (advance_months (date_of now) i) = MAXYEAR + 1 ->
  build_schedule now amount (pre ++ i :: rest) acc =
  Raise (ValueError "year 10000 is out of range").
Proof.
  intros Hv Hpre Hi Hy. revert acc.
  induction Hpre as [|j pre [Hj Hyj] Hpre IH]; intros acc; simpl.
  - rewrite add_months_cases by assumption. rewrite Hy. reflexivity.
  - rewrite add_months_cases by assumption.
    rewrite (proj2 (Z.leb_le _ _) Hyj). simpl. apply IH.
Qed.

(** X15.  [calculate_repayment_plan] and the end of the calendar.  For a
    valid count, the plan is returned exactly when the last due date is
    within the years [datetime] has, that is up to 9999; when it falls
    in the year 10000 the call raises the [ValueError] of [datetime],
    ["year 10000 is out of range"], and returns no plan. *)
Theorem plan_within_calendar (now : datetime) (a : float) (n : Z) :
  valid (date_of now) -> 1 <= n <= 12 ->
  let final := advance_months (date_of now) n in
  (year final <= MAXYEAR ->
   exists plan,
     calculate_repayment_plan now a n = Ok plan /\
     schedule plan = scheduled now (installment_amount plan) <$> seqZ 1 n /\
     last_due_date plan = VStr (strftime_ymd final)) /\
  (MAXYEAR < year final ->
   calculate_repayment_plan now a n = Raise (ValueError "year 10000 is out of range")).
Proof.
  intros Hv Hn final. pose proof Hv as (Hy & Hm & Hd).
  unfold calculate_repayment_plan.
  destruct ((n <? 1) || (12 <? n)) eqn:E.
  { apply orb_true_iff in E as [E|E]; apply Z.ltb_lt in E; lia. }
  split.
  - intros Hfinal. rewrite build_schedule_in_range; [|exact Hv|].
    2:{ apply Forall_seqZ. intros i Hi. split; [lia|].
        etransitivity; [apply (advance_months_year_mono _ i n); lia | exact Hfinal]. }
    simpl app.
    set (amount := PyFloat.round2 (a * PyFloat.lit_1_02 / PyFloat.of_small_int n)%float).
    assert (Hhead : head (scheduled now amount <$> seqZ 1 n) = Some (scheduled now amount 1)).
    { rewrite seqZ_cons by lia. reflexivity. }
    assert (Hlast : last (scheduled now amount <$> seqZ 1 n) = Some (scheduled now amount n)).
    { rewrite fmap_last, last_lookup, length_seqZ.
      rewrite lookup_seqZ_lt by lia. simpl. f_equal. f_equal. lia. }
    cbn [mbind result_bind Py.bind]. rewrite Hhead, Hlast. simpl.
    eexists. split; [reflexivity|]. simpl. split; reflexivity.
  - intros Hpast.
    pose proof (advance_months_year (date_of now) n Hm ltac:(lia)) as Hrange.
    unfold MAXYEAR in *.
    assert (Hyear : year (date_of now) = 9999) by (fold final in Hrange; lia).
    set (i0 := 13 - month (date_of now)).
    assert (Hi0 : 1 <= i0 <= n).
    { unfold i0. split; [lia|]. unfold final, advance_months in Hpast. cbn [year] in Hpast.
      revert Hpast. Z.div_mod_to_equations. lia. }
    assert (Hsplit : seqZ 1 n = seqZ 1 (i0 - 1) ++ i0 :: seqZ (i0 + 1) (n - i0)).
    { replace n with ((i0 - 1) + (1 + (n - i0))) at 1 by lia.
      rewrite seqZ_app by lia. f_equal.
      replace (1 + (i0 - 1)) with i0 by lia.
      rewrite seqZ_cons by lia. f_equal. f_equal; lia. }
    rewrite Hsplit.
    rewrite (build_schedule_out_of_range now _ (seqZ 1 (i0 - 1)) i0); try assumption.
    + reflexivity.
    + apply Forall_seqZ. intros i Hi. split; [lia|].
      unfold advance_months, MAXYEAR. cbn [year]. unfold i0 in Hi.
      Z.div_mod_to_equations. lia.
    + lia.
    + unfold advance_months, MAXYEAR. cbn [year]. unfold i0.
      Z.div_mod_to_equations. lia.
Qed.

Lemma plan_within_calendar_witness :
  let now := DateTime (Date 9999 10 31) 8 0 0 in
  let final := advance_months (date_of now) 3 in
  (year final <= MAXYEAR ->
   exists plan,
     calculate_repayment_plan now 1000 3 = Ok plan /\
     schedule plan = scheduled now (installment_amount plan) <$> seqZ 1 3 /\
     last_due_date plan = VStr (strftime_ymd final)) /\
  (MAXYEAR < year final ->
   calculate_repayment_plan now 1000 3 = Raise (ValueError "year 10000 is out of range")).
Proof.
  apply (plan_within_calendar (DateTime (Date 9999 10 31) 8 0 0) 1000 3).
  - apply validb_valid. reflexivity.
  - lia.
Defined.

End PlanRange.

(* ===================================================================== *)
(** ** Membership: classes, eligibility and the life of an upgrade *)
(* ===================================================================== *)

Section ClassFacts.
Import Service MembershipService DateTime Spec.

(** The classes that have a rank. *)
Lemma class_order_ranked c :
  0 < class_order (CStr c) -> c = "A" \/ c = "B" \/ c = "C" \/ c = "D".
Proof.
  intros H.
  destruct (decide (c = "A")) as [->|HA]; [tauto|].
  destruct (decide (c = "B")) as [->|HB]; [tauto|].
  destruct (decide (c = "C")) as [->|HC]; [tauto|].
  destruct (decide (c = "D")) as [->|HD]; [tauto|].
  exfalso. unfold class_order, class_ranks in H.
  rewrite !lookup_insert_ne in H by congruence.
  rewrite lookup_singleton_ne in H by congruence. simpl in H. lia.
Qed.

Lemma class_order_nonneg c : 0 <= class_order c.
Proof.
  destruct c as [| | |c]; try (simpl; lia).
  destruct (decide (c = "A")) as [->|HA]; [vm_compute; discriminate|].
  destruct (decide (c = "B")) as [->|HB]; [vm_compute; discriminate|].
  destruct (decide (c = "C")) as [->|HC]; [vm_compute; discriminate|].
  destruct (decide (c = "D")) as [->|HD]; [vm_compute; discriminate|].
  unfold class_order, class_ranks.
  rewrite !lookup_insert_ne by congruence.
  rewrite lookup_singleton_ne by congruence. simpl. lia.
Qed.

End ClassFacts.

Section MembershipProperties.
Import Service MembershipService DateTime Spec Samples.

(** X16.  The two class tables agree: whenever [to_class] ranks above a
    ranked [from_class] in the order [request_class_upgrade] checks,
    [get_class_limits] gives [to_class] a strictly higher limit and a
    strictly higher monthly contribution, so no accepted upgrade of a
    member of class A to D lowers either. *)
Theorem upgrade_raises_limit (from_class to_class : string) :
  0 < class_order (CStr from_class) < class_order (CStr to_class) ->
  exists monthly limit monthly' limit',
    get_class_limits (CStr from_class) =
      {[ "monthly" := VFloat monthly; "limit" := VFloat limit ]} /\
    get_class_limits (CStr to_class) =
      {[ "monthly" := VFloat monthly'; "limit" := VFloat limit' ]} /\
    PrimFloat.ltb limit limit' = true /\ PrimFloat.ltb monthly monthly' = true.
Proof.
  intros [Hfrom Hto].
  destruct (class_order_ranked from_class Hfrom) as [-> | [-> | [-> | ->]]];
    (destruct (class_order_ranked to_class ltac:(lia)) as [-> | [-> | [-> | ->]]];
     [..]; try (exfalso; vm_compute in Hto; discriminate Hto));
    do 4 eexists; repeat split; reflexivity.
Qed.

Lemma upgrade_raises_limit_witness :
  exists monthly limit monthly' limit',
    get_class_limits (CStr "B") = {[ "monthly" := VFloat monthly; "limit" := VFloat limit ]} /\
    get_class_limits (CStr "D") = {[ "monthly" := VFloat monthly'; "limit" := VFloat limit' ]} /\
    PrimFloat.ltb limit limit' = true /\ PrimFloat.ltb monthly monthly' = true.
Proof.
  apply (upgrade_raises_limit "B" "D"). split; vm_compute; reflexivity.
Defined.

(** X17.  On the profiles table as [models/profiles.py] declares it,
    [check_eligibility] has two outcomes only: for a member without a
    profile the refusal ["Perfil não encontrado"], and for a member with a
    profile an [AttributeError] on [join_fee_paid], which the model does
    not declare.  Whatever it returns is a refusal: it never answers
    [eligible = True]. *)
Theorem check_eligibility_declared_model (db : Session) (user_id : string) :
  Forall (Models.instance_of Models.Profiles) (profiles db) ->
  (profile_of db user_id = None ->
   check_eligibility db user_id = Ok (ineligible "Perfil não encontrado")) /\
  (profile_of db user_id <> None ->
   check_eligibility db user_id = Raise (AttributeError "join_fee_paid")) /\
  (forall result, check_eligibility db user_id = Ok result ->
     result !! "eligible" = Some (VBool false)).
Proof.
  intros Hinst.
  assert (Hfound : forall profile, profile_of db user_id = Some profile ->
            check_eligibility db user_id = Raise (AttributeError "join_fee_paid")).
  { intros profile Hprof. apply (check_eligibility_profiles_row db user_id profile Hprof).
    rewrite Forall_forall in Hinst. apply Hinst.
    unfold profile_of in Hprof. apply head_Some_elem_of in Hprof.
    apply get_list_elem in Hprof. tauto. }
  pose proof (proj1 (check_eligibility_fails_closed db user_id)) as Hnone.
  split; [exact Hnone|]. split.
  - intros Hsome. destruct (profile_of db user_id) as [profile|]; [|contradiction].
    apply (Hfound profile). reflexivity.
  - intros result Hres. destruct (profile_of db user_id) as [profile|].
    + rewrite (Hfound profile eq_refl) in Hres. discriminate Hres.
    + rewrite (Hnone eq_refl) in Hres. injection Hres as <-. reflexivity.
Qed.

Lemma check_eligibility_declared_model_witness :
  (profile_of sample_db "u1" = None ->
   check_eligibility sample_db "u1" = Ok (ineligible "Perfil não encontrado")) /\
  (profile_of sample_db "u1" <> None ->
   check_eligibility sample_db "u1" = Raise (AttributeError "join_fee_paid")) /\
  (forall result, check_eligibility sample_db "u1" = Ok result ->
     result !! "eligible" = Some (VBool false)).
Proof.
  apply (check_eligibility_declared_model sample_db "u1").
  apply (proj1 sample_profiles_well_formed).
Defined.

End MembershipProperties.

Section UpgradeLifeFacts.
Import Service MembershipService DateTime Spec.

(** A call of [update] that raises leaves the table as it was. *)
Lemma update_raises_keeps_table (M : Model) obj_id update_data user_id db e db' :
  update M obj_id update_data user_id db = (Raise e, db') ->
  profiles db' = profiles db /\ class_upgrades db' = class_upgrades db.
Proof.
  unfold update. destruct (get_by_id M db obj_id user_id) as [[o|]|e0].
  - unfold mbind, io_mbind, io_bind, commit. destruct (fails_at 0 db); [|discriminate].
    intros [= _ <-]. split; reflexivity.
  - discriminate.
  - intros [= _ <-]. split; reflexivity.
Qed.

(** The count [process_monthly_payment] starts from. *)
Lemma as_int_count_or_none v c :
  (v = Null /\ c = 0) \/ v = CInt c -> as_int (or_else v (CInt 0)) = Ok c.
Proof. intros [[-> ->]| ->]; [reflexivity | apply as_int_count]. Qed.

(** The session once a payment is counted on the pending upgrade [u]:
    the table is well formed, the member has their profile, and the
    upgrade found for them is [u] with its new count. *)
Lemma counted_state user_id db db1 u uid k :
  well_formed Models.Class_upgrades (class_upgrades db) ->
  pending_upgrade db user_id = Some u -> u !! "id" = Some (CInt uid) ->
  class_upgrades db1 = flush (CInt uid) (counted u k) (class_upgrades db) ->
  profiles db1 = profiles db ->
  well_formed Models.Class_upgrades (class_upgrades db1) /\
  profile_of db1 user_id = profile_of db user_id /\
  pending_upgrade db1 user_id = Some (counted u k).
Proof.
  intros Hwf Hpend Hid Htab Hprof.
  assert (Hu : u ∈ class_upgrades db).
  { unfold pending_upgrade in Hpend. apply head_Some_elem_of in Hpend.
    apply get_list_elem in Hpend. tauto. }
  assert (Hid1 : counted u k !! "id" = Some (CInt uid)).
  { unfold counted. rewrite lookup_insert_ne by discriminate. exact Hid. }
  split; [|split].
  - rewrite Htab. apply flush_well_formed; try assumption.
    apply instance_insert.
    + destruct Hwf as (Hinst & _). rewrite Forall_forall in Hinst. apply Hinst, Hu.
    + destruct Hwf as (Hinst & _). rewrite Forall_forall in Hinst.
      apply (instance_has _ u _ (Hinst u Hu)). in_columns.
  - unfold profile_of, ProfilesService.get_list.
    rewrite (get_list_same_table Models.Profiles db db1); [reflexivity | exact Hprof].
  - unfold pending_upgrade, Class_upgradesService.get_list.
    erewrite (get_list_flush Models.Class_upgrades db db1 uid u (counted u k));
      try eassumption.
    + unfold pending_upgrade, Class_upgradesService.get_list in Hpend.
      destruct (items (get_list Models.Class_upgrades db 0 20 user_id pending_query))
        as [|x rest]; [discriminate|].
      simpl in Hpend. injection Hpend as ->. simpl.
      rewrite (proj2 (id_is_CInt uid u) Hid). reflexivity.
    + destruct Hwf as (_ & _ & Hnd). exact Hnd.
    + apply selected_counted.
Qed.

End UpgradeLifeFacts.

Section UpgradeLifeProperties.
Import Service MembershipService DateTime Spec Samples.

(** X19.  What [request_class_upgrade] can do.  Without a profile it
    raises ["Perfil não encontrado"] and leaves the session as it was.  It
    succeeds only for a member with a profile and no pending upgrade,
    when [to_class] is one of A, B, C, D and ranks strictly above the
    profile's class, and the commit of the record succeeded.  A request
    that raises, for whatever reason, leaves every profile as it was. *)
Theorem request_class_upgrade_outcomes (requested updated : datetime)
    (user_id to_class : string) (db : Session) :
  (profile_of db user_id = None ->
   request_class_upgrade requested updated user_id to_class db =
     (Raise (ValueError "Perfil não encontrado"), db)) /\
  (forall result db',
     request_class_upgrade requested updated user_id to_class db = (Ok result, db') ->
     to_class ∈ ["A"; "B"; "C"; "D"] /\
     pending_upgrade db user_id = None /\
     fails_at 0 db = false /\
     exists profile from_class,
       profile_of db user_id = Some profile /\
       profile !! "membership_class" = Some from_class /\
       class_order from_class < class_order (CStr to_class)) /\
  (forall e db',
     request_class_upgrade requested updated user_id to_class db = (Raise e, db') ->
     profiles db' = profiles db).
Proof.
  unfold profile_of, pending_upgrade, request_class_upgrade.
  destruct (items (ProfilesService.get_list db 0 1 user_id [])) as [|profile ?].
  { split; [reflexivity|]. split; [discriminate|]. intros e db' [= _ <-]. reflexivity. }
  split; [discriminate|].
  unfold mbind, io_mbind, io_bind, lift, getattr.
  destruct (profile !! "membership_class") as [from_class|] eqn:Eclass.
  2:{ split; [discriminate|]. intros e db' [= _ <-]. reflexivity. }
  destruct (class_order (CStr to_class) <=? class_order from_class) eqn:Eorder.
  { split; [discriminate|]. intros e db' [= _ <-]. reflexivity. }
  apply Z.leb_gt in Eorder.
  destruct (items (Class_upgradesService.get_list db 0 20 user_id pending_query)) as [|? ?].
  2:{ split; [discriminate|]. intros e db' [= _ <-]. reflexivity. }
  destruct (profile !! "id") as [profile_id|] eqn:Eid.
  2:{ split; [discriminate|]. intros e db' [= _ <-]. reflexivity. }
  rewrite create_requested_upgrade. cbn zeta.
  destruct (fails_at 0 db) eqn:E0.
  { split; [discriminate|]. intros e db' [= _ <-]. reflexivity. }
  set (new := requested_upgrade _ _ _ _ _ _).
  set (db2 := with_table Models.Class_upgrades (class_upgrades db ++ [new]) (attempted db)).
  split.
  - intros result db' _.
    split.
    { pose proof (class_order_nonneg from_class) as Hfrom.
      destruct (class_order_ranked to_class ltac:(lia)) as [-> | [-> | [-> | ->]]];
        repeat (first [apply list_elem_of_here | apply list_elem_of_further]). }
    split; [reflexivity|]. split; [reflexivity|].
    exists profile, from_class. split; [reflexivity|]. split; [exact Eclass | exact Eorder].
  - intros e db'.
    destruct (ProfilesService.update profile_id
                [("membership_class", CStr to_class);
                 ("updated_at", CStr (strftime_ymd_hms updated))] user_id db2)
      as [[updated_profile|e'] db3] eqn:Eupdate.
    + assert (Hnewid : new !! "id" = Some (CInt (next_id (class_upgrades db))))
        by reflexivity.
      rewrite Hnewid. discriminate.
    + intros [= _ <-]. apply update_raises_keeps_table in Eupdate as [Hp _]. exact Hp.
Qed.

(** X20.  A monthly payment for a member with a pending upgrade, by the
    outcome of its commits.  The count starts from the stored one, [None]
    standing for 0.  If the commit of the count fails the call raises and
    the table is as it was.  Otherwise the count is stored: below three
    the call reports normal success; from three on the upgrade is
    activated and stamped, unless the commit of the activation fails, in
    which case the call raises and the upgrade stays pending with the new
    count. *)
Theorem monthly_payment_by_commits (now : datetime) (user_id : string) (db : Session)
    (u : obj) (v : colval) (c : Z) :
  well_formed Models.Class_upgrades (class_upgrades db) ->
  profile_of db user_id <> None ->
  pending_upgrade db user_id = Some u ->
  u !! "payments_in_new_class" = Some v -> (v = Null /\ c = 0) \/ v = CInt c ->
  exists uid to_class,
    u !! "id" = Some (CInt uid) /\ u !! "to_class" = Some to_class /\
    let run := process_monthly_payment now user_id db in
    let u1 := counted u (c + 1) in
    (fails_at 0 db = true ->
       fst run = Raise DBAPIError /\ class_upgrades (snd run) = class_upgrades db) /\
    (fails_at 0 db = false -> c + 1 < 3 ->
       fst run = Ok normal_success /\
       class_upgrades (snd run) = flush (CInt uid) u1 (class_upgrades db) /\
       pending_upgrade (snd run) user_id = Some u1) /\
    (fails_at 0 db = false -> 3 <= c + 1 -> fails_at 1 db = true ->
       fst run = Raise DBAPIError /\
       class_upgrades (snd run) = flush (CInt uid) u1 (class_upgrades db) /\
       pending_upgrade (snd run) user_id = Some u1) /\
    (fails_at 0 db = false -> 3 <= c + 1 -> fails_at 1 db = false ->
       fst run = Ok (upgrade_activated to_class) /\
       class_upgrades (snd run) = flush (CInt uid) (activated u1 now) (class_upgrades db) /\
       activated u1 now !! "status" = Some (CStr "active") /\
       activated u1 now !! "payments_in_new_class" = Some (CInt (c + 1))).
Proof.
  intros Hwf Hprof Hpend Hv Hc.
  destruct (process_monthly_payment_pending now user_id db u v Hwf Hprof Hpend Hv)
    as (uid & to_class & Hid & Hto & Hrun).
  rewrite (as_int_count_or_none v c Hc) in Hrun.
  exists uid, to_class. split; [exact Hid|]. split; [exact Hto|].
  cbn zeta in *. rewrite Hrun.
  split; [intros ->; split; reflexivity|].
  split.
  { intros -> Hlt. destruct (3 <=? c + 1) eqn:E3; [apply Z.leb_le in E3; lia|].
    split; [reflexivity|]. split; [reflexivity|].
    eapply (counted_state user_id db); try eassumption; reflexivity. }
  split.
  { intros -> Hge ->. rewrite (proj2 (Z.leb_le _ _) Hge).
    split; [reflexivity|]. split; [reflexivity|].
    eapply (counted_state user_id db); try eassumption; reflexivity. }
  intros -> Hge ->. rewrite (proj2 (Z.leb_le _ _) Hge).
  split; [reflexivity|]. split; [reflexivity|].
  unfold activated, counted. split.
  - rewrite lookup_insert_ne by discriminate. apply lookup_insert_eq.
  - rewrite !lookup_insert_ne by discriminate. apply lookup_insert_eq.
Qed.

Lemma monthly_payment_by_commits_witness :
  exists uid to_class,
    sample_upgrade !! "id" = Some (CInt uid) /\
    sample_upgrade !! "to_class" = Some to_class /\
    let run := process_monthly_payment sample_now "u1" sample_db_pending in
    let u1 := counted sample_upgrade (0 + 1) in
    (fails_at 0 sample_db_pending = true ->
       fst run = Raise DBAPIError /\
       class_upgrades (snd run) = class_upgrades sample_db_pending) /\
    (fails_at 0 sample_db_pending = false -> 0 + 1 < 3 ->
       fst run = Ok normal_success /\
       class_upgrades (snd run) = flush (CInt uid) u1 (class_upgrades sample_db_pending) /\
       pending_upgrade (snd run) "u1" = Some u1) /\
    (fails_at 0 sample_db_pending = false -> 3 <= 0 + 1 ->
     fails_at 1 sample_db_pending = true ->
       fst run = Raise DBAPIError /\
       class_upgrades (snd run) = flush (CInt uid) u1 (class_upgrades sample_db_pending) /\
       pending_upgrade (snd run) "u1" = Some u1) /\
    (fails_at 0 sample_db_pending = false -> 3 <= 0 + 1 ->
     fails_at 1 sample_db_pending = false ->
       fst run = Ok (upgrade_activated to_class) /\
       class_upgrades (snd run) =
         flush (CInt uid) (activated u1 sample_now) (class_upgrades sample_db_pending) /\
       activated u1 sample_now !! "status" = Some (CStr "active") /\
       activated u1 sample_now !! "payments_in_new_class" = Some (CInt (0 + 1))).
Proof.
  apply (monthly_payment_by_commits sample_now "u1" sample_db_pending sample_upgrade
           (CInt 0) 0).
  - apply sample_upgrades_well_formed.
  - apply is_Some_true. reflexivity.
  - reflexivity.
  - reflexivity.
  - right. reflexivity.
Defined.

End UpgradeLifeProperties.

Section LifecycleFacts.
Import Service MembershipService DateTime Spec.

Lemma commits_succeed_later db db1 n :
  (forall k, fails_at (n + k) db = false) ->
  (forall k, fails_at k db1 = fails_at (n + k) db) ->
  commits_succeed db1.
Proof. intros Hok Hshift k. rewrite Hshift. apply Hok. Qed.

(** No row of the table answers the query when [get_list] returns no item
    for a positive [limit]. *)
Lemma get_list_empty (M : Model) db limit user_id query_dict :
  (0 < limit)%nat ->
  items (get_list M db 0 limit user_id query_dict) = [] ->
  filter (fun r => selected M user_id query_dict r = true) (table M db) = [].
Proof.
  intros Hlimit. rewrite items_get_list, drop_0. intros Hnil.
  apply Permutation_nil_r. rewrite <- (order_by_id_desc_perm _).
  destruct (order_by_id_desc _) as [|x rest]; [reflexivity|].
  destruct limit; [lia | discriminate Hnil].
Qed.

Lemma get_list_none (M : Model) db skip limit user_id query_dict :
  filter (fun r => selected M user_id query_dict r = true) (table M db) = [] ->
  items (get_list M db skip limit user_id query_dict) = [].
Proof.
  intros Hnil. rewrite items_get_list, Hnil. simpl. rewrite drop_nil. apply take_nil.
Qed.

(** The record of a request is an upgrade record, pending, with no
    payment counted. *)
Lemma requested_upgrade_instance id user_id profile_id from_class to_class requested_at :
  Models.instance_of Models.Class_upgrades
    (requested_upgrade id user_id profile_id from_class to_class requested_at).
Proof. apply instance_of_dom. reflexivity. Qed.

Lemma requested_upgrade_selected id user_id profile_id from_class to_class requested_at :
  selected Models.Class_upgrades user_id pending_query
    (requested_upgrade id user_id profile_id from_class to_class requested_at) = true.
Proof.
  set (r := requested_upgrade id user_id profile_id from_class to_class requested_at).
  assert (Hu : r !! "user_id" = Some (CStr user_id)) by reflexivity.
  assert (Hs : r !! "status" = Some (CStr "pending")) by reflexivity.
  clearbody r. unfold selected, owned_by, pending_query. simpl.
  rewrite Hu, Hs. simpl. rewrite String.eqb_refl, orb_true_r. reflexivity.
Qed.

(** The member's pending upgrade once the record of a request is stored,
    when none was pending. *)
Lemma pending_is_new db db0 user_id (new : obj) :
  pending_upgrade db user_id = None ->
  class_upgrades db0 = class_upgrades db ++ [new] ->
  selected Models.Class_upgrades user_id pending_query new = true ->
  pending_upgrade db0 user_id = Some new.
Proof.
  intros Hnone Htab Hsel. unfold pending_upgrade in *.
  apply head_None in Hnone.
  apply (get_list_empty Models.Class_upgrades) in Hnone; [|lia]. simpl in Hnone.
  unfold Class_upgradesService.get_list. rewrite items_get_list. simpl table.
  rewrite Htab, filter_app, Hnone. rewrite filter_cons_True by exact Hsel.
  reflexivity.
Qed.

(** ... and once that record is activated, no upgrade of the member is
    pending. *)
Lemma pending_is_none db db3 user_id (new act : obj) uid :
  pending_upgrade db user_id = None ->
  new !! "id" = Some (CInt uid) ->
  class_upgrades db3 = flush (CInt uid) act (class_upgrades db ++ [new]) ->
  act !! "status" = Some (CStr "active") ->
  pending_upgrade db3 user_id = None.
Proof.
  intros Hnone Hid Htab Hact. unfold pending_upgrade in *.
  apply head_None in Hnone.
  apply (get_list_empty Models.Class_upgrades) in Hnone; [|lia]. simpl in Hnone.
  unfold Class_upgradesService.get_list.
  rewrite (get_list_none Models.Class_upgrades); [reflexivity|]. simpl table.
  apply filter_none. intros x Hx. rewrite Htab in Hx. unfold flush in Hx.
  apply list_elem_of_fmap in Hx as (r & -> & Hr).
  destruct (id_is (CInt uid) r) eqn:E.
  - unfold selected, pending_query. simpl. rewrite Hact. simpl. apply andb_false_r.
  - apply elem_of_app in Hr as [Hr|Hr].
    + destruct (selected Models.Class_upgrades user_id pending_query r) eqn:Es; [|reflexivity].
      assert (Hin : r ∈ filter (fun r => selected Models.Class_upgrades user_id pending_query r = true)
                        (class_upgrades db)) by (apply list_elem_of_filter; split; assumption).
      rewrite Hnone in Hin. inversion Hin.
    + apply list_elem_of_singleton in Hr. subst r.
      rewrite (proj2 (id_is_CInt uid new) Hid) in E. discriminate E.
Qed.

(** The member's profile once its row is replaced by one of the same
    owner. *)
Lemma profile_of_flush db db0 user_id (profile profile' : obj) pid :
  NoDup (row_id <$> profiles db) ->
  profile_of db user_id = Some profile ->
  profile !! "id" = Some (CInt pid) -> profile' !! "id" = Some (CInt pid) ->
  profile' !! "user_id" = profile !! "user_id" ->
  profiles db0 = flush (CInt pid) profile' (profiles db) ->
  profile_of db0 user_id = Some profile'.
Proof.
  intros Hnd Hprof Hid Hid' Huser Htab.
  assert (Hp : profile ∈ profiles db).
  { unfold profile_of in Hprof. apply head_Some_elem_of in Hprof.
    apply get_list_elem in Hprof. tauto. }
  unfold profile_of, ProfilesService.get_list in *.
  erewrite (get_list_flush Models.Profiles db db0 pid profile profile'); try eassumption.
  - destruct (items (get_list Models.Profiles db 0 1 user_id [])) as [|x rest]; [discriminate|].
    simpl in Hprof. injection Hprof as ->. simpl.
    rewrite (proj2 (id_is_CInt pid profile) Hid). reflexivity.
  - unfold selected. rewrite (owned_by_same_user user_id profile profile' Huser). reflexivity.
Qed.

Lemma profile_of_same_profiles db db' user_id :
  profiles db' = profiles db -> profile_of db' user_id = profile_of db user_id.
Proof.
  intros H. unfold profile_of, ProfilesService.get_list.
  rewrite (get_list_same_table Models.Profiles db db'); [reflexivity | exact H].
Qed.

(** A payment for a member with a profile and no pending upgrade. *)
Lemma process_monthly_payment_idle now user_id db :
  profile_of db user_id <> None -> pending_upgrade db user_id = None ->
  process_monthly_payment now user_id db = (Ok normal_success, db).
Proof.
  unfold profile_of, pending_upgrade, process_monthly_payment. intros Hprof Hnone.
  destruct (items (ProfilesService.get_list db 0 1 user_id [])) as [|p ?]; [contradiction|].
  destruct (items (Class_upgradesService.get_list db 0 20 user_id pending_query));
    [reflexivity | discriminate Hnone].
Qed.

End LifecycleFacts.

Section LifecycleProperties.
Import Service MembershipService DateTime Spec Samples.

(** X21.  An activation that failed is made up for by the next payment.
    When the payment that brings the count to three or more has its count
    committed and its activation refused, it raises and leaves the upgrade
    pending with the new count; the next payment, its commits succeeding,
    counts one more and activates the upgrade, because the check is
    [new_payments >= 3] and not [== 3]. *)
Theorem activation_retried (now1 now2 : datetime) (user_id : string) (db : Session)
    (u : obj) (c : Z) :
  well_formed Models.Class_upgrades (class_upgrades db) ->
  profile_of db user_id <> None ->
  pending_upgrade db user_id = Some u ->
  u !! "payments_in_new_class" = Some (CInt c) -> 2 <= c ->
  fails_at 0 db = false -> fails_at 1 db = true ->
  (forall k, fails_at (2 + k) db = false) ->
  exists to_class db1 db2,
    process_monthly_payment now1 user_id db = (Raise DBAPIError, db1) /\
    pending_upgrade db1 user_id = Some (counted u (c + 1)) /\
    counted u (c + 1) !! "status" = Some (CStr "pending") /\
    process_monthly_payment now2 user_id db1 = (Ok (upgrade_activated to_class), db2) /\
    activated (counted u (c + 2)) now2 ∈ class_upgrades db2 /\
    activated (counted u (c + 2)) now2 !! "status" = Some (CStr "active") /\
    pending_upgrade db2 user_id <> Some (activated (counted u (c + 2)) now2).
Proof.
  intros Hwf Hprof Hpend Hcount Hc H0 H1 Hlater.
  destruct (process_monthly_payment_pending now1 user_id db u (CInt c) Hwf Hprof Hpend Hcount)
    as (uid & to_class & Hid & Hto & Hrun).
  rewrite as_int_count in Hrun. cbn zeta in Hrun.
  rewrite H0, H1, (proj2 (Z.leb_le 3 (c + 1))) in Hrun by lia.
  set (db1 := attempted (with_table Models.Class_upgrades
                           (flush (CInt uid) (counted u (c + 1)) (class_upgrades db))
                           (attempted db))) in Hrun.
  destruct (counted_state user_id db db1 u uid (c + 1) Hwf Hpend Hid eq_refl eq_refl)
    as (Hwf1 & Hprof1 & Hpend1).
  assert (Hok1 : commits_succeed db1).
  { apply (commits_succeed_later db db1 2 Hlater). intros k.
    unfold db1. rewrite fails_at_attempted.
    change (fails_at (S k) (attempted db) = fails_at (2 + k) db).
    rewrite fails_at_attempted. reflexivity. }
  assert (Hstatus : u !! "status" = Some (CStr "pending")).
  { unfold pending_upgrade in Hpend. apply head_Some_elem_of in Hpend.
    apply get_list_elem in Hpend as [_ Hsel]. apply selected_pending in Hsel. tauto. }
  assert (Hcount1 : counted u (c + 1) !! "payments_in_new_class" = Some (CInt (c + 1)))
    by (unfold counted; apply lookup_insert_eq).
  destruct (payment_activates now2 user_id db1 (counted u (c + 1)) (c + 1) Hwf1 Hok1)
    as (uid2 & to_class2 & db2 & Hid2 & Hto2 & Hrun2 & Htab2 & Hin2);
    [rewrite Hprof1; exact Hprof | exact Hpend1 | exact Hcount1 | lia |].
  rewrite counted_counted in Htab2, Hin2.
  replace (c + 1 + 1) with (c + 2) in Htab2, Hin2 by lia.
  assert (to_class2 = to_class) as ->.
  { unfold counted in Hto2. rewrite lookup_insert_ne in Hto2 by discriminate. congruence. }
  assert (Hact : activated (counted u (c + 2)) now2 !! "status" = Some (CStr "active")).
  { unfold activated. rewrite lookup_insert_ne by discriminate. apply lookup_insert_eq. }
  exists to_class, db1, db2. split; [exact Hrun|]. split; [exact Hpend1|]. split.
  { unfold counted. rewrite lookup_insert_ne by discriminate. exact Hstatus. }
  split; [exact Hrun2|]. split; [exact Hin2|]. split; [exact Hact|].
  intros Hp. unfold pending_upgrade in Hp. apply head_Some_elem_of in Hp.
  apply get_list_elem in Hp as [_ Hsel]. apply selected_pending in Hsel as [_ Hs].
  congruence.
Qed.

Lemma activation_retried_witness :
  let db := {| profiles := [sample_profile];
               class_upgrades := [counted sample_upgrade 2];
               commit_faults := [false; true] |} in
  exists to_class db1 db2,
    process_monthly_payment sample_now "u1" db = (Raise DBAPIError, db1) /\
    pending_upgrade db1 "u1" = Some (counted (counted sample_upgrade 2) (2 + 1)) /\
    counted (counted sample_upgrade 2) (2 + 1) !! "status" = Some (CStr "pending") /\
    process_monthly_payment sample_now "u1" db1 = (Ok (upgrade_activated to_class), db2) /\
    activated (counted (counted sample_upgrade 2) (2 + 2)) sample_now ∈ class_upgrades db2 /\
    activated (counted (counted sample_upgrade 2) (2 + 2)) sample_now !! "status" =
      Some (CStr "active") /\
    pending_upgrade db2 "u1" <> Some (activated (counted (counted sample_upgrade 2) (2 + 2)) sample_now).
Proof.
  apply (activation_retried sample_now sample_now "u1"
           {| profiles := [sample_profile];
              class_upgrades := [counted sample_upgrade 2];
              commit_faults := [false; true] |}
           (counted sample_upgrade 2) 2).
  - split; [|split].
    + apply Forall_cons_2; [|apply Forall_nil_2]. apply instance_of_dom. reflexivity.
    + apply Forall_cons_2; [|apply Forall_nil_2]. eexists; reflexivity.
    + apply NoDup_singleton.
  - apply is_Some_true. reflexivity.
  - reflexivity.
  - reflexivity.
  - lia.
  - reflexivity.
  - reflexivity.
  - intros [|[|k]]; reflexivity.
Defined.

(** X22.  The life of an upgrade, from request to activation.  For a
    member with a profile and no pending upgrade, on well formed tables
    and with every commit succeeding, a request for a class that ranks
    higher succeeds and leaves the member with the profile in the new
    class and the new record pending; the next two monthly payments report
    normal success, the third activates the record; after that the member
    has no pending upgrade, the profile is still in the new class, and a
    further payment reports normal success and changes nothing. *)
Theorem upgrade_lifecycle (requested updated now1 now2 now3 now4 : datetime)
    (user_id to_class : string) (db : Session) (profile : obj) (from_class : colval) :
  well_formed Models.Profiles (profiles db) ->
  well_formed Models.Class_upgrades (class_upgrades db) ->
  commits_succeed db ->
  profile_of db user_id = Some profile ->
  profile !! "membership_class" = Some from_class ->
  class_order from_class < class_order (CStr to_class) ->
  pending_upgrade db user_id = None ->
  exists result new db0 db1 db2 db3,
    request_class_upgrade requested updated user_id to_class db = (Ok result, db0) /\
    profile_of db0 user_id = Some (reclassified profile to_class updated) /\
    pending_upgrade db0 user_id = Some new /\
    new !! "to_class" = Some (CStr to_class) /\
    new !! "payments_in_new_class" = Some (CInt 0) /\
    process_monthly_payment now1 user_id db0 = (Ok normal_success, db1) /\
    process_monthly_payment now2 user_id db1 = (Ok normal_success, db2) /\
    process_monthly_payment now3 user_id db2 =
      (Ok (upgrade_activated (CStr to_class)), db3) /\
    activated (counted new 3) now3 ∈ class_upgrades db3 /\
    pending_upgrade db3 user_id = None /\
    profile_of db3 user_id = Some (reclassified profile to_class updated) /\
    reclassified profile to_class updated !! "membership_class" = Some (CStr to_class) /\
    process_monthly_payment now4 user_id db3 = (Ok normal_success, db3).
Proof.
  intros Hwfp Hwfu Hok Hprof Hclass Horder Hnone.
  destruct (request_class_upgrade_valid requested updated user_id to_class db profile
              from_class Hwfp Hprof Hclass Horder Hnone) as (pid & Hpid & Hrun).
  cbn zeta in Hrun. rewrite (Hok 0%nat), (Hok 1%nat) in Hrun.
  set (uid := next_id (class_upgrades db)) in *.
  set (new := requested_upgrade uid user_id (CInt pid) from_class to_class
                (strftime_ymd_hms requested)) in *.
  set (profile' := reclassified profile to_class updated) in *.
  set (db0 := with_table Models.Profiles (flush (CInt pid) profile' (profiles db))
                (attempted (with_table Models.Class_upgrades (class_upgrades db ++ [new])
                              (attempted db)))) in *.
  assert (Hnewid : new !! "id" = Some (CInt uid)) by reflexivity.
  assert (Hwf0 : well_formed Models.Class_upgrades (class_upgrades db0)).
  { destruct Hwfu as (Hinst & Hids & Hnd). split; [|split]; simpl.
    - apply Forall_app. split; [exact Hinst|].
      apply Forall_cons_2; [apply requested_upgrade_instance | apply Forall_nil_2].
    - apply Forall_app. split; [exact Hids|].
      apply Forall_cons_2; [eexists; exact Hnewid | apply Forall_nil_2].
    - apply next_id_new_row; assumption. }
  assert (Hok0 : commits_succeed db0).
  { apply (commits_succeed_later db db0 2); [intros k; apply Hok|]. intros k.
    change (fails_at k (attempted (attempted db)) = fails_at (2 + k) db).
    rewrite !fails_at_attempted. reflexivity. }
  assert (Hprof0 : profile_of db0 user_id = Some profile').
  { apply (profile_of_flush db db0 user_id profile profile' pid); try assumption.
    - destruct Hwfp as (_ & _ & Hnd). exact Hnd.
    - unfold profile', reclassified. rewrite !lookup_insert_ne by discriminate. exact Hpid.
    - unfold profile', reclassified. rewrite !lookup_insert_ne by discriminate. reflexivity.
    - reflexivity. }
  assert (Hpend0 : pending_upgrade db0 user_id = Some new).
  { apply (pending_is_new db db0 user_id new Hnone); [reflexivity|].
    apply requested_upgrade_selected. }
  assert (Hprofs0 : profile_of db0 user_id <> None) by (rewrite Hprof0; discriminate).
  destruct (payment_counted now1 user_id db0 new 0 Hwf0 Hok0 Hprofs0 Hpend0 eq_refl ltac:(lia))
    as (uid1 & db1 & Hid1 & Hrun1 & Htab1 & Hwf1 & Hok1 & Hprof1 & Hpend1).
  assert (uid1 = uid) as -> by congruence.
  assert (Hpay1 : counted new (0 + 1) !! "payments_in_new_class" = Some (CInt 1))
    by (unfold counted; apply lookup_insert_eq).
  destruct (payment_counted now2 user_id db1 _ 1 Hwf1 Hok1 Hprof1 Hpend1 Hpay1 ltac:(lia))
    as (uid2 & db2 & Hid2 & Hrun2 & Htab2 & Hwf2 & Hok2 & Hprof2 & Hpend2).
  rewrite counted_counted in Hpend2, Htab2.
  assert (Hpay2 : counted new (1 + 1) !! "payments_in_new_class" = Some (CInt 2))
    by (unfold counted; apply lookup_insert_eq).
  destruct (payment_activates now3 user_id db2 _ 2 Hwf2 Hok2 Hprof2 Hpend2 Hpay2 ltac:(lia))
    as (uid3 & to_class3 & db3 & Hid3 & Hto3 & Hrun3 & Htab3 & Hin3).
  rewrite counted_counted in Htab3, Hin3.
  assert (uid2 = uid) as ->.
  { unfold counted in Hid2. rewrite lookup_insert_ne in Hid2 by discriminate. congruence. }
  assert (uid3 = uid) as ->.
  { unfold counted in Hid3. rewrite lookup_insert_ne in Hid3 by discriminate. congruence. }
  assert (to_class3 = CStr to_class) as ->.
  { unfold counted in Hto3. rewrite lookup_insert_ne in Hto3 by discriminate.
    assert (Hto : new !! "to_class" = Some (CStr to_class)) by reflexivity. congruence. }
  change (0 + 1) with 1 in *. change (1 + 1) with 2 in *. change (2 + 1) with 3 in *.
  assert (Htab : class_upgrades db3 =
                 flush (CInt uid) (activated (counted new 3) now3) (class_upgrades db ++ [new])).
  { rewrite Htab3, Htab2, Htab1.
    rewrite !flush_flush;
      [reflexivity | | ];
      unfold counted; rewrite lookup_insert_ne by discriminate; exact Hnewid. }
  assert (Hnone3 : pending_upgrade db3 user_id = None).
  { apply (pending_is_none db db3 user_id new (activated (counted new 3) now3) uid Hnone Hnewid Htab).
    unfold activated. rewrite lookup_insert_ne by discriminate. apply lookup_insert_eq. }
  assert (Hprofiles : profiles db3 = profiles db0).
  { pose proof (process_monthly_payment_keeps_profiles now1 user_id db0) as K1.
    pose proof (process_monthly_payment_keeps_profiles now2 user_id db1) as K2.
    pose proof (process_monthly_payment_keeps_profiles now3 user_id db2) as K3.
    rewrite Hrun1 in K1. rewrite Hrun2 in K2. rewrite Hrun3 in K3. cbn [snd] in K1, K2, K3.
    rewrite K3, K2, K1. reflexivity. }
  assert (Hprof3 : profile_of db3 user_id = Some profile').
  { rewrite (profile_of_same_profiles db0 db3 user_id Hprofiles). exact Hprof0. }
  eexists. exists new, db0, db1, db2, db3.
  split; [exact Hrun|]. split; [exact Hprof0|]. split; [exact Hpend0|].
  split; [reflexivity|]. split; [reflexivity|].
  split; [exact Hrun1|]. split; [exact Hrun2|]. split; [exact Hrun3|].
  split; [exact Hin3|]. split; [exact Hnone3|]. split; [exact Hprof3|]. split.
  { unfold profile', reclassified. rewrite lookup_insert_ne by discriminate.
    apply lookup_insert_eq. }
  apply process_monthly_payment_idle; [rewrite Hprof3; discriminate | exact Hnone3].
Qed.

Lemma upgrade_lifecycle_witness :
  exists result new db0 db1 db2 db3,
    request_class_upgrade sample_now sample_now "u1" "C" sample_db = (Ok result, db0) /\
    profile_of db0 "u1" = Some (reclassified sample_profile "C" sample_now) /\
    pending_upgrade db0 "u1" = Some new /\
    new !! "to_class" = Some (CStr "C") /\
    new !! "payments_in_new_class" = Some (CInt 0) /\
    process_monthly_payment sample_now "u1" db0 = (Ok normal_success, db1) /\
    process_monthly_payment sample_now "u1" db1 = (Ok normal_success, db2) /\
    process_monthly_payment sample_now "u1" db2 =
      (Ok (upgrade_activated (CStr "C")), db3) /\
    activated (counted new 3) sample_now ∈ class_upgrades db3 /\
    pending_upgrade db3 "u1" = None /\
    profile_of db3 "u1" = Some (reclassified sample_profile "C" sample_now) /\
    reclassified sample_profile "C" sample_now !! "membership_class" = Some (CStr "C") /\
    process_monthly_payment sample_now "u1" db3 = (Ok normal_success, db3).
Proof.
  apply (upgrade_lifecycle sample_now sample_now sample_now sample_now sample_now sample_now
           "u1" "C" sample_db sample_profile (CStr "A")).
  - apply sample_profiles_well_formed.
  - split; [|split]; [apply Forall_nil_2 | apply Forall_nil_2 | apply NoDup_nil_2].
  - apply sample_commits_succeed.
  - reflexivity.
  - reflexivity.
  - reflexivity.
  - reflexivity.
Defined.

End LifecycleProperties.

Section FrameFacts.
Import Service MembershipService DateTime Spec.

(** Replacing the row an update found by the object it assigned to
    leaves the other rows as they were. *)
Lemma flush_assign_frame (rows : list obj) obj_id o update_data :
  NoDup (row_id <$> rows) -> o ∈ rows -> id_is obj_id o = true ->
  Forall2 (fun row row' =>
             row' = row \/
             (row = o /\ forall name, name ∉ keys update_data -> row' !! name = row !! name))
          rows (flush obj_id (assign o update_data) rows).
Proof.
  intros Hnd Hin Hid. unfold flush.
  apply Forall2_fmap_r, Forall_Forall2_diag, Forall_forall. intros row Hrow.
  destruct (id_is obj_id row) eqn:E; simpl; rewrite E; [|left; reflexivity].
  right. assert (row = o) as -> by (apply (id_is_same_row rows obj_id); assumption).
  split; [reflexivity|]. intros name Hname. apply assign_other, Hname.
Qed.

End FrameFacts.

Section FrameProperties.
Import Service MembershipService DateTime Spec Samples.

(** X23.  [create] stores one row or nothing.  Whatever the data, the
    caller and the outcome of the commit: the profiles are untouched; a
    call that returns an object has appended exactly that object to the
    table, under a key no other row has; a call that raises, be it for a
    keyword the class has no attribute for, a key already taken or a
    commit that failed, leaves the table as it was. *)
Theorem create_appends_or_nothing (data : list (string * colval)) (user_id : string)
    (db : Session) :
  let run := Class_upgradesService.create data user_id db in
  profiles (snd run) = profiles db /\
  (forall o, fst run = Ok o ->
     class_upgrades (snd run) = class_upgrades db ++ [o] /\
     forall r, r ∈ class_upgrades db -> row_id r <> row_id o) /\
  (forall e, fst run = Raise e -> class_upgrades (snd run) = class_upgrades db).
Proof.
  cbn zeta. unfold Class_upgradesService.create, create.
  destruct (construct Models.Class_upgrades _ _) as [o0|e0].
  2:{ split; [reflexivity|]. split; [intros o H; discriminate H | intros e _; reflexivity]. }
  change (table Models.Class_upgrades db) with (class_upgrades db).
  set (o1 := if colval_eqb (default Null (o0 !! "id")) Null
             then setattr o0 "id" (CInt (next_id (class_upgrades db))) else o0).
  destruct (existsb (fun r => row_id r =? row_id o1) (class_upgrades db)) eqn:Edup.
  { split; [reflexivity|]. split; [intros o H; discriminate H | intros e _; reflexivity]. }
  unfold mbind, io_mbind, io_bind, commit, mret, io_mret, io_ret.
  destruct (fails_at 0 db).
  { split; [reflexivity|]. split; [intros o H; discriminate H | intros e _; reflexivity]. }
  split; [reflexivity|]. split; [|intros e H; discriminate H].
  intros o [= <-]. split; [reflexivity|].
  intros r Hr Heq.
  assert (Hex : existsb (fun r => row_id r =? row_id o1) (class_upgrades db) = true).
  { apply existsb_exists. exists r. split; [apply list_elem_of_In, Hr | apply Z.eqb_eq, Heq]. }
  congruence.
Qed.

(** X24.  What [request_class_upgrade] can change.  Whatever it returns
    or raises, on profiles with distinct keys: the upgrades table is as it
    was or has one more row, a pending record of the member; no profile
    is added or removed, and the only profile that can change is the one
    found for the member, in [membership_class] and [updated_at] only. *)
Theorem request_class_upgrade_frame (requested updated : datetime)
    (user_id to_class : string) (db : Session) :
  NoDup (row_id <$> profiles db) ->
  let run := request_class_upgrade requested updated user_id to_class db in
  (class_upgrades (snd run) = class_upgrades db \/
   exists new,
     class_upgrades (snd run) = class_upgrades db ++ [new] /\
     new !! "user_id" = Some (CStr user_id) /\
     new !! "status" = Some (CStr "pending") /\
     new !! "payments_in_new_class" = Some (CInt 0)) /\
  Forall2 (fun row row' =>
             row' = row \/
             (profile_of db user_id = Some row /\
              forall name, name <> "membership_class" -> name <> "updated_at" ->
                row' !! name = row !! name))
          (profiles db) (profiles (snd run)).
Proof.
  intros Hnd. cbn zeta. unfold profile_of, request_class_upgrade.
  destruct (items (ProfilesService.get_list db 0 1 user_id [])) as [|profile ?] eqn:Eitems.
  { split; [left; reflexivity | apply unchanged_frame]. }
  assert (Hp : profile ∈ profiles db).
  { assert (Hin : profile ∈ items (ProfilesService.get_list db 0 1 user_id []))
      by (rewrite Eitems; left).
    apply get_list_elem in Hin. tauto. }
  unfold mbind, io_mbind, io_bind, lift, getattr.
  destruct (profile !! "membership_class") as [from_class|];
    [|split; [left; reflexivity | apply unchanged_frame]].
  destruct (class_order (CStr to_class) <=? class_order from_class);
    [split; [left; reflexivity | apply unchanged_frame]|].
  destruct (items (Class_upgradesService.get_list db 0 20 user_id pending_query)) as [|? ?];
    [|split; [left; reflexivity | apply unchanged_frame]].
  destruct (profile !! "id") as [profile_id|] eqn:Eid;
    [|split; [left; reflexivity | apply unchanged_frame]].
  rewrite create_requested_upgrade. cbn zeta.
  destruct (fails_at 0 db); [split; [left; reflexivity | apply unchanged_frame]|].
  set (new := requested_upgrade _ _ _ _ _ _).
  set (db2 := with_table Models.Class_upgrades (class_upgrades db ++ [new]) (attempted db)).
  set (update_data := [("membership_class", CStr to_class);
                       ("updated_at", CStr (strftime_ymd_hms updated))]).
  assert (Hnew : class_upgrades db2 = class_upgrades db ++ [new] /\
                 new !! "user_id" = Some (CStr user_id) /\
                 new !! "status" = Some (CStr "pending") /\
                 new !! "payments_in_new_class" = Some (CInt 0))
    by (repeat split; reflexivity).
  assert (Hnewid : new !! "id" = Some (CInt (next_id (class_upgrades db)))) by reflexivity.
  pose proof (update_profile_keeps_upgrades profile_id update_data user_id db2) as Hkeep.
  unfold ProfilesService.update, update in *.
  change (table Models.Profiles db2) with (profiles db) in *.
  destruct (get_by_id Models.Profiles db2 profile_id user_id) as [[o|]|e] eqn:Eget.
  - apply get_by_id_Some in Eget as (Hin & Hid & Hown).
    change (table Models.Profiles db2) with (profiles db) in Hin.
    assert (Hprofile : id_is profile_id profile = true).
    { unfold id_is in *. apply andb_true_iff in Hid as [Hne _]. rewrite Hne, Eid. simpl.
      apply colval_eqb_eq. reflexivity. }
    assert (o = profile) as ->
      by (apply (id_is_same_row (profiles db) profile_id); assumption).
    unfold mbind, io_mbind, io_bind, commit, mret, io_mret, io_ret in *.
    destruct (fails_at 0 db2).
    + cbn [fst snd] in *. split; [right; exists new; exact Hnew | apply unchanged_frame].
    + cbn [fst snd] in *. rewrite Hnewid. cbn [fst snd].
      split; [right; exists new; exact Hnew|].
      change (profiles (with_table Models.Profiles
                          (flush profile_id (assign profile update_data) (profiles db))
                          (attempted db2)))
        with (flush profile_id (assign profile update_data) (profiles db)).
      eapply Forall2_impl; [apply (flush_assign_frame (profiles db) profile_id profile);
                            assumption|].
      intros row row' [-> | [-> Hsame]]; [left; reflexivity|]. right.
      split; [reflexivity|]. intros name H1 H2. apply Hsame.
      unfold update_data, keys. simpl. intros H.
      apply elem_of_cons in H as [H|H]; [congruence|].
      apply list_elem_of_singleton in H. congruence.
  - cbn [fst snd] in *. rewrite Hnewid. cbn [fst snd].
    split; [right; exists new; exact Hnew | apply unchanged_frame].
  - cbn [fst snd] in *. split; [right; exists new; exact Hnew | apply unchanged_frame].
Qed.

Lemma request_class_upgrade_frame_witness :
  let run := request_class_upgrade sample_now sample_now "u1" "B" sample_db in
  (class_upgrades (snd run) = class_upgrades sample_db \/
   exists new,
     class_upgrades (snd run) = class_upgrades sample_db ++ [new] /\
     new !! "user_id" = Some (CStr "u1") /\
     new !! "status" = Some (CStr "pending") /\
     new !! "payments_in_new_class" = Some (CInt 0)) /\
  Forall2 (fun row row' =>
             row' = row \/
             (profile_of sample_db "u1" = Some row /\
              forall name, name <> "membership_class" -> name <> "updated_at" ->
                row' !! name = row !! name))
          (profiles sample_db) (profiles (snd run)).
Proof.
  apply (request_class_upgrade_frame sample_now sample_now "u1" "B" sample_db).
  simpl. apply NoDup_singleton.
Defined.

End FrameProperties.

(* ===================================================================== *)
(** ** The routes of [class_upgrades] *)
(* ===================================================================== *)

Section RouterFacts.
Import Service Class_upgradesRouter Spec.

Lemma model_dump_keys data :
  keys (model_dump data) =
  ["profile_id"; "from_class"; "to_class"; "status"; "payments_in_new_class";
   "requested_at"; "activated_at"].
Proof. reflexivity. Qed.

Lemma model_dump_NoDup data : NoDup (keys (model_dump data)).
Proof.
  rewrite model_dump_keys.
  repeat (apply NoDup_cons_2;
          [intros H; apply list_elem_of_In in H; simpl in H; intuition discriminate|]).
  apply NoDup_nil_2.
Qed.

(** The fields of the body are columns, and neither the key nor the
    owner. *)
Lemma model_dump_columns data name :
  name ∈ keys (model_dump data) ->
  name ∈ columns Models.Class_upgrades /\ name <> "id" /\ name <> "user_id".
Proof.
  rewrite model_dump_keys. intros H. apply list_elem_of_In in H. simpl in H.
  repeat (destruct H as [<- | H]; [split; [in_columns | split; discriminate]|]).
  contradiction.
Qed.

Lemma keys_elem (data : list (string * colval)) k v : (k, v) ∈ data -> k ∈ keys data.
Proof.
  intros H. unfold keys. apply list_elem_of_fmap. exists (k, v). split; [reflexivity | exact H].
Qed.

Lemma keys_value (data : list (string * colval)) k v1 v2 :
  NoDup (keys data) -> (k, v1) ∈ data -> (k, v2) ∈ data -> v1 = v2.
Proof.
  induction data as [|[k' v'] data IH]; intros Hnd H1 H2; [inversion H1|].
  unfold keys in Hnd. rewrite fmap_cons in Hnd. apply NoDup_cons in Hnd as [Hk Hnd].
  simpl in Hk.
  apply elem_of_cons in H1 as [E1|H1]; apply elem_of_cons in H2 as [E2|H2].
  - congruence.
  - injection E1 as -> ->. exfalso. apply Hk. apply (keys_elem data k' v2 H2).
  - injection E2 as -> ->. exfalso. apply Hk. apply (keys_elem data k' v1 H1).
  - apply IH; assumption.
Qed.

Lemma update_dict_elem data kv :
  kv ∈ update_dict data <-> kv ∈ model_dump data /\ kv.2 <> Null.
Proof.
  unfold update_dict. rewrite list_elem_of_filter. split.
  - intros [Hv Hin]. split; [exact Hin|]. intros E. rewrite E in Hv. discriminate Hv.
  - intros [Hin Hv]. split; [|exact Hin].
    destruct (colval_eqb kv.2 Null) eqn:E; [|reflexivity].
    apply colval_eqb_eq in E. contradiction.
Qed.

Lemma update_dict_keys data : keys (update_dict data) `sublist_of` keys (model_dump data).
Proof. unfold keys, update_dict. apply fmap_sublist, sublist_filter. Qed.

Lemma update_dict_NoDup data : NoDup (keys (update_dict data)).
Proof. eapply sublist_NoDup; [apply model_dump_NoDup | apply update_dict_keys]. Qed.

(** A field the body leaves [None] is no key of the update. *)
Lemma update_dict_unset data name :
  (name, Null) ∈ model_dump data -> name ∉ keys (update_dict data).
Proof.
  intros Hnull Hin. unfold keys in Hin. apply list_elem_of_fmap in Hin as ([k v] & -> & Hin).
  apply update_dict_elem in Hin as [Hin Hv]. simpl in *.
  apply Hv. apply (keys_value (model_dump data) k); [apply model_dump_NoDup | exact Hin | exact Hnull].
Qed.

(** A row of another member answers no query of the caller. *)
Lemma owned_by_other user_id (r : obj) :
  user_id <> EmptyString -> r !! "user_id" <> Some (CStr user_id) -> owned_by user_id r = false.
Proof.
  intros Hne Hr. destruct (owned_by user_id r) eqn:E; [|reflexivity].
  exfalso. apply Hr. apply owned_by_user; assumption.
Qed.

Lemma filter_iff_on {A} (P Q : A -> Prop) `{!forall x, Decision (P x)}
    `{!forall x, Decision (Q x)} (l : list A) :
  (forall x, x ∈ l -> P x <-> Q x) -> filter P l = filter Q l.
Proof.
  induction l as [|a l IH]; intros Hiff; [reflexivity|].
  assert (Htl : filter P l = filter Q l)
    by (apply IH; intros x Hx; apply Hiff; right; exact Hx).
  destruct (decide (P a)) as [Ha|Ha].
  - rewrite (filter_cons_True P) by exact Ha.
    rewrite (filter_cons_True Q) by (apply Hiff; [left | exact Ha]).
    f_equal. exact Htl.
  - rewrite (filter_cons_False P) by exact Ha.
    rewrite (filter_cons_False Q) by (intros HQ; apply Ha, Hiff; [left | exact HQ]).
    exact Htl.
Qed.

(** On a table with distinct keys [get_by_id] never raises. *)
Lemma get_by_id_returns (M : Model) db obj_id user_id :
  NoDup (row_id <$> table M db) ->
  exists found, get_by_id M db obj_id user_id = Ok found.
Proof.
  intros Hnd.
  destruct (filter (fun r => id_is obj_id r = true) (table M db)) as [|r rest] eqn:E.
  - exists None. apply get_by_id_None. intros r Hr. unfold selects.
    destruct (id_is obj_id r) eqn:Er; [|reflexivity].
    assert (Hin : r ∈ filter (fun r => id_is obj_id r = true) (table M db))
      by (apply list_elem_of_filter; split; assumption).
    rewrite E in Hin. inversion Hin.
  - assert (Hin : r ∈ filter (fun r => id_is obj_id r = true) (table M db))
      by (rewrite E; left).
    apply list_elem_of_filter in Hin as [Hid Hr].
    eexists. apply get_by_id_row; eassumption.
Qed.

(** Deleting the one row with the key makes the table one row shorter. *)
Lemma remove_length (rows : list obj) obj_id o :
  NoDup (row_id <$> rows) -> o ∈ rows -> id_is obj_id o = true ->
  length rows = S (length (remove obj_id rows)).
Proof.
  intros Hnd Ho Hid.
  pose proof (filter_app_complement (fun r => id_is obj_id r = true) rows) as Hperm.
  apply Permutation_length in Hperm. rewrite length_app in Hperm.
  rewrite (filter_only (id_is obj_id) rows o) in Hperm; try assumption.
  - simpl in Hperm. rewrite <- Hperm. f_equal. unfold remove. f_equal.
    apply list_filter_iff. intros r. destruct (id_is obj_id r); split; congruence.
  - eapply NoDup_fmap_1, Hnd.
  - intros r Hr Hir. apply (id_is_same_row rows obj_id); assumption.
Qed.

Lemma remove_NoDup (rows : list obj) obj_id :
  NoDup (row_id <$> rows) -> NoDup (row_id <$> remove obj_id rows).
Proof.
  intros Hnd. eapply sublist_NoDup; [exact Hnd|]. apply fmap_sublist, sublist_filter.
Qed.

(** [delete], once the object is found, commits its removal. *)
Lemma delete_found (M : Model) db obj_id user_id o :
  get_by_id M db obj_id user_id = Ok (Some o) ->
  delete M obj_id user_id db =
  if fails_at 0 db then (Raise DBAPIError, attempted db)
  else (Ok true, with_table M (remove obj_id (table M db)) (attempted db)).
Proof.
  intros Hget. unfold delete. rewrite Hget.
  unfold mbind, io_mbind, io_bind, commit.
  destruct (fails_at 0 db); reflexivity.
Qed.

Lemma delete_missing (M : Model) db obj_id user_id :
  get_by_id M db obj_id user_id = Ok None -> delete M obj_id user_id db = (Ok false, db).
Proof. intros Hget. unfold delete. rewrite Hget. reflexivity. Qed.

(** One turn of the loop of the batch deletion. *)
Lemma delete_each_cons i ids user_id deleted_count db :
  delete_each (i :: ids) user_id deleted_count db =
  match Class_upgradesService.delete (CInt i) user_id db with
  | (Ok success, db') =>
      delete_each ids user_id (if success then deleted_count + 1 else deleted_count) db'
  | (Raise e, db') => (Raise e, db')
  end.
Proof. reflexivity. Qed.

(** The rows a batch deletion of [ids] by [user_id] leaves. *)
Lemma delete_each_effect (ids : list Z) (user_id : string) (deleted_count : Z)
    (db : Session) :
  NoDup (row_id <$> class_upgrades db) ->
  let run := delete_each ids user_id deleted_count db in
  profiles (snd run) = profiles db /\
  exists done,
    done `prefix_of` ids /\
    class_upgrades (snd run) =
      filter (fun r => (owned_by user_id r &&
                        existsb (fun i => id_is (CInt i) r) done) = false)
             (class_upgrades db) /\
    (fst run = Ok (deleted_count + (Z.of_nat (length (class_upgrades db)) -
                                    Z.of_nat (length (class_upgrades (snd run))))) /\
     done = ids \/
     fst run = Raise DBAPIError /\ exists k, fails_at k db = true).
Proof.
  revert deleted_count db.
  induction ids as [|i ids IH]; intros deleted_count db Hnd; cbn zeta.
  { split; [reflexivity|]. exists []. split; [reflexivity|]. simpl. split.
    - symmetry. apply filter_all. intros r _. apply andb_false_r.
    - left. split; [f_equal; lia | reflexivity]. }
  rewrite delete_each_cons. unfold Class_upgradesService.delete.
  destruct (get_by_id_returns Models.Class_upgrades db (CInt i) user_id Hnd) as [found Hget].
  destruct found as [o|].
  - rewrite (delete_found _ _ _ _ _ Hget).
    apply get_by_id_Some in Hget as (Hin & Hid & Hown).
    change (table Models.Class_upgrades db) with (class_upgrades db) in *.
    destruct (fails_at 0 db) eqn:Efail.
    { cbn [fst snd]. split; [reflexivity|]. exists []. split; [apply prefix_nil|]. split.
      - simpl. symmetry. apply filter_all. intros r _. apply andb_false_r.
      - right. split; [reflexivity | exists 0%nat; exact Efail]. }
    set (db1 := with_table Models.Class_upgrades (remove (CInt i) (class_upgrades db))
                  (attempted db)).
    assert (Hrows1 : class_upgrades db1 = remove (CInt i) (class_upgrades db)) by reflexivity.
    assert (Hnd1 : NoDup (row_id <$> class_upgrades db1))
      by (rewrite Hrows1; apply remove_NoDup, Hnd).
    destruct (IH (deleted_count + 1) db1 Hnd1) as (Hprof & done & Hpre & Hrows & Hres).
    split; [exact Hprof|]. exists (i :: done). split; [apply prefix_cons, Hpre|].
    assert (Hrows' : class_upgrades (snd (delete_each ids user_id (deleted_count + 1) db1)) =
              filter (fun r => (owned_by user_id r &&
                                existsb (fun i0 => id_is (CInt i0) r) (i :: done)) = false)
                     (class_upgrades db)).
    { rewrite Hrows, Hrows1. unfold remove. rewrite list_filter_filter.
      apply filter_iff_on. intros r Hr. simpl.
      destruct (id_is (CInt i) r) eqn:Er.
      - assert (r = o) as -> by (apply (id_is_same_row (class_upgrades db) (CInt i)); assumption).
        rewrite Hown. simpl. split; [intros [_ H]; discriminate H | intros H; discriminate H].
      - simpl. split; [intros [H _]; exact H | intros H; split; [exact H | reflexivity]]. }
    split; [exact Hrows'|].
    destruct Hres as [[Hok ->] | [Hraise [k Hk]]].
    + left. split; [|reflexivity]. rewrite Hok. f_equal.
      rewrite Hrows1. rewrite (remove_length (class_upgrades db) (CInt i) o Hnd Hin Hid). lia.
    + right. split; [exact Hraise|]. exists (S k).
      rewrite <- fails_at_attempted. exact Hk.
  - rewrite (delete_missing _ _ _ _ Hget).
    pose proof (proj1 (get_by_id_None _ _ _ _) Hget) as Hnone.
    change (table Models.Class_upgrades db) with (class_upgrades db) in *.
    destruct (IH deleted_count db Hnd) as (Hprof & done & Hpre & Hrows & Hres).
    split; [exact Hprof|]. exists (i :: done). split; [apply prefix_cons, Hpre|].
    split; [|destruct Hres as [[Hok ->] | Hraise]; [left; split; [exact Hok | reflexivity] |
                                                     right; exact Hraise]].
    rewrite Hrows. apply filter_iff_on. intros r Hr. simpl.
    specialize (Hnone r Hr). unfold selects in Hnone.
    destruct (id_is (CInt i) r), (owned_by user_id r); simpl in *;
      try discriminate Hnone; reflexivity.
Qed.

End RouterFacts.

Section RouterProperties.
Import Service Class_upgradesRouter Spec Samples.

(** X25.  The routes of one record answer a record of another member as
    they answer a record that does not exist.  For a caller with a
    [user_id], when no row with the key [id] is the caller's, [GET],
    [PUT] and [DELETE] raise the same 404, ["Class_upgrades not found"],
    and the batch deletion of [id] counts nothing; none of them changes
    the session or attempts a commit. *)
Theorem routes_hide_foreign_records (id : Z) (user_id : string)
    (data : Class_upgradesUpdateData) (db : Session) :
  user_id <> EmptyString ->
  (forall r, r ∈ class_upgrades db -> r !! "id" = Some (CInt id) ->
             r !! "user_id" <> Some (CStr user_id)) ->
  get_class_upgrades id user_id db =
    HTTPException 404 (Text "Class_upgrades not found") /\
  update_class_upgrades id data user_id db =
    (HTTPException 404 (Text "Class_upgrades not found"), db) /\
  delete_class_upgrades id user_id db =
    (HTTPException 404 (Text "Class_upgrades not found"), db) /\
  delete_class_upgradess_batch [id] user_id db = (Returns (batch_deleted 0), db).
Proof.
  intros Huser Hforeign.
  assert (Hnone : get_by_id Models.Class_upgrades db (CInt id) user_id = Ok None).
  { apply get_by_id_None. intros r Hr. unfold selects.
    destruct (id_is (CInt id) r) eqn:E; [|reflexivity]. simpl.
    apply owned_by_other; [exact Huser|]. apply Hforeign; [exact Hr|].
    apply id_is_lookup, E. }
  unfold get_class_upgrades, update_class_upgrades, delete_class_upgrades,
    delete_class_upgradess_batch, delete_each, Class_upgradesService.get_by_id,
    Class_upgradesService.update, Class_upgradesService.delete, update, delete,
    mbind, io_mbind, io_bind.
  rewrite Hnone. repeat split; reflexivity.
Qed.

Lemma routes_hide_foreign_records_witness :
  get_class_upgrades 1 "u2" sample_db_pending =
    HTTPException 404 (Text "Class_upgrades not found") /\
  update_class_upgrades 1
    {| profile_id := None; from_class := None; to_class := None;
       status := Some "active"; payments_in_new_class := Some 3;
       requested_at := None; activated_at := None |} "u2" sample_db_pending =
    (HTTPException 404 (Text "Class_upgrades not found"), sample_db_pending) /\
  delete_class_upgrades 1 "u2" sample_db_pending =
    (HTTPException 404 (Text "Class_upgrades not found"), sample_db_pending) /\
  delete_class_upgradess_batch [1] "u2" sample_db_pending =
    (Returns (batch_deleted 0), sample_db_pending).
Proof.
  apply (routes_hide_foreign_records 1 "u2").
  - discriminate.
  - intros r Hr _. apply list_elem_of_singleton in Hr. subst r. discriminate.
Defined.

(** X26.  [PUT /{id}] is a partial update.  For a record the caller owns
    in a well formed table, when the commit succeeds: every field the
    body sets holds the value sent; every field the body leaves [None]
    keeps its value, so no field can be cleared through the route; the
    key and the owner are kept, whatever the body; and [GET /{id}] then
    returns the updated record. *)
Theorem update_route_partial (id : Z) (data : Class_upgradesUpdateData)
    (user_id : string) (db : Session) (o : obj) :
  well_formed Models.Class_upgrades (class_upgrades db) ->
  o ∈ class_upgrades db -> o !! "id" = Some (CInt id) -> owned_by user_id o = true ->
  fails_at 0 db = false ->
  exists o' db',
    update_class_upgrades id data user_id db = (Returns o', db') /\
    (forall name v, (name, v) ∈ model_dump data -> v <> Null -> o' !! name = Some v) /\
    (forall name, (name, Null) ∈ model_dump data -> o' !! name = o !! name) /\
    (forall name, name ∉ keys (model_dump data) -> o' !! name = o !! name) /\
    o' !! "id" = Some (CInt id) /\
    o' !! "user_id" = o !! "user_id" /\
    get_class_upgrades id user_id db' = Returns o'.
Proof.
  intros (Hinst & Hids & Hnd) Hin Hid Hown Hcommit.
  assert (Hget : get_by_id Models.Class_upgrades db (CInt id) user_id = Ok (Some o))
    by (apply (get_by_id_found Models.Class_upgrades); assumption).
  set (o' := assign o (update_dict data)).
  assert (Hnoid : "id" ∉ keys (update_dict data)).
  { intros H. eapply elem_of_sublist in H; [|apply update_dict_keys].
    apply model_dump_columns in H. tauto. }
  assert (Hid' : o' !! "id" = Some (CInt id))
    by (unfold o'; rewrite assign_other by exact Hnoid; exact Hid).
  exists o'. eexists. split.
  { unfold update_class_upgrades, Class_upgradesService.update.
    rewrite (update_found Models.Class_upgrades db (CInt id) (update_dict data) user_id o Hget).
    rewrite Hcommit. reflexivity. }
  split.
  { intros name v Hv Hne. apply assign_lookup.
    - apply update_dict_NoDup.
    - apply update_dict_elem. split; assumption.
    - rewrite Forall_forall in Hinst. apply (Hinst o Hin).
      apply (model_dump_columns data). apply (keys_elem _ name v Hv).
    - apply (model_dump_columns data). apply (keys_elem _ name v Hv). }
  split; [intros name Hnull; apply assign_other, update_dict_unset, Hnull|].
  split.
  { intros name Hname. apply assign_other. intros H. apply Hname.
    eapply elem_of_sublist; [exact H | apply update_dict_keys]. }
  split; [exact Hid'|]. split; [apply assign_user_id|].
  unfold get_class_upgrades, Class_upgradesService.get_by_id.
  rewrite (get_by_id_found Models.Class_upgrades _ id user_id o'); [reflexivity|..].
  - simpl. rewrite flush_row_ids by exact Hid'. exact Hnd.
  - simpl. unfold flush. eapply list_elem_of_fmap_2'; [exact Hin|].
    rewrite (proj2 (id_is_CInt id o) Hid). reflexivity.
  - exact Hid'.
  - rewrite (owned_by_same_user user_id o); [exact Hown | apply assign_user_id].
Qed.

Lemma update_route_partial_witness :
  let data := {| profile_id := None; from_class := None; to_class := None;
                 status := Some "active"; payments_in_new_class := Some 3;
                 requested_at := None; activated_at := None |} in
  exists o' db',
    update_class_upgrades 1 data "u1" sample_db_pending = (Returns o', db') /\
    (forall name v, (name, v) ∈ model_dump data -> v <> Null -> o' !! name = Some v) /\
    (forall name, (name, Null) ∈ model_dump data -> o' !! name = sample_upgrade !! name) /\
    (forall name, name ∉ keys (model_dump data) -> o' !! name = sample_upgrade !! name) /\
    o' !! "id" = Some (CInt 1) /\
    o' !! "user_id" = sample_upgrade !! "user_id" /\
    get_class_upgrades 1 "u1" db' = Returns o'.
Proof.
  apply (update_route_partial 1 _ "u1" sample_db_pending sample_upgrade).
  - apply sample_upgrades_well_formed.
  - left.
  - reflexivity.
  - reflexivity.
  - reflexivity.
Defined.

(** X27.  What [DELETE /batch] deletes and counts.  On a table with
    distinct keys, whatever the commits do: the profiles are untouched,
    and the rows gone are exactly the caller's rows whose key is among
    the ids the loop has gone through, a prefix of the request.  Either
    the loop went through every id, and the answer's [deleted_count] is
    the number of rows gone, a key listed twice or owned by someone else
    counting for nothing; or a commit failed and the answer is the 500
    ["Batch delete failed: ..."]. *)
Theorem delete_batch_effect (ids : list Z) (user_id : string) (db : Session) :
  NoDup (row_id <$> class_upgrades db) ->
  let run := delete_class_upgradess_batch ids user_id db in
  profiles (snd run) = profiles db /\
  exists done,
    done `prefix_of` ids /\
    class_upgrades (snd run) =
      filter (fun r => (owned_by user_id r &&
                        existsb (fun i => id_is (CInt i) r) done) = false)
             (class_upgrades db) /\
    (fst run = Returns (batch_deleted (Z.of_nat (length (class_upgrades db)) -
                                       Z.of_nat (length (class_upgrades (snd run))))) /\
     done = ids \/
     fst run = HTTPException 500 (Quoting "Batch delete failed: " DBAPIError) /\
     exists k, fails_at k db = true).
Proof.
  intros Hnd. cbn zeta. unfold delete_class_upgradess_batch.
  destruct (delete_each_effect ids user_id 0 db Hnd) as (Hprof & done & Hpre & Hrows & Hres).
  destruct (delete_each ids user_id 0 db) as [[n|e] db'] eqn:Erun; cbn [fst snd] in *.
  - split; [exact Hprof|]. exists done. split; [exact Hpre|]. split; [exact Hrows|].
    destruct Hres as [[Hok ->] | [Hraise _]]; [|discriminate Hraise].
    left. split; [|reflexivity]. injection Hok as ->. f_equal.
  - split; [exact Hprof|]. exists done. split; [exact Hpre|]. split; [exact Hrows|].
    destruct Hres as [[Hok _] | [Hraise Hk]]; [discriminate Hok|].
    right. split; [|exact Hk]. injection Hraise as ->. reflexivity.
Qed.

Lemma delete_batch_effect_witness :
  let db := sample_db_pending in
  let run := delete_class_upgradess_batch [1; 5; 1] "u1" db in
  profiles (snd run) = profiles db /\
  exists done,
    done `prefix_of` [1; 5; 1] /\
    class_upgrades (snd run) =
      filter (fun r => (owned_by "u1" r &&
                        existsb (fun i => id_is (CInt i) r) done) = false)
             (class_upgrades db) /\
    (fst run = Returns (batch_deleted (Z.of_nat (length (class_upgrades db)) -
                                       Z.of_nat (length (class_upgrades (snd run))))) /\
     done = [1; 5; 1] \/
     fst run = HTTPException 500 (Quoting "Batch delete failed: " DBAPIError) /\
     exists k, fails_at k db = true).
Proof.
  apply (delete_batch_effect [1; 5; 1] "u1" sample_db_pending).
  simpl. apply NoDup_singleton.
Defined.

(** X28.  [DELETE /batch] is not all or nothing.  On a table with
    distinct keys, when the caller owns the rows with the first two keys
    of the request, the first commit succeeds and the second fails, the
    answer is the 500 ["Batch delete failed: ..."], and yet the first row
    is gone for good: the table is left without it, the second row still
    in place. *)
Theorem delete_batch_partial (i j : Z) (rest : list Z) (user_id : string)
    (db : Session) (ri rj : obj) :
  NoDup (row_id <$> class_upgrades db) ->
  ri ∈ class_upgrades db -> ri !! "id" = Some (CInt i) -> owned_by user_id ri = true ->
  rj ∈ class_upgrades db -> rj !! "id" = Some (CInt j) -> owned_by user_id rj = true ->
  i <> j ->
  fails_at 0 db = false -> fails_at 1 db = true ->
  let run := delete_class_upgradess_batch (i :: j :: rest) user_id db in
  fst run = HTTPException 500 (Quoting "Batch delete failed: " DBAPIError) /\
  class_upgrades (snd run) = remove (CInt i) (class_upgrades db) /\
  (ri ∉ class_upgrades (snd run)) /\
  rj ∈ class_upgrades (snd run).
Proof.
  intros Hnd Hri Hi Howni Hrj Hj Hownj Hij Hfirst Hsecond. cbn zeta.
  assert (Hgeti : get_by_id Models.Class_upgrades db (CInt i) user_id = Ok (Some ri))
    by (apply (get_by_id_found Models.Class_upgrades); assumption).
  set (db1 := with_table Models.Class_upgrades (remove (CInt i) (class_upgrades db))
                (attempted db)).
  assert (Hidj : id_is (CInt i) rj = false).
  { destruct (id_is (CInt i) rj) eqn:E; [|reflexivity].
    apply id_is_lookup in E. congruence. }
  assert (Hrj1 : rj ∈ class_upgrades db1).
  { change (class_upgrades db1) with (remove (CInt i) (class_upgrades db)).
    unfold remove. apply list_elem_of_filter. split; assumption. }
  assert (Hri1 : ri ∉ class_upgrades db1).
  { change (class_upgrades db1) with (remove (CInt i) (class_upgrades db)).
    unfold remove. rewrite list_elem_of_filter. intros [E _].
    rewrite (proj2 (id_is_CInt i ri) Hi) in E. discriminate E. }
  assert (Hgetj : get_by_id Models.Class_upgrades db1 (CInt j) user_id = Ok (Some rj)).
  { apply (get_by_id_found Models.Class_upgrades); try assumption.
    change (table Models.Class_upgrades db1) with (remove (CInt i) (class_upgrades db)).
    apply remove_NoDup, Hnd. }
  assert (Hfail1 : fails_at 0 db1 = true).
  { change (fails_at 0 db1) with (fails_at 0 (attempted db)).
    rewrite fails_at_attempted. exact Hsecond. }
  unfold delete_class_upgradess_batch.
  rewrite delete_each_cons. unfold Class_upgradesService.delete.
  rewrite (delete_found _ _ _ _ _ Hgeti), Hfirst.
  change (table Models.Class_upgrades db) with (class_upgrades db). fold db1.
  rewrite delete_each_cons. unfold Class_upgradesService.delete.
  rewrite (delete_found _ _ _ _ _ Hgetj), Hfail1.
  cbn [fst snd]. repeat split; assumption.
Qed.

Lemma delete_batch_partial_witness :
  let second := <["id" := CInt 2]> sample_upgrade in
  let db := {| profiles := [sample_profile]; class_upgrades := [sample_upgrade; second];
               commit_faults := [false; true] |} in
  let run := delete_class_upgradess_batch [1; 2] "u1" db in
  fst run = HTTPException 500 (Quoting "Batch delete failed: " DBAPIError) /\
  class_upgrades (snd run) = remove (CInt 1) (class_upgrades db) /\
  (sample_upgrade ∉ class_upgrades (snd run)) /\
  second ∈ class_upgrades (snd run).
Proof.
  apply (delete_batch_partial 1 2 [] "u1"
           {| profiles := [sample_profile];
              class_upgrades := [sample_upgrade; <["id" := CInt 2]> sample_upgrade];
              commit_faults := [false; true] |}
           sample_upgrade (<["id" := CInt 2]> sample_upgrade)).
  - simpl. apply NoDup_cons_2; [|apply NoDup_singleton].
    intros H. apply list_elem_of_singleton in H. discriminate H.
  - left.
  - reflexivity.
  - reflexivity.
  - right. left.
  - reflexivity.
  - reflexivity.
  - discriminate.
  - reflexivity.
  - reflexivity.
Defined.

(** X29.  [POST] then [GET].  For a caller with a [user_id], a well
    formed table and a commit that succeeds, the route stores the body
    under a key no row had: the record holds every field as sent, [None]
    included, and the caller as its owner, which the body cannot choose.
    [GET /{id}] with the new key returns the record to the caller, and
    answers any other member with the 404. *)
Theorem create_route_get_route (data : Class_upgradesData) (user_id : string)
    (db : Session) :
  user_id <> EmptyString ->
  well_formed Models.Class_upgrades (class_upgrades db) ->
  fails_at 0 db = false ->
  exists new uid db',
    create_class_upgrades data user_id db = (Returns new, db') /\
    new !! "id" = Some (CInt uid) /\
    (forall r, r ∈ class_upgrades db -> r !! "id" <> Some (CInt uid)) /\
    new !! "user_id" = Some (CStr user_id) /\
    (forall name v, (name, v) ∈ model_dump data -> new !! name = Some v) /\
    class_upgrades db' = class_upgrades db ++ [new] /\
    get_class_upgrades uid user_id db' = Returns new /\
    (forall other, other <> EmptyString -> other <> user_id ->
       get_class_upgrades uid other db' =
         HTTPException 404 (Text "Class_upgrades not found")).
Proof.
  intros Huser Hwf Hcommit.
  destruct (create_stored (model_dump data) user_id db Huser (model_dump_NoDup data))
    as (new & uid & db' & Hrun & Hid & Hfresh & Hown & Hdata & _ & Hrows & _ & Hwf' & Hget);
    [|exact Hwf|exact Hcommit|].
  { apply Forall_forall. intros k Hk. apply model_dump_columns in Hk. tauto. }
  exists new, uid, db'. split.
  { unfold create_class_upgrades. rewrite Hrun. reflexivity. }
  split; [exact Hid|]. split; [exact Hfresh|]. split; [exact Hown|]. split.
  { intros name v Hv. apply Hdata; [exact Hv|].
    apply (model_dump_columns data). apply (keys_elem _ name v Hv). }
  split; [exact Hrows|]. split.
  { unfold get_class_upgrades. rewrite Hget. reflexivity. }
  intros other Hother Hne. unfold get_class_upgrades, Class_upgradesService.get_by_id.
  destruct Hwf' as (_ & _ & Hnd').
  rewrite (get_by_id_row Models.Class_upgrades db' (CInt uid) other new).
  - rewrite owned_by_other; [reflexivity | exact Hother|]. rewrite Hown. congruence.
  - exact Hnd'.
  - simpl. rewrite Hrows. apply elem_of_app. right. left.
  - apply id_is_CInt, Hid.
Qed.

Lemma create_route_get_route_witness :
  let data := {| profile_id := Some 7; from_class := Some "B"; to_class := Some "C";
                 status := Some "pending"; payments_in_new_class := None;
                 requested_at := None; activated_at := None |} in
  exists new uid db',
    create_class_upgrades data "u1" sample_db_pending = (Returns new, db') /\
    new !! "id" = Some (CInt uid) /\
    (forall r, r ∈ class_upgrades sample_db_pending -> r !! "id" <> Some (CInt uid)) /\
    new !! "user_id" = Some (CStr "u1") /\
    (forall name v, (name, v) ∈ model_dump data -> new !! name = Some v) /\
    class_upgrades db' = class_upgrades sample_db_pending ++ [new] /\
    get_class_upgrades uid "u1" db' = Returns new /\
    (forall other, other <> EmptyString -> other <> "u1" ->
       get_class_upgrades uid other db' =
         HTTPException 404 (Text "Class_upgrades not found")).
Proof.
  apply (create_route_get_route _ "u1" sample_db_pending).
  - discriminate.
  - apply sample_upgrades_well_formed.
  - reflexivity.
Defined.

End RouterProperties.
